(** * Fintech agent API: the in-memory store, its lifecycle rules and the
      checker endpoints

    A shallow embedding of [src/data/mockData.js] (the entity store) and of
    the route handlers in [src/routes/*.js].

    - Entities are records whose fields follow the OpenAPI schemas of
      [src/config/swagger.js]; a nullable field is an [option], and so is a
      field that some records carry and others do not ([rejectionReason]).
      Request bodies and query strings carry the fields the route documents,
      at the documented types; a field that is not sent is [None].
    - A JS number is an IEEE binary64 value: Rocq's primitive [float].
    - The module-level arrays of [mockData.js] are the fields of [Store];
      a function that mutates them returns the new store.
    - [new Date()] is an input of every operation: the number of
      milliseconds since the epoch at the moment the request is handled.
      The reads of the clock made while one request is handled are taken at
      the same instant. *)

From Stdlib Require Import ZArith String Ascii List Bool.
From Stdlib Require Import Floats.PrimFloat Floats.SpecFloat Floats.FloatOps.
From Stdlib Require Floats.FloatAxioms.
From stdpp Require Import base option list strings pretty.
Import ListNotations.

Local Open Scope string_scope.

(** ** The JavaScript built-ins the handlers rely on *)

Module JS.

(** [!s] is true exactly for the empty string. *)
Definition truthy_string (s : string) : bool := negb (String.eqb s "").

(** [!x] is true for [0], [-0] and [NaN]. *)
Definition truthy_number (x : float) : bool :=
  negb (PrimFloat.is_zero x || PrimFloat.is_nan x).

(** A field that is [undefined] or [null] is falsy. *)
Definition truthy_opt {A} (truthy : A -> bool) (o : option A) : bool :=
  match o with
  | Some a => truthy a
  | None => false
  end.

(** [a <= b], [a >= b] and [a < b] on numbers (false when a side is NaN). *)
Definition le (a b : float) : bool := PrimFloat.leb a b.
Definition ge (a b : float) : bool := PrimFloat.leb b a.
Definition lt (a b : float) : bool := PrimFloat.ltb a b.

(** [o === 'lit'] for a field that may be absent. *)
Definition opt_is (o : option string) (lit : string) : bool :=
  match o with
  | Some s => String.eqb s lit
  | None => false
  end.

(** [s.padStart(n, c)] with a one-character filler. *)
Definition padStart (n : nat) (c : ascii) (s : string) : string :=
  string_of_list_ascii (repeat c (n - String.length s)) +:+ s.

(** [Array.prototype.join]. *)
Fixpoint join (sep : string) (l : list string) : string :=
  match l with
  | [] => ""
  | [x] => x
  | x :: r => x +:+ sep +:+ join sep r
  end.

(** *** [parseFloat]

    The longest prefix of the input, after leading white space, that is a
    [StrDecimalLiteral]; its mathematical value rounded to the nearest
    binary64 (ties to even); [NaN] when there is no such prefix.  Strings
    are sequences of code units below 256. *)

Definition is_digit (c : ascii) : bool :=
  let n := nat_of_ascii c in (48 <=? n)%nat && (n <=? 57)%nat.

Definition digit_val (c : ascii) : Z := Z.of_nat (nat_of_ascii c) - 48.

Definition is_space (c : ascii) : bool :=
  match nat_of_ascii c with
  | 9 | 10 | 11 | 12 | 13 | 32 | 160 => true
  | _ => false
  end%nat.

Fixpoint skip_space (s : string) : string :=
  match s with
  | String c r => if is_space c then skip_space r else s
  | EmptyString => s
  end.

(** The maximal run of decimal digits at the head of [s]: the number read
    so far, how many digits were read, and what follows them. *)
Fixpoint digits (acc : Z) (n : nat) (s : string) : Z * nat * string :=
  match s with
  | String c r =>
      if is_digit c then digits (10 * acc + digit_val c) (S n) r
      else (acc, n, s)
  | EmptyString => (acc, n, s)
  end.

(** An [ExponentPart] at the head of [s], or 0 when there is none. *)
Definition exponent (s : string) : Z :=
  match s with
  | String c r =>
      if Ascii.eqb c "e" || Ascii.eqb c "E" then
        let '(neg, r') :=
          match r with
          | String "-" r' => (true, r')
          | String "+" r' => (false, r')
          | _ => (false, r)
          end in
        let '(v, n, _) := digits 0 0 r' in
        if (n =? 0)%nat then 0 else if neg then - v else v
      else 0
  | EmptyString => 0
  end%Z.

(** The binary64 nearest to [(-1)^neg * m * 10^d]. *)
Definition of_decimal (neg : bool) (m d : Z) : float :=
  let num := (m * 10 ^ Z.max 0 d)%Z in
  let den := (10 ^ Z.max 0 (- d))%Z in
  let '(q, e, l) := SFdiv_core_binary prec emax num 0 den 0 in
  SF2Prim (binary_round_aux prec emax neg q e l).

Definition parseFloat (s : string) : float :=
  let t := skip_space s in
  let '(neg, t) :=
    match t with
    | String "-" r => (true, r)
    | String "+" r => (false, r)
    | _ => (false, t)
    end in
  if String.prefix "Infinity" t then
    (if neg then neg_infinity else infinity)
  else
    let '(i, ni, t1) := digits 0 0 t in
    let '(f, nf, t2) :=
      match t1 with
      | String "." r => digits i 0 r
      | _ => (i, 0%nat, t1)
      end in
    if (ni + nf =? 0)%nat then nan
    else of_decimal neg f (exponent t2 - Z.of_nat nf).

Definition isNaN (x : float) : bool := PrimFloat.is_nan x.

(** *** [Date.prototype.toISOString]

    [t] is a time value: milliseconds since 1970-01-01T00:00:00Z. *)

Definition pad (n : nat) (z : Z) : string :=
  padStart n "0" (pretty (Z.to_N z)).

(** Days since the epoch to (year, month, day) of the proleptic Gregorian
    calendar. *)
Definition civil_from_days (days : Z) : Z * Z * Z :=
  (let z := days + 719468 in
  let era := z / 146097 in
  let doe := z - era * 146097 in
  let yoe := (doe - doe / 1460 + doe / 36524 - doe / 146096) / 365 in
  let doy := doe - (365 * yoe + yoe / 4 - yoe / 100) in
  let mp := (5 * doy + 2) / 153 in
  let d := doy - (153 * mp + 2) / 5 + 1 in
  let m := if mp <? 10 then mp + 3 else mp - 9 in
  let y := yoe + era * 400 + (if m <=? 2 then 1 else 0) in
  (y, m, d))%Z.

Definition year_string (y : Z) : string :=
  if (0 <=? y)%Z && (y <=? 9999)%Z then pad 4 y
  else if (y <? 0)%Z then "-" +:+ pad 6 (- y)
  else "+" +:+ pad 6 y.

Definition toISOString (t : Z) : string :=
  let days := (t / 86400000)%Z in
  let ms := (t mod 86400000)%Z in
  let '(y, m, d) := civil_from_days days in
  year_string y +:+ "-" +:+ pad 2 m +:+ "-" +:+ pad 2 d +:+ "T"
    +:+ pad 2 (ms / 3600000)%Z +:+ ":" +:+ pad 2 (ms / 60000 mod 60)%Z
    +:+ ":" +:+ pad 2 (ms / 1000 mod 60)%Z +:+ "." +:+ pad 3 (ms mod 1000)%Z
    +:+ "Z".

(** *** [Number::toString], the rendering of a number in a template literal

    For a finite non-zero [x]: the digits [s] (with [k] of them, [k] as small
    as possible) and the exponent [n] such that [s * 10^(n-k)] rounds to [x];
    among several [s], the one nearest to [x], the even one on a tie. *)

(** The least [n], searched upwards from [n0], with [p / q < 10^n]. *)
Fixpoint decimal_exponent (fuel : nat) (p q n0 : Z) : Z :=
  match fuel with
  | O => n0
  | S fuel' =>
      if (p * 10 ^ Z.max 0 (- n0) <? q * 10 ^ Z.max 0 n0)%Z then n0
      else decimal_exponent fuel' p q (n0 + 1)
  end.

(** The digits for [p / q], whose binary64 is [x], trying [k], [k+1], ... *)
Fixpoint shortest_digits (fuel : nat) (x : float) (p q n : Z) (k : Z) : Z * Z :=
  let num := (p * 10 ^ Z.max 0 (k - n))%Z in
  let den := (q * 10 ^ Z.max 0 (n - k))%Z in
  let lo := (num / den)%Z in
  let hi := (lo + 1)%Z in
  let lo_ok := PrimFloat.eqb (of_decimal false lo (n - k)) x in
  let hi_ok := PrimFloat.eqb (of_decimal false hi (n - k)) x in
  let nearest :=
    match (2 * num ?= (2 * lo + 1) * den)%Z with
    | Lt => lo
    | Gt => hi
    | Eq => if Z.even lo then lo else hi
    end in
  match fuel with
  | O => (lo, k)
  | S fuel' =>
      if lo_ok && hi_ok then (nearest, k)
      else if lo_ok then (lo, k)
      else if hi_ok then (hi, k)
      else shortest_digits fuel' x p q n (k + 1)
  end.

Fixpoint strip_zeros (fuel : nat) (s : Z) : Z :=
  match fuel with
  | O => s
  | S fuel' => if (s mod 10 =? 0)%Z then strip_zeros fuel' (s / 10) else s
  end.

Definition zeros (n : Z) : string :=
  string_of_list_ascii (repeat "0"%char (Z.to_nat n)).

Definition exponent_suffix (n : Z) : string :=
  "e" +:+ (if (0 <=? n - 1)%Z then "+" else "-") +:+ pretty (Z.abs_N (n - 1)).

Definition finite_toString (x : float) (m : positive) (e : Z) : string :=
  let p := (Zpos m * 2 ^ Z.max 0 e)%Z in
  let q := (2 ^ Z.max 0 (- e))%Z in
  let n0 := decimal_exponent 700 p q (-330) in
  let '(s, k) := shortest_digits 20 x p q n0 1 in
  let n := (n0 + (Z.of_nat (String.length (pretty (Z.to_N s))) - k))%Z in
  let ds := pretty (Z.to_N (strip_zeros 25 s)) in
  let k := Z.of_nat (String.length ds) in
  if (k <=? n)%Z && (n <=? 21)%Z then ds +:+ zeros (n - k)
  else if (0 <? n)%Z && (n <=? 21)%Z then
    String.substring 0 (Z.to_nat n) ds +:+ "."
      +:+ String.substring (Z.to_nat n) (Z.to_nat (k - n)) ds
  else if (-6 <? n)%Z && (n <=? 0)%Z then "0." +:+ zeros (- n) +:+ ds
  else if (k =? 1)%Z then ds +:+ exponent_suffix n
  else
    String.substring 0 1 ds +:+ "."
      +:+ String.substring 1 (Z.to_nat (k - 1)) ds +:+ exponent_suffix n.

Definition Number_toString (x : float) : string :=
  match Prim2SF x with
  | S754_nan => "NaN"
  | S754_zero _ => "0"
  | S754_infinity s => if s then "-Infinity" else "Infinity"
  | S754_finite s m e =>
      (if s then "-" else "") +:+ finite_toString (PrimFloat.abs x) m e
  end.

(** *** [Math.floor], [Array.prototype.includes] and the order of strings *)

(** The float that is the integer [z] (exact below [2^53]). *)
Definition of_integer (z : Z) : float :=
  SF2Prim (binary_normalize prec emax z 0 false).

Definition floor (x : float) : float :=
  match Prim2SF x with
  | S754_finite s m e =>
      if (0 <=? e)%Z then x
      else of_integer ((if s then Zneg m else Zpos m) / 2 ^ (- e))%Z
  | _ => x
  end.

Definition includes (l : list string) (x : string) : bool :=
  existsb (String.eqb x) l.

(** [a >= b] and [a <= b] on strings: the order of the code units. *)
Definition string_ge (a b : string) : bool := String.leb b a.
Definition string_le (a b : string) : bool := String.leb a b.

(** [if (q) { l = l.filter(x => keep(q, x)) }] for a query parameter [q]. *)
Definition filter_if {A} (q : option string) (keep : string → A → bool)
    (l : list A) : list A :=
  match q with
  | Some v => if truthy_string v then List.filter (keep v) l else l
  | None => l
  end.

End JS.


(** ** The entities of [mockData.js]

    One record type per resource.  For the resources that have an update
    operation, a second record type models the [updates] argument. *)

Module Account.

Record t := mk {
  id : string; customerId : string; type : string; currency : string;
  balance : float; status : string; accountNumber : string;
  createdAt : string; updatedAt : string
}.

(** [x.updatedAt = v] *)
Definition set_updatedAt (v : string) (x : t) : t :=
  {| id := x.(id); customerId := x.(customerId); type := x.(type);
     currency := x.(currency); balance := x.(balance); status := x.(status);
     accountNumber := x.(accountNumber); createdAt := x.(createdAt);
     updatedAt := v |}.

End Account.

(** An object literal with some of the fields of [Account.t]; a field it
    does not carry is [None]. *)
Module AccountPatch.

Record t := mk {
  id : option string; customerId : option string; type : option string;
  currency : option string; balance : option float; status : option string;
  accountNumber : option string; createdAt : option string;
  updatedAt : option string
}.

End AccountPatch.

(** [{ ...x, ...u }] *)
Definition spreadAccount (x : Account.t) (u : AccountPatch.t) : Account.t :=
  {| Account.id := default x.(Account.id) u.(AccountPatch.id);
     Account.customerId :=
       default x.(Account.customerId) u.(AccountPatch.customerId);
     Account.type := default x.(Account.type) u.(AccountPatch.type);
     Account.currency := default x.(Account.currency) u.(AccountPatch.currency);
     Account.balance := default x.(Account.balance) u.(AccountPatch.balance);
     Account.status := default x.(Account.status) u.(AccountPatch.status);
     Account.accountNumber :=
       default x.(Account.accountNumber) u.(AccountPatch.accountNumber);
     Account.createdAt :=
       default x.(Account.createdAt) u.(AccountPatch.createdAt);
     Account.updatedAt :=
       default x.(Account.updatedAt) u.(AccountPatch.updatedAt) |}.

Module Transaction.

Record t := mk {
  id : string; accountId : string; type : string; amount : float;
  currency : string; description : string; status : string;
  counterparty : string; initiatedAt : string; processedAt : option string;
  reference : string
}.

End Transaction.

Module Payment.

Record t := mk {
  id : string; accountId : string; beneficiary : string;
  beneficiaryAccount : string; amount : float; currency : string;
  method : string; status : string; reference : string;
  initiatedAt : string; completedAt : option string; kycComplete : bool;
  sufficientBalance : bool
}.

(** [x.completedAt = v] *)
Definition set_completedAt (v : option string) (x : t) : t :=
  {| id := x.(id); accountId := x.(accountId);
     beneficiary := x.(beneficiary);
     beneficiaryAccount := x.(beneficiaryAccount); amount := x.(amount);
     currency := x.(currency); method := x.(method); status := x.(status);
     reference := x.(reference); initiatedAt := x.(initiatedAt);
     completedAt := v; kycComplete := x.(kycComplete);
     sufficientBalance := x.(sufficientBalance) |}.

End Payment.

(** An object literal with some of the fields of [Payment.t]; a field it does
    not carry is [None]. *)
Module PaymentPatch.

Record t := mk {
  id : option string; accountId : option string;
  beneficiary : option string; beneficiaryAccount : option string;
  amount : option float; currency : option string; method : option string;
  status : option string; reference : option string;
  initiatedAt : option string; completedAt : option (option string);
  kycComplete : option bool; sufficientBalance : option bool
}.

End PaymentPatch.

(** [{ ...x, ...u }] *)
Definition spreadPayment (x : Payment.t) (u : PaymentPatch.t) : Payment.t :=
  {| Payment.id := default x.(Payment.id) u.(PaymentPatch.id);
     Payment.accountId :=
       default x.(Payment.accountId) u.(PaymentPatch.accountId);
     Payment.beneficiary :=
       default x.(Payment.beneficiary) u.(PaymentPatch.beneficiary);
     Payment.beneficiaryAccount :=
       default x.(Payment.beneficiaryAccount)
         u.(PaymentPatch.beneficiaryAccount);
     Payment.amount := default x.(Payment.amount) u.(PaymentPatch.amount);
     Payment.currency :=
       default x.(Payment.currency) u.(PaymentPatch.currency);
     Payment.method := default x.(Payment.method) u.(PaymentPatch.method);
     Payment.status := default x.(Payment.status) u.(PaymentPatch.status);
     Payment.reference :=
       default x.(Payment.reference) u.(PaymentPatch.reference);
     Payment.initiatedAt :=
       default x.(Payment.initiatedAt) u.(PaymentPatch.initiatedAt);
     Payment.completedAt :=
       default x.(Payment.completedAt) u.(PaymentPatch.completedAt);
     Payment.kycComplete :=
       default x.(Payment.kycComplete) u.(PaymentPatch.kycComplete);
     Payment.sufficientBalance :=
       default x.(Payment.sufficientBalance)
         u.(PaymentPatch.sufficientBalance) |}.

Module Loan.

Record t := mk {
  id : string; customerId : string; accountId : string; amount : float;
  currency : string; purpose : string; tenure : float;
  interestRate : float; status : string; creditScore : float;
  eligible : bool; appliedAt : string; approvedAt : option string;
  disbursedAt : option string; rejectionReason : option string;
  monthlyPayment : option float; remainingBalance : option float
}.

(** [x.approvedAt = v] *)
Definition set_approvedAt (v : option string) (x : t) : t :=
  {| id := x.(id); customerId := x.(customerId);
     accountId := x.(accountId); amount := x.(amount);
     currency := x.(currency); purpose := x.(purpose);
     tenure := x.(tenure); interestRate := x.(interestRate);
     status := x.(status); creditScore := x.(creditScore);
     eligible := x.(eligible); appliedAt := x.(appliedAt); approvedAt := v;
     disbursedAt := x.(disbursedAt);
     rejectionReason := x.(rejectionReason);
     monthlyPayment := x.(monthlyPayment);
     remainingBalance := x.(remainingBalance) |}.

(** [x.disbursedAt = v] *)
Definition set_disbursedAt (v : option string) (x : t) : t :=
  {| id := x.(id); customerId := x.(customerId);
     accountId := x.(accountId); amount := x.(amount);
     currency := x.(currency); purpose := x.(purpose);
     tenure := x.(tenure); interestRate := x.(interestRate);
     status := x.(status); creditScore := x.(creditScore);
     eligible := x.(eligible); appliedAt := x.(appliedAt);
     approvedAt := x.(approvedAt); disbursedAt := v;
     rejectionReason := x.(rejectionReason);
     monthlyPayment := x.(monthlyPayment);
     remainingBalance := x.(remainingBalance) |}.

End Loan.

(** An object literal with some of the fields of [Loan.t]; a field it does
    not carry is [None]. *)
Module LoanPatch.

Record t := mk {
  id : option string; customerId : option string;
  accountId : option string; amount : option float;
  currency : option string; purpose : option string; tenure : option float;
  interestRate : option float; status : option string;
  creditScore : option float; eligible : option bool;
  appliedAt : option string; approvedAt : option (option string);
  disbursedAt : option (option string);
  rejectionReason : option (option string);
  monthlyPayment : option (option float);
  remainingBalance : option (option float)
}.

End LoanPatch.

(** [{ ...x, ...u }] *)
Definition spreadLoan (x : Loan.t) (u : LoanPatch.t) : Loan.t :=
  {| Loan.id := default x.(Loan.id) u.(LoanPatch.id);
     Loan.customerId := default x.(Loan.customerId) u.(LoanPatch.customerId);
     Loan.accountId := default x.(Loan.accountId) u.(LoanPatch.accountId);
     Loan.amount := default x.(Loan.amount) u.(LoanPatch.amount);
     Loan.currency := default x.(Loan.currency) u.(LoanPatch.currency);
     Loan.purpose := default x.(Loan.purpose) u.(LoanPatch.purpose);
     Loan.tenure := default x.(Loan.tenure) u.(LoanPatch.tenure);
     Loan.interestRate :=
       default x.(Loan.interestRate) u.(LoanPatch.interestRate);
     Loan.status := default x.(Loan.status) u.(LoanPatch.status);
     Loan.creditScore :=
       default x.(Loan.creditScore) u.(LoanPatch.creditScore);
     Loan.eligible := default x.(Loan.eligible) u.(LoanPatch.eligible);
     Loan.appliedAt := default x.(Loan.appliedAt) u.(LoanPatch.appliedAt);
     Loan.approvedAt := default x.(Loan.approvedAt) u.(LoanPatch.approvedAt);
     Loan.disbursedAt :=
       default x.(Loan.disbursedAt) u.(LoanPatch.disbursedAt);
     Loan.rejectionReason :=
       default x.(Loan.rejectionReason) u.(LoanPatch.rejectionReason);
     Loan.monthlyPayment :=
       default x.(Loan.monthlyPayment) u.(LoanPatch.monthlyPayment);
     Loan.remainingBalance :=
       default x.(Loan.remainingBalance) u.(LoanPatch.remainingBalance) |}.

Module AirtimePurchase.

Record t := mk {
  id : string; accountId : string; phoneNumber : string; amount : float;
  currency : string; provider : string; status : string;
  transactionReference : string; purchasedAt : string;
  completedAt : option string; deliveryStatus : string
}.

(** [x.completedAt = v] *)
Definition set_completedAt (v : option string) (x : t) : t :=
  {| id := x.(id); accountId := x.(accountId);
     phoneNumber := x.(phoneNumber); amount := x.(amount);
     currency := x.(currency); provider := x.(provider);
     status := x.(status);
     transactionReference := x.(transactionReference);
     purchasedAt := x.(purchasedAt); completedAt := v;
     deliveryStatus := x.(deliveryStatus) |}.

(** [x.deliveryStatus = v] *)
Definition set_deliveryStatus (v : string) (x : t) : t :=
  {| id := x.(id); accountId := x.(accountId);
     phoneNumber := x.(phoneNumber); amount := x.(amount);
     currency := x.(currency); provider := x.(provider);
     status := x.(status);
     transactionReference := x.(transactionReference);
     purchasedAt := x.(purchasedAt); completedAt := x.(completedAt);
     deliveryStatus := v |}.

End AirtimePurchase.

(** An object literal with some of the fields of [AirtimePurchase.t]; a
    field it does not carry is [None]. *)
Module AirtimePurchasePatch.

Record t := mk {
  id : option string; accountId : option string;
  phoneNumber : option string; amount : option float;
  currency : option string; provider : option string;
  status : option string; transactionReference : option string;
  purchasedAt : option string; completedAt : option (option string);
  deliveryStatus : option string
}.

End AirtimePurchasePatch.

(** [{ ...x, ...u }] *)
Definition spreadAirtimePurchase (x : AirtimePurchase.t)
    (u : AirtimePurchasePatch.t) : AirtimePurchase.t :=
  {| AirtimePurchase.id :=
       default x.(AirtimePurchase.id) u.(AirtimePurchasePatch.id);
     AirtimePurchase.accountId :=
       default x.(AirtimePurchase.accountId)
         u.(AirtimePurchasePatch.accountId);
     AirtimePurchase.phoneNumber :=
       default x.(AirtimePurchase.phoneNumber)
         u.(AirtimePurchasePatch.phoneNumber);
     AirtimePurchase.amount :=
       default x.(AirtimePurchase.amount) u.(AirtimePurchasePatch.amount);
     AirtimePurchase.currency :=
       default x.(AirtimePurchase.currency) u.(AirtimePurchasePatch.currency);
     AirtimePurchase.provider :=
       default x.(AirtimePurchase.provider) u.(AirtimePurchasePatch.provider);
     AirtimePurchase.status :=
       default x.(AirtimePurchase.status) u.(AirtimePurchasePatch.status);
     AirtimePurchase.transactionReference :=
       default x.(AirtimePurchase.transactionReference)
         u.(AirtimePurchasePatch.transactionReference);
     AirtimePurchase.purchasedAt :=
       default x.(AirtimePurchase.purchasedAt)
         u.(AirtimePurchasePatch.purchasedAt);
     AirtimePurchase.completedAt :=
       default x.(AirtimePurchase.completedAt)
         u.(AirtimePurchasePatch.completedAt);
     AirtimePurchase.deliveryStatus :=
       default x.(AirtimePurchase.deliveryStatus)
         u.(AirtimePurchasePatch.deliveryStatus) |}.

Module KycRecord.

Record t := mk {
  customerId : string; status : string; level : string;
  documents : list string; riskRating : string; verifiedAt : option string;
  expiresAt : option string; pendingItems : list string;
  rejectionReason : option string
}.

(** [x.verifiedAt = v] *)
Definition set_verifiedAt (v : option string) (x : t) : t :=
  {| customerId := x.(customerId); status := x.(status);
     level := x.(level); documents := x.(documents);
     riskRating := x.(riskRating); verifiedAt := v;
     expiresAt := x.(expiresAt); pendingItems := x.(pendingItems);
     rejectionReason := x.(rejectionReason) |}.

(** [x.expiresAt = v] *)
Definition set_expiresAt (v : option string) (x : t) : t :=
  {| customerId := x.(customerId); status := x.(status);
     level := x.(level); documents := x.(documents);
     riskRating := x.(riskRating); verifiedAt := x.(verifiedAt);
     expiresAt := v; pendingItems := x.(pendingItems);
     rejectionReason := x.(rejectionReason) |}.

End KycRecord.

(** An object literal with some of the fields of [KycRecord.t]; a field it does
    not carry is [None]. *)
Module KycRecordPatch.

Record t := mk {
  customerId : option string; status : option string;
  level : option string; documents : option (list string);
  riskRating : option string; verifiedAt : option (option string);
  expiresAt : option (option string); pendingItems : option (list string);
  rejectionReason : option (option string)
}.

End KycRecordPatch.

(** [{ ...x, ...u }] *)
Definition spreadKycRecord (x : KycRecord.t) (u : KycRecordPatch.t)
  : KycRecord.t :=
  {| KycRecord.customerId :=
       default x.(KycRecord.customerId) u.(KycRecordPatch.customerId);
     KycRecord.status :=
       default x.(KycRecord.status) u.(KycRecordPatch.status);
     KycRecord.level := default x.(KycRecord.level) u.(KycRecordPatch.level);
     KycRecord.documents :=
       default x.(KycRecord.documents) u.(KycRecordPatch.documents);
     KycRecord.riskRating :=
       default x.(KycRecord.riskRating) u.(KycRecordPatch.riskRating);
     KycRecord.verifiedAt :=
       default x.(KycRecord.verifiedAt) u.(KycRecordPatch.verifiedAt);
     KycRecord.expiresAt :=
       default x.(KycRecord.expiresAt) u.(KycRecordPatch.expiresAt);
     KycRecord.pendingItems :=
       default x.(KycRecord.pendingItems) u.(KycRecordPatch.pendingItems);
     KycRecord.rejectionReason :=
       default x.(KycRecord.rejectionReason)
         u.(KycRecordPatch.rejectionReason) |}.

Module AccountLimit.

Record t := mk {
  accountId : string; dailyLimit : float; monthlyLimit : float;
  dailyUsed : float; monthlyUsed : float; currency : string;
  updatedAt : string
}.

(** [x.updatedAt = v] *)
Definition set_updatedAt (v : string) (x : t) : t :=
  {| accountId := x.(accountId); dailyLimit := x.(dailyLimit);
     monthlyLimit := x.(monthlyLimit); dailyUsed := x.(dailyUsed);
     monthlyUsed := x.(monthlyUsed); currency := x.(currency);
     updatedAt := v |}.

End AccountLimit.

(** An object literal with some of the fields of [AccountLimit.t]; a field
    it does not carry is [None]. *)
Module AccountLimitPatch.

Record t := mk {
  accountId : option string; dailyLimit : option float;
  monthlyLimit : option float; dailyUsed : option float;
  monthlyUsed : option float; currency : option string;
  updatedAt : option string
}.

End AccountLimitPatch.

(** [{ ...x, ...u }] *)
Definition spreadAccountLimit (x : AccountLimit.t) (u : AccountLimitPatch.t)
  : AccountLimit.t :=
  {| AccountLimit.accountId :=
       default x.(AccountLimit.accountId) u.(AccountLimitPatch.accountId);
     AccountLimit.dailyLimit :=
       default x.(AccountLimit.dailyLimit) u.(AccountLimitPatch.dailyLimit);
     AccountLimit.monthlyLimit :=
       default x.(AccountLimit.monthlyLimit)
         u.(AccountLimitPatch.monthlyLimit);
     AccountLimit.dailyUsed :=
       default x.(AccountLimit.dailyUsed) u.(AccountLimitPatch.dailyUsed);
     AccountLimit.monthlyUsed :=
       default x.(AccountLimit.monthlyUsed) u.(AccountLimitPatch.monthlyUsed);
     AccountLimit.currency :=
       default x.(AccountLimit.currency) u.(AccountLimitPatch.currency);
     AccountLimit.updatedAt :=
       default x.(AccountLimit.updatedAt) u.(AccountLimitPatch.updatedAt) |}.

(** ** The store: the module-level arrays of [mockData.js] *)

Record Store := mkStore {
  accounts : list Account.t;
  transactions : list Transaction.t;
  payments : list Payment.t;
  loans : list Loan.t;
  airtimePurchases : list AirtimePurchase.t;
  kycRecords : list KycRecord.t;
  accountLimits : list AccountLimit.t
}.

Definition set_payments (v : list Payment.t) (s : Store) : Store :=
  {| accounts := s.(accounts); transactions := s.(transactions);
     payments := v; loans := s.(loans);
     airtimePurchases := s.(airtimePurchases); kycRecords := s.(kycRecords);
     accountLimits := s.(accountLimits) |}.

Definition set_loans (v : list Loan.t) (s : Store) : Store :=
  {| accounts := s.(accounts); transactions := s.(transactions);
     payments := s.(payments); loans := v;
     airtimePurchases := s.(airtimePurchases); kycRecords := s.(kycRecords);
     accountLimits := s.(accountLimits) |}.

Definition set_airtimePurchases (v : list AirtimePurchase.t) (s : Store)
  : Store :=
  {| accounts := s.(accounts); transactions := s.(transactions);
     payments := s.(payments); loans := s.(loans);
     airtimePurchases := v; kycRecords := s.(kycRecords);
     accountLimits := s.(accountLimits) |}.

Definition set_kycRecords (v : list KycRecord.t) (s : Store) : Store :=
  {| accounts := s.(accounts); transactions := s.(transactions);
     payments := s.(payments); loans := s.(loans);
     airtimePurchases := s.(airtimePurchases); kycRecords := v;
     accountLimits := s.(accountLimits) |}.

Definition set_accountLimits (v : list AccountLimit.t) (s : Store) : Store :=
  {| accounts := s.(accounts); transactions := s.(transactions);
     payments := s.(payments); loans := s.(loans);
     airtimePurchases := s.(airtimePurchases); kycRecords := s.(kycRecords);
     accountLimits := v |}.

Definition set_accounts (v : list Account.t) (s : Store) : Store :=
  {| accounts := v; transactions := s.(transactions);
     payments := s.(payments); loans := s.(loans);
     airtimePurchases := s.(airtimePurchases); kycRecords := s.(kycRecords);
     accountLimits := s.(accountLimits) |}.

Definition set_transactions (v : list Transaction.t) (s : Store) : Store :=
  {| accounts := s.(accounts); transactions := v;
     payments := s.(payments); loans := s.(loans);
     airtimePurchases := s.(airtimePurchases); kycRecords := s.(kycRecords);
     accountLimits := s.(accountLimits) |}.

(** The records the arrays hold when the module is loaded. *)
Definition seed : Store :=
  {| accounts :=
       [ Account.mk "acc-001" "cust-001" "savings" "GHS" 5000 "active"
           "1234567890" "2024-01-15T10:00:00Z" "2024-01-15T10:00:00Z";
         Account.mk "acc-002" "cust-002" "current" "GHS" 2500.5 "active"
           "1234567891" "2024-01-16T11:00:00Z" "2024-01-16T11:00:00Z";
         Account.mk "acc-003" "cust-001" "savings" "GHS" 10000 "suspended"
           "1234567892" "2024-01-17T12:00:00Z" "2024-01-20T14:00:00Z" ];
     transactions :=
       [ Transaction.mk "txn-001" "acc-001" "debit" 100 "GHS"
           "Payment to merchant" "cleared" "merchant-123"
           "2024-01-18T09:00:00Z" (Some "2024-01-18T09:05:00Z") "REF-001";
         Transaction.mk "txn-002" "acc-001" "credit" 500 "GHS"
           "Salary deposit" "cleared" "employer-456"
           "2024-01-19T10:00:00Z" (Some "2024-01-19T10:02:00Z") "REF-002";
         Transaction.mk "txn-003" "acc-002" "debit" 50 "GHS"
           "Transfer to acc-001" "pending" "acc-001"
           "2024-01-20T11:00:00Z" None "REF-003" ];
     payments :=
       [ Payment.mk "pay-001" "acc-001" "John Doe" "9876543210" 200 "GHS"
           "bank_transfer" "completed" "PAY-REF-001" "2024-01-18T08:00:00Z"
           (Some "2024-01-18T08:15:00Z") true true;
         Payment.mk "pay-002" "acc-002" "Jane Smith" "9876543211" 150 "GHS"
           "bank_transfer" "pending" "PAY-REF-002" "2024-01-20T10:00:00Z"
           None true false ];
     loans :=
       [ Loan.mk "loan-001" "cust-001" "acc-001" 5000 "GHS"
           "Business expansion" 12 8.5 "approved" 750 true
           "2024-01-10T09:00:00Z" (Some "2024-01-12T14:00:00Z")
           (Some "2024-01-13T10:00:00Z") None (Some 437.5%float)
           (Some 5000%float);
         Loan.mk "loan-002" "cust-002" "acc-002" 3000 "GHS" "Personal use"
           6 10 "pending" 680 true "2024-01-19T11:00:00Z" None None None
           (Some 525%float) None;
         Loan.mk "loan-003" "cust-003" "acc-003" 10000 "GHS"
           "Home improvement" 24 7.5 "rejected" 600 false
           "2024-01-15T10:00:00Z" None None
           (Some "Insufficient credit score") None None ];
     airtimePurchases :=
       [ AirtimePurchase.mk "air-001" "acc-001" "+233241234567" 10 "GHS"
           "MTN" "completed" "AIR-REF-001" "2024-01-18T12:00:00Z"
           (Some "2024-01-18T12:02:00Z") "delivered";
         AirtimePurchase.mk "air-002" "acc-002" "+233241234568" 5 "GHS"
           "Vodafone" "pending" "AIR-REF-002" "2024-01-20T13:00:00Z" None
           "processing" ];
     kycRecords :=
       [ KycRecord.mk "cust-001" "approved" "tier2"
           ["id"; "proof_of_address"] "low" (Some "2024-01-05T10:00:00Z")
           (Some "2025-01-05T10:00:00Z") [] None;
         KycRecord.mk "cust-002" "pending" "tier1" ["id"] "medium" None None
           ["proof_of_address"; "income_statement"] None;
         KycRecord.mk "cust-003" "rejected" "tier1" [] "high" None None
           ["id"; "proof_of_address"] (Some "Invalid documents provided") ];
     accountLimits :=
       [ AccountLimit.mk "acc-001" 1000 10000 250 1200 "GHS"
           "2024-01-20T10:00:00Z";
         AccountLimit.mk "acc-002" 500 5000 150 800 "GHS"
           "2024-01-20T10:00:00Z" ] |}.

(** ** Store operations ([mockData.js]) *)

(** [now] is the time value of [new Date()]. *)

Definition getAccountById (id : string) (s : Store) : option Account.t :=
  snd <$> list_find (λ acc, acc.(Account.id) = id) s.(accounts).

Definition getTransactionById (id : string) (s : Store)
  : option Transaction.t :=
  snd <$> list_find (λ txn, txn.(Transaction.id) = id) s.(transactions).

Definition getPaymentById (id : string) (s : Store) : option Payment.t :=
  snd <$> list_find (λ pay, pay.(Payment.id) = id) s.(payments).

(** The argument of [addPayment] as the one caller builds it; [reference]
    is the only field that may be [undefined]. *)
Module NewPayment.

Record t := mk {
  accountId : string; beneficiary : string; beneficiaryAccount : string;
  amount : float; currency : string; method : string;
  reference : option string; kycComplete : bool; sufficientBalance : bool
}.

End NewPayment.

(** [`${prefix}${String(n).padStart(3, '0')}`] *)
Definition sequenceId (prefix : string) (n : nat) : string :=
  prefix +:+ JS.padStart 3 "0" (pretty n).

Definition addPayment (now : Z) (payment : NewPayment.t) (s : Store)
  : Payment.t * Store :=
  let newPayment :=
    {| Payment.accountId := payment.(NewPayment.accountId);
       Payment.beneficiary := payment.(NewPayment.beneficiary);
       Payment.beneficiaryAccount := payment.(NewPayment.beneficiaryAccount);
       Payment.amount := payment.(NewPayment.amount);
       Payment.currency := payment.(NewPayment.currency);
       Payment.method := payment.(NewPayment.method);
       Payment.kycComplete := payment.(NewPayment.kycComplete);
       Payment.sufficientBalance := payment.(NewPayment.sufficientBalance);
       Payment.id := sequenceId "pay-" (length s.(payments) + 1);
       Payment.status := "pending";
       Payment.initiatedAt := JS.toISOString now;
       Payment.completedAt := None;
       Payment.reference :=
         match payment.(NewPayment.reference) with
         | Some r =>
             if JS.truthy_string r then r
             else sequenceId "PAY-REF-" (length s.(payments) + 1)
         | None => sequenceId "PAY-REF-" (length s.(payments) + 1)
         end |} in
  (newPayment, set_payments (s.(payments) ++ [newPayment]) s).

Definition updatePayment (now : Z) (id : string) (updates : PaymentPatch.t)
    (s : Store) : option Payment.t * Store :=
  match list_find (λ pay, pay.(Payment.id) = id) s.(payments) with
  | None => (None, s)
  | Some (index, old) =>
      let merged := spreadPayment old updates in
      let stamped :=
        if JS.opt_is updates.(PaymentPatch.status) "completed"
           && negb (JS.truthy_opt JS.truthy_string merged.(Payment.completedAt))
        then Payment.set_completedAt (Some (JS.toISOString now)) merged
        else merged in
      (Some stamped, set_payments (<[index := stamped]> s.(payments)) s)
  end.

Definition getLoanById (id : string) (s : Store) : option Loan.t :=
  snd <$> list_find (λ loan, loan.(Loan.id) = id) s.(loans).

Definition updateLoan (now : Z) (id : string) (updates : LoanPatch.t)
    (s : Store) : option Loan.t * Store :=
  match list_find (λ loan, loan.(Loan.id) = id) s.(loans) with
  | None => (None, s)
  | Some (index, old) =>
      let merged := spreadLoan old updates in
      let approved :=
        if JS.opt_is updates.(LoanPatch.status) "approved"
           && negb (JS.truthy_opt JS.truthy_string merged.(Loan.approvedAt))
        then Loan.set_approvedAt (Some (JS.toISOString now)) merged
        else merged in
      let disbursed :=
        if JS.opt_is updates.(LoanPatch.status) "disbursed"
           && negb (JS.truthy_opt JS.truthy_string approved.(Loan.disbursedAt))
        then Loan.set_disbursedAt (Some (JS.toISOString now)) approved
        else approved in
      (Some disbursed, set_loans (<[index := disbursed]> s.(loans)) s)
  end.

Definition getAirtimePurchaseById (id : string) (s : Store)
  : option AirtimePurchase.t :=
  snd <$> list_find (λ p, p.(AirtimePurchase.id) = id) s.(airtimePurchases).

Definition updateAirtimePurchase (now : Z) (id : string)
    (updates : AirtimePurchasePatch.t) (s : Store)
  : option AirtimePurchase.t * Store :=
  match list_find (λ p, p.(AirtimePurchase.id) = id) s.(airtimePurchases) with
  | None => (None, s)
  | Some (index, old) =>
      let merged := spreadAirtimePurchase old updates in
      let stamped :=
        if JS.opt_is updates.(AirtimePurchasePatch.status) "completed"
           && negb (JS.truthy_opt JS.truthy_string
                      merged.(AirtimePurchase.completedAt))
        then AirtimePurchase.set_deliveryStatus "delivered"
               (AirtimePurchase.set_completedAt
                  (Some (JS.toISOString now)) merged)
        else merged in
      (Some stamped,
       set_airtimePurchases (<[index := stamped]> s.(airtimePurchases)) s)
  end.

Definition getKycRecord (customerId : string) (s : Store)
  : option KycRecord.t :=
  snd <$> list_find (λ kyc, kyc.(KycRecord.customerId) = customerId)
            s.(kycRecords).

(** 365 days, in milliseconds. *)
Definition oneYear : Z := 365 * 24 * 60 * 60 * 1000.

Definition updateKycRecord (now : Z) (customerId : string)
    (updates : KycRecordPatch.t) (s : Store) : KycRecord.t * Store :=
  match list_find (λ kyc, kyc.(KycRecord.customerId) = customerId)
          s.(kycRecords) with
  | None =>
      let newRecord :=
        spreadKycRecord
          {| KycRecord.customerId := customerId;
             KycRecord.status := "pending";
             KycRecord.level := "tier1";
             KycRecord.documents := [];
             KycRecord.riskRating := "medium";
             KycRecord.verifiedAt := None;
             KycRecord.expiresAt := None;
             KycRecord.pendingItems := [];
             KycRecord.rejectionReason := None |}
          updates in
      (newRecord, set_kycRecords (s.(kycRecords) ++ [newRecord]) s)
  | Some (index, old) =>
      let merged := spreadKycRecord old updates in
      let stamped :=
        if JS.opt_is updates.(KycRecordPatch.status) "approved"
           && negb (JS.truthy_opt JS.truthy_string
                      merged.(KycRecord.verifiedAt))
        then KycRecord.set_expiresAt (Some (JS.toISOString (now + oneYear)))
               (KycRecord.set_verifiedAt (Some (JS.toISOString now)) merged)
        else merged in
      (stamped, set_kycRecords (<[index := stamped]> s.(kycRecords)) s)
  end.

Definition getAccountLimit (accountId : string) (s : Store)
  : option AccountLimit.t :=
  snd <$> list_find (λ limit, limit.(AccountLimit.accountId) = accountId)
            s.(accountLimits).

Definition updateAccountLimit (now : Z) (accountId : string)
    (updates : AccountLimitPatch.t) (s : Store) : AccountLimit.t * Store :=
  match list_find (λ limit, limit.(AccountLimit.accountId) = accountId)
          s.(accountLimits) with
  | None =>
      let newLimit :=
        spreadAccountLimit
          {| AccountLimit.accountId := accountId;
             AccountLimit.dailyLimit := 1000;
             AccountLimit.monthlyLimit := 10000;
             AccountLimit.dailyUsed := 0;
             AccountLimit.monthlyUsed := 0;
             AccountLimit.currency := "GHS";
             AccountLimit.updatedAt := JS.toISOString now |}
          updates in
      (newLimit, set_accountLimits (s.(accountLimits) ++ [newLimit]) s)
  | Some (index, old) =>
      let updated :=
        AccountLimit.set_updatedAt (JS.toISOString now)
          (spreadAccountLimit old updates) in
      (updated, set_accountLimits (<[index := updated]> s.(accountLimits)) s)
  end.

(** *** The other operations of [mockData.js] *)

Definition getAccounts (s : Store) : list Account.t := s.(accounts).

(** The argument of [addAccount] as the one caller builds it. *)
Module NewAccount.

Record t := mk {
  customerId : string; type : string; currency : string; balance : float;
  status : string; accountNumber : string
}.

End NewAccount.

Definition addAccount (now : Z) (account : NewAccount.t) (s : Store)
  : Account.t * Store :=
  let newAccount :=
    {| Account.customerId := account.(NewAccount.customerId);
       Account.type := account.(NewAccount.type);
       Account.currency := account.(NewAccount.currency);
       Account.balance := account.(NewAccount.balance);
       Account.status := account.(NewAccount.status);
       Account.accountNumber := account.(NewAccount.accountNumber);
       Account.id := sequenceId "acc-" (length s.(accounts) + 1);
       Account.createdAt := JS.toISOString now;
       Account.updatedAt := JS.toISOString now |} in
  (newAccount, set_accounts (s.(accounts) ++ [newAccount]) s).

Definition updateAccount (now : Z) (id : string) (updates : AccountPatch.t)
    (s : Store) : option Account.t * Store :=
  match list_find (λ acc, acc.(Account.id) = id) s.(accounts) with
  | None => (None, s)
  | Some (index, old) =>
      let updated :=
        Account.set_updatedAt (JS.toISOString now) (spreadAccount old updates) in
      (Some updated, set_accounts (<[index := updated]> s.(accounts)) s)
  end.

Definition getTransactions (s : Store) : list Transaction.t :=
  s.(transactions).

(** The argument of [addTransaction] as the one caller builds it;
    [reference] is the only field that may be [undefined]. *)
Module NewTransaction.

Record t := mk {
  accountId : string; type : string; amount : float; currency : string;
  description : string; status : string; counterparty : string;
  reference : option string
}.

End NewTransaction.

Definition addTransaction (now : Z) (transaction : NewTransaction.t)
    (s : Store) : Transaction.t * Store :=
  let newTransaction :=
    {| Transaction.accountId := transaction.(NewTransaction.accountId);
       Transaction.type := transaction.(NewTransaction.type);
       Transaction.amount := transaction.(NewTransaction.amount);
       Transaction.currency := transaction.(NewTransaction.currency);
       Transaction.description := transaction.(NewTransaction.description);
       Transaction.status := transaction.(NewTransaction.status);
       Transaction.counterparty := transaction.(NewTransaction.counterparty);
       Transaction.id := sequenceId "txn-" (length s.(transactions) + 1);
       Transaction.initiatedAt := JS.toISOString now;
       Transaction.processedAt :=
         if String.eqb transaction.(NewTransaction.status) "cleared"
         then Some (JS.toISOString now) else None;
       Transaction.reference :=
         match transaction.(NewTransaction.reference) with
         | Some r =>
             if JS.truthy_string r then r
             else sequenceId "REF-" (length s.(transactions) + 1)
         | None => sequenceId "REF-" (length s.(transactions) + 1)
         end |} in
  (newTransaction, set_transactions (s.(transactions) ++ [newTransaction]) s).

Definition getPayments (s : Store) : list Payment.t := s.(payments).

Definition getLoans (s : Store) : list Loan.t := s.(loans).

(** The argument of [addLoan], with the fields of the Loan schema that the
    function does not set itself; [creditScore] may be [undefined]. *)
Module NewLoan.

Record t := mk {
  customerId : string; accountId : string; amount : float; currency : string;
  purpose : string; tenure : float; interestRate : float;
  monthlyPayment : option float; creditScore : option float
}.

End NewLoan.

(** [Math.floor(random * 200) + 500] for a value [random] of
    [Math.random()]. *)
Definition simulatedScore (random : float) : float :=
  (JS.floor (random * 200) + 500)%float.

(** [random1] and [random2] are the values of the two calls of
    [Math.random()]; a call is made only when [loan.creditScore] is falsy. *)
Definition addLoan (now : Z) (random1 random2 : float) (loan : NewLoan.t)
    (s : Store) : Loan.t * Store :=
  let newLoan :=
    {| Loan.customerId := loan.(NewLoan.customerId);
       Loan.accountId := loan.(NewLoan.accountId);
       Loan.amount := loan.(NewLoan.amount);
       Loan.currency := loan.(NewLoan.currency);
       Loan.purpose := loan.(NewLoan.purpose);
       Loan.tenure := loan.(NewLoan.tenure);
       Loan.interestRate := loan.(NewLoan.interestRate);
       Loan.monthlyPayment := loan.(NewLoan.monthlyPayment);
       Loan.rejectionReason := None;
       Loan.remainingBalance := None;
       Loan.id := sequenceId "loan-" (length s.(loans) + 1);
       Loan.status := "pending";
       Loan.appliedAt := JS.toISOString now;
       Loan.approvedAt := None;
       Loan.disbursedAt := None;
       Loan.creditScore :=
         match loan.(NewLoan.creditScore) with
         | Some c => if JS.truthy_number c then c else simulatedScore random1
         | None => simulatedScore random1
         end;
       Loan.eligible :=
         JS.ge
           (match loan.(NewLoan.creditScore) with
            | Some c => if JS.truthy_number c then c else simulatedScore random2
            | None => simulatedScore random2
            end)
           650 |} in
  (newLoan, set_loans (s.(loans) ++ [newLoan]) s).

Definition getAirtimePurchases (s : Store) : list AirtimePurchase.t :=
  s.(airtimePurchases).

(** The argument of [addAirtimePurchase] as the one caller builds it;
    [transactionReference] is the only field that may be [undefined]. *)
Module NewAirtimePurchase.

Record t := mk {
  accountId : string; phoneNumber : string; amount : float; currency : string;
  provider : string; transactionReference : option string
}.

End NewAirtimePurchase.

Definition addAirtimePurchase (now : Z) (purchase : NewAirtimePurchase.t)
    (s : Store) : AirtimePurchase.t * Store :=
  let newPurchase :=
    {| AirtimePurchase.accountId := purchase.(NewAirtimePurchase.accountId);
       AirtimePurchase.phoneNumber := purchase.(NewAirtimePurchase.phoneNumber);
       AirtimePurchase.amount := purchase.(NewAirtimePurchase.amount);
       AirtimePurchase.currency := purchase.(NewAirtimePurchase.currency);
       AirtimePurchase.provider := purchase.(NewAirtimePurchase.provider);
       AirtimePurchase.id :=
         sequenceId "air-" (length s.(airtimePurchases) + 1);
       AirtimePurchase.status := "pending";
       AirtimePurchase.purchasedAt := JS.toISOString now;
       AirtimePurchase.completedAt := None;
       AirtimePurchase.deliveryStatus := "processing";
       AirtimePurchase.transactionReference :=
         match purchase.(NewAirtimePurchase.transactionReference) with
         | Some r =>
             if JS.truthy_string r then r
             else sequenceId "AIR-REF-" (length s.(airtimePurchases) + 1)
         | None => sequenceId "AIR-REF-" (length s.(airtimePurchases) + 1)
         end |} in
  (newPurchase,
   set_airtimePurchases (s.(airtimePurchases) ++ [newPurchase]) s).

(** ** Requests and responses *)

(** What a handler reads besides its parameters: the clock and the id the
    logging middleware of [server.js] attached to the request. *)
Module Ctx.

Record t := mk { now : Z; requestId : string }.

End Ctx.

(** The values a handler puts in [metadata]. *)
Inductive Json :=
| JNull
| JBool (b : bool)
| JNum (x : float)
| JStr (s : string)
| JArr (l : list string).

Definition nullable (o : option string) : Json :=
  match o with
  | Some s => JStr s
  | None => JNull
  end.

(** The envelope of the non-checker operations:
    [{status: 'success', data, message?, timestamp, requestId}] or
    [{status: 'error', message, timestamp, requestId}]. *)
Module Envelope.

Inductive t (A : Type) :=
| success (data : A) (message : option string) (timestamp requestId : string)
| error (message : string) (timestamp requestId : string).

Arguments success {A}.
Arguments error {A}.

End Envelope.

(** The object a checker endpoint answers with. *)
Module Checker.

Record t := mk {
  result : bool;
  reason : string;
  metadata : list (string * Json);
  timestamp : string;
  requestId : string
}.

End Checker.

(** The HTTP status code and the JSON body handed to [res.json]. *)
Record Response (B : Type) := mkResponse { http : nat; body : B }.

Arguments mkResponse {B}.
Arguments http {B}.
Arguments body {B}.

(** [res.status(code).json({status: 'error', message, ...})] *)
Definition fail {A} (ctx : Ctx.t) (code : nat) (message : string)
  : Response (Envelope.t A) :=
  mkResponse code
    (Envelope.error message (JS.toISOString ctx.(Ctx.now)) ctx.(Ctx.requestId)).

(** [res.status(code).json({status: 'success', data, message, ...})] *)
Definition ok {A} (ctx : Ctx.t) (code : nat) (data : A)
    (message : option string) : Response (Envelope.t A) :=
  mkResponse code
    (Envelope.success data message (JS.toISOString ctx.(Ctx.now))
       ctx.(Ctx.requestId)).

(** [res.json({result, reason, metadata, ...})]: the status code is 200. *)
Definition verdict (ctx : Ctx.t) (result : bool) (reason : string)
    (metadata : list (string * Json)) : Response Checker.t :=
  mkResponse 200
    (Checker.mk result reason metadata (JS.toISOString ctx.(Ctx.now))
       ctx.(Ctx.requestId)).

(** The envelope of the list operations:
    [{status: 'success', data, count, timestamp, requestId}]. *)
Module Listing.

Record t (A : Type) := mk {
  data : list A;
  count : nat;
  timestamp : string;
  requestId : string
}.

Arguments mk {A}.
Arguments data {A}.
Arguments count {A}.
Arguments timestamp {A}.
Arguments requestId {A}.

End Listing.

(** [res.json({status: 'success', data, count: data.length, ...})] *)
Definition listing {A} (ctx : Ctx.t) (data : list A)
  : Response (Listing.t A) :=
  mkResponse 200
    (Listing.mk data (length data) (JS.toISOString ctx.(Ctx.now))
       ctx.(Ctx.requestId)).

(** ** [routes/accounts.js] *)

Module Accounts.

Definition check_active (ctx : Ctx.t) (accountId : string) (s : Store)
  : Response Checker.t * Store :=
  match getAccountById accountId s with
  | None =>
      (verdict ctx false "Account not found" [("accountId", JStr accountId)],
       s)
  | Some account =>
      let isActive := String.eqb account.(Account.status) "active" in
      (verdict ctx isActive
         (if isActive then "Account is active"
          else "Account status is: " +:+ account.(Account.status))
         [("accountId", JStr account.(Account.id));
          ("status", JStr account.(Account.status));
          ("accountNumber", JStr account.(Account.accountNumber))],
       s)
  end.

(** [GET /accounts]; the arguments are the query parameters. *)
Definition index (ctx : Ctx.t) (customerId status type currency : option string)
    (s : Store) : Response (Listing.t Account.t) * Store :=
  let accounts := getAccounts s in
  let accounts :=
    JS.filter_if customerId
      (λ q acc, String.eqb acc.(Account.customerId) q) accounts in
  let accounts :=
    JS.filter_if status (λ q acc, String.eqb acc.(Account.status) q) accounts in
  let accounts :=
    JS.filter_if type (λ q acc, String.eqb acc.(Account.type) q) accounts in
  let accounts :=
    JS.filter_if currency
      (λ q acc, String.eqb acc.(Account.currency) q) accounts in
  (listing ctx accounts, s).

(** [GET /accounts/:accountId] *)
Definition get_by_id (ctx : Ctx.t) (accountId : string) (s : Store)
  : Response (Envelope.t Account.t) * Store :=
  match getAccountById accountId s with
  | None => (fail ctx 404 "Account not found", s)
  | Some account => (ok ctx 200 account None, s)
  end.

(** [POST /accounts]; [customerId], [type], [currency] and [initialDeposit]
    are the fields of the body that the handler reads, [random] the value
    of [Math.random()]. *)
Definition create (ctx : Ctx.t) (random : float)
    (customerId type currency : option string) (initialDeposit : option float)
    (s : Store) : Response (Envelope.t Account.t) * Store :=
  match customerId, type, currency with
  | Some customerId, Some type, Some currency =>
      if negb (JS.truthy_string customerId) || negb (JS.truthy_string type)
         || negb (JS.truthy_string currency)
      then
        (fail ctx 400 "Missing required fields: customerId, type, currency", s)
      else
        let '(account, s') :=
          addAccount ctx.(Ctx.now)
            {| NewAccount.customerId := customerId;
               NewAccount.type := type;
               NewAccount.currency := currency;
               NewAccount.balance :=
                 match initialDeposit with
                 | Some d => if JS.truthy_number d then d else 0%float
                 | None => 0%float
                 end;
               NewAccount.status := "active";
               NewAccount.accountNumber :=
                 JS.Number_toString
                   (JS.floor (random * 9000000000) + 1000000000)%float |}
            s in
        (ok ctx 201 account (Some "Account created successfully"), s')
  | _, _, _ =>
      (fail ctx 400 "Missing required fields: customerId, type, currency", s)
  end.

Definition validStatuses : list string := ["active"; "suspended"; "closed"].

(** [{ status }] *)
Definition status_only (status : string) : AccountPatch.t :=
  {| AccountPatch.id := None; AccountPatch.customerId := None;
     AccountPatch.type := None; AccountPatch.currency := None;
     AccountPatch.balance := None; AccountPatch.status := Some status;
     AccountPatch.accountNumber := None; AccountPatch.createdAt := None;
     AccountPatch.updatedAt := None |}.

(** [PATCH /accounts/:accountId/status]; [status] is the field of the
    body. *)
Definition patch_status (ctx : Ctx.t) (accountId : string)
    (status : option string) (s : Store)
  : Response (Envelope.t Account.t) * Store :=
  match status with
  | Some status =>
      if negb (JS.truthy_string status)
         || negb (JS.includes validStatuses status)
      then
        (fail ctx 400
           ("Status must be one of: " +:+ JS.join ", " validStatuses), s)
      else
        match updateAccount ctx.(Ctx.now) accountId (status_only status) s with
        | (None, s') => (fail ctx 404 "Account not found", s')
        | (Some account, s') =>
            (ok ctx 200 account (Some "Account status updated"), s')
        end
  | None =>
      (fail ctx 400
         ("Status must be one of: " +:+ JS.join ", " validStatuses), s)
  end.

End Accounts.

(** ** [routes/transactions.js] *)

Module Transactions.

Definition check_cleared (ctx : Ctx.t) (txnId : string) (s : Store)
  : Response Checker.t * Store :=
  match getTransactionById txnId s with
  | None =>
      (verdict ctx false "Transaction not found"
         [("transactionId", JStr txnId)],
       s)
  | Some transaction =>
      let isCleared := String.eqb transaction.(Transaction.status) "cleared" in
      (verdict ctx isCleared
         (if isCleared then "Transaction has been cleared"
          else "Transaction status is: " +:+ transaction.(Transaction.status))
         [("transactionId", JStr transaction.(Transaction.id));
          ("status", JStr transaction.(Transaction.status));
          ("amount", JNum transaction.(Transaction.amount));
          ("currency", JStr transaction.(Transaction.currency));
          ("processedAt", nullable transaction.(Transaction.processedAt))],
       s)
  end.

(** [GET /transactions]; the arguments are the query parameters. *)
Definition index (ctx : Ctx.t)
    (accountId status type dateFrom dateTo : option string) (s : Store)
  : Response (Listing.t Transaction.t) * Store :=
  let transactions := getTransactions s in
  let transactions :=
    JS.filter_if accountId
      (λ q txn, String.eqb txn.(Transaction.accountId) q) transactions in
  let transactions :=
    JS.filter_if status
      (λ q txn, String.eqb txn.(Transaction.status) q) transactions in
  let transactions :=
    JS.filter_if type
      (λ q txn, String.eqb txn.(Transaction.type) q) transactions in
  let transactions :=
    JS.filter_if dateFrom
      (λ q txn, JS.string_ge txn.(Transaction.initiatedAt) q) transactions in
  let transactions :=
    JS.filter_if dateTo
      (λ q txn, JS.string_le txn.(Transaction.initiatedAt) q) transactions in
  (listing ctx transactions, s).

(** [GET /transactions/:txnId] *)
Definition get_by_id (ctx : Ctx.t) (txnId : string) (s : Store)
  : Response (Envelope.t Transaction.t) * Store :=
  match getTransactionById txnId s with
  | None => (fail ctx 404 "Transaction not found", s)
  | Some transaction => (ok ctx 200 transaction None, s)
  end.

(** The body of [POST /transactions]. *)
Module CreateBody.

Record t := mk {
  fromAccount : option string; toAccount : option string;
  amount : option float; currency : option string; purpose : option string
}.

End CreateBody.

(** [purpose || fallback] *)
Definition description (purpose : option string) (fallback : string)
  : string :=
  match purpose with
  | Some p => if JS.truthy_string p then p else fallback
  | None => fallback
  end.

(** [POST /transactions]: the data of the answer is the pair
    [{debitTransaction, creditTransaction}]. *)
Definition create (ctx : Ctx.t) (b : CreateBody.t) (s : Store)
  : Response (Envelope.t (Transaction.t * Transaction.t)) * Store :=
  match b.(CreateBody.fromAccount), b.(CreateBody.toAccount),
        b.(CreateBody.amount), b.(CreateBody.currency) with
  | Some fromAccount, Some toAccount, Some amount, Some currency =>
      if negb (JS.truthy_string fromAccount)
         || negb (JS.truthy_string toAccount)
         || negb (JS.truthy_number amount) || negb (JS.truthy_string currency)
      then
        (fail ctx 400
           "Missing required fields: fromAccount, toAccount, amount, currency",
         s)
      else if JS.le amount 0 then
        (fail ctx 400 "Amount must be greater than 0", s)
      else
        let '(debitTransaction, s1) :=
          addTransaction ctx.(Ctx.now)
            {| NewTransaction.accountId := fromAccount;
               NewTransaction.type := "debit";
               NewTransaction.amount := amount;
               NewTransaction.currency := currency;
               NewTransaction.description :=
                 description b.(CreateBody.purpose)
                   ("Transfer to " +:+ toAccount);
               NewTransaction.status := "pending";
               NewTransaction.counterparty := toAccount;
               NewTransaction.reference := None |}
            s in
        let '(creditTransaction, s2) :=
          addTransaction ctx.(Ctx.now)
            {| NewTransaction.accountId := toAccount;
               NewTransaction.type := "credit";
               NewTransaction.amount := amount;
               NewTransaction.currency := currency;
               NewTransaction.description :=
                 description b.(CreateBody.purpose)
                   ("Transfer from " +:+ fromAccount);
               NewTransaction.status := "pending";
               NewTransaction.counterparty := fromAccount;
               NewTransaction.reference := None |}
            s1 in
        (ok ctx 201 (debitTransaction, creditTransaction)
           (Some "Transaction initiated"), s2)
  | _, _, _, _ =>
      (fail ctx 400
         "Missing required fields: fromAccount, toAccount, amount, currency",
       s)
  end.

End Transactions.

(** ** [routes/payments.js] *)

Module Payments.

(** The body of [POST /payments/initiate]; a field the request does not
    carry is [None]. *)
Module InitiateBody.

Record t := mk {
  accountId : option string; beneficiary : option string;
  beneficiaryAccount : option string; amount : option float;
  currency : option string; method : option string;
  reference : option string
}.

End InitiateBody.

Definition missing_fields : string :=
  "Missing required fields: accountId, beneficiary, beneficiaryAccount, "
    +:+ "amount, currency".

Definition initiate (ctx : Ctx.t) (b : InitiateBody.t) (s : Store)
  : Response (Envelope.t Payment.t) * Store :=
  match b.(InitiateBody.accountId), b.(InitiateBody.beneficiary),
        b.(InitiateBody.beneficiaryAccount), b.(InitiateBody.amount),
        b.(InitiateBody.currency) with
  | Some accountId, Some beneficiary, Some beneficiaryAccount, Some amount,
    Some currency =>
      if negb (JS.truthy_string accountId)
         || negb (JS.truthy_string beneficiary)
         || negb (JS.truthy_string beneficiaryAccount)
         || negb (JS.truthy_number amount) || negb (JS.truthy_string currency)
      then (fail ctx 400 missing_fields, s)
      else if JS.le amount 0 then
        (fail ctx 400 "Amount must be greater than 0", s)
      else
        match getAccountById accountId s with
        | None => (fail ctx 404 "Account not found", s)
        | Some account =>
            let '(payment, s') :=
              addPayment ctx.(Ctx.now)
                {| NewPayment.accountId := accountId;
                   NewPayment.beneficiary := beneficiary;
                   NewPayment.beneficiaryAccount := beneficiaryAccount;
                   NewPayment.amount := amount;
                   NewPayment.currency := currency;
                   NewPayment.method :=
                     match b.(InitiateBody.method) with
                     | Some m =>
                         if JS.truthy_string m then m else "bank_transfer"
                     | None => "bank_transfer"
                     end;
                   NewPayment.reference := b.(InitiateBody.reference);
                   NewPayment.kycComplete := true;
                   NewPayment.sufficientBalance :=
                     JS.ge account.(Account.balance) amount |}
                s in
            (ok ctx 201 payment (Some "Payment initiated"), s')
        end
  | _, _, _, _, _ => (fail ctx 400 missing_fields, s)
  end.

(** [{ status: 'cancelled' }] and the like. *)
Definition status_only (status : string) : PaymentPatch.t :=
  {| PaymentPatch.id := None; PaymentPatch.accountId := None;
     PaymentPatch.beneficiary := None; PaymentPatch.beneficiaryAccount := None;
     PaymentPatch.amount := None; PaymentPatch.currency := None;
     PaymentPatch.method := None; PaymentPatch.status := Some status;
     PaymentPatch.reference := None; PaymentPatch.initiatedAt := None;
     PaymentPatch.completedAt := None; PaymentPatch.kycComplete := None;
     PaymentPatch.sufficientBalance := None |}.

Definition cancel (ctx : Ctx.t) (paymentId : string) (s : Store)
  : Response (Envelope.t (option Payment.t)) * Store :=
  match getPaymentById paymentId s with
  | None => (fail ctx 404 "Payment not found", s)
  | Some payment =>
      if String.eqb payment.(Payment.status) "completed" then
        (fail ctx 400 "Cannot cancel a completed payment", s)
      else
        let '(updatedPayment, s') :=
          updatePayment ctx.(Ctx.now) paymentId (status_only "cancelled") s in
        (ok ctx 200 updatedPayment (Some "Payment cancelled"), s')
  end.

(** The clauses [check-ready] pushes onto [reasons], in the order of the
    three [if] statements. *)
Definition reasons (payment : Payment.t) : list string :=
  (if negb payment.(Payment.kycComplete) then ["KYC not complete"] else [])
  ++ (if negb payment.(Payment.sufficientBalance)
      then ["Insufficient balance"] else [])
  ++ (if negb (String.eqb payment.(Payment.status) "pending")
      then ["Payment status is " +:+ payment.(Payment.status)] else []).

Definition check_ready (ctx : Ctx.t) (paymentId : string) (s : Store)
  : Response Checker.t * Store :=
  match getPaymentById paymentId s with
  | None =>
      (verdict ctx false "Payment not found" [("paymentId", JStr paymentId)],
       s)
  | Some payment =>
      let isReady :=
        payment.(Payment.kycComplete) && payment.(Payment.sufficientBalance)
        && String.eqb payment.(Payment.status) "pending" in
      (verdict ctx isReady
         (if isReady then "Payment is ready to process"
          else JS.join ", " (reasons payment))
         [("paymentId", JStr payment.(Payment.id));
          ("status", JStr payment.(Payment.status));
          ("kycComplete", JBool payment.(Payment.kycComplete));
          ("sufficientBalance", JBool payment.(Payment.sufficientBalance));
          ("amount", JNum payment.(Payment.amount));
          ("currency", JStr payment.(Payment.currency))],
       s)
  end.

(** [GET /payments/:paymentId] *)
Definition get_by_id (ctx : Ctx.t) (paymentId : string) (s : Store)
  : Response (Envelope.t Payment.t) * Store :=
  match getPaymentById paymentId s with
  | None => (fail ctx 404 "Payment not found", s)
  | Some payment => (ok ctx 200 payment None, s)
  end.

End Payments.

(** ** [routes/loans.js] *)

Module Loans.

Definition check_eligible (ctx : Ctx.t) (loanId : string) (s : Store)
  : Response Checker.t * Store :=
  match getLoanById loanId s with
  | None => (verdict ctx false "Loan not found" [("loanId", JStr loanId)], s)
  | Some loan =>
      let isEligible :=
        loan.(Loan.eligible) && JS.ge loan.(Loan.creditScore) 650 in
      (verdict ctx isEligible
         (if isEligible then "Loan is eligible"
          else "Credit score " +:+ JS.Number_toString loan.(Loan.creditScore)
               +:+ " is below minimum threshold (650)")
         [("loanId", JStr loan.(Loan.id));
          ("creditScore", JNum loan.(Loan.creditScore));
          ("eligible", JBool loan.(Loan.eligible));
          ("amount", JNum loan.(Loan.amount));
          ("status", JStr loan.(Loan.status))],
       s)
  end.

Definition check_approved (ctx : Ctx.t) (loanId : string) (s : Store)
  : Response Checker.t * Store :=
  match getLoanById loanId s with
  | None => (verdict ctx false "Loan not found" [("loanId", JStr loanId)], s)
  | Some loan =>
      let isApproved := String.eqb loan.(Loan.status) "approved" in
      let pendingChecks :=
        if isApproved then []
        else ["credit_check"; "document_verification"; "risk_assessment"] in
      (verdict ctx isApproved
         (if isApproved then "Loan has been approved"
          else "Loan status is: " +:+ loan.(Loan.status))
         [("loanId", JStr loan.(Loan.id));
          ("status", JStr loan.(Loan.status));
          ("pendingChecks", JArr pendingChecks);
          ("approvedAt", nullable loan.(Loan.approvedAt))],
       s)
  end.

(** [{ status: 'approved', disbursedAt, remainingBalance }] *)
Definition approval (disbursedAt : string) (remainingBalance : float)
  : LoanPatch.t :=
  {| LoanPatch.id := None; LoanPatch.customerId := None;
     LoanPatch.accountId := None; LoanPatch.amount := None;
     LoanPatch.currency := None; LoanPatch.purpose := None;
     LoanPatch.tenure := None; LoanPatch.interestRate := None;
     LoanPatch.status := Some "approved"; LoanPatch.creditScore := None;
     LoanPatch.eligible := None; LoanPatch.appliedAt := None;
     LoanPatch.approvedAt := None;
     LoanPatch.disbursedAt := Some (Some disbursedAt);
     LoanPatch.rejectionReason := None; LoanPatch.monthlyPayment := None;
     LoanPatch.remainingBalance := Some (Some remainingBalance) |}.

(** [{ status: 'rejected', rejectionReason }] *)
Definition rejection (rejectionReason : string) : LoanPatch.t :=
  {| LoanPatch.id := None; LoanPatch.customerId := None;
     LoanPatch.accountId := None; LoanPatch.amount := None;
     LoanPatch.currency := None; LoanPatch.purpose := None;
     LoanPatch.tenure := None; LoanPatch.interestRate := None;
     LoanPatch.status := Some "rejected"; LoanPatch.creditScore := None;
     LoanPatch.eligible := None; LoanPatch.appliedAt := None;
     LoanPatch.approvedAt := None; LoanPatch.disbursedAt := None;
     LoanPatch.rejectionReason := Some (Some rejectionReason);
     LoanPatch.monthlyPayment := None; LoanPatch.remainingBalance := None |}.

(** [{ status }] *)
Definition status_only (status : string) : LoanPatch.t :=
  {| LoanPatch.id := None; LoanPatch.customerId := None;
     LoanPatch.accountId := None; LoanPatch.amount := None;
     LoanPatch.currency := None; LoanPatch.purpose := None;
     LoanPatch.tenure := None; LoanPatch.interestRate := None;
     LoanPatch.status := Some status; LoanPatch.creditScore := None;
     LoanPatch.eligible := None; LoanPatch.appliedAt := None;
     LoanPatch.approvedAt := None; LoanPatch.disbursedAt := None;
     LoanPatch.rejectionReason := None; LoanPatch.monthlyPayment := None;
     LoanPatch.remainingBalance := None |}.

Definition approve (ctx : Ctx.t) (loanId : string) (s : Store)
  : Response (Envelope.t (option Loan.t)) * Store :=
  match getLoanById loanId s with
  | None => (fail ctx 404 "Loan not found", s)
  | Some loan =>
      if negb (String.eqb loan.(Loan.status) "pending") then
        (fail ctx 400
           ("Cannot approve loan with status: " +:+ loan.(Loan.status)), s)
      else
        let '(updatedLoan, s') :=
          updateLoan ctx.(Ctx.now) loanId
            (approval (JS.toISOString ctx.(Ctx.now)) loan.(Loan.amount)) s in
        (ok ctx 200 updatedLoan (Some "Loan approved and disbursed"), s')
  end.

(** [reason] is the field of the request body, [None] when it is absent. *)
Definition reject (ctx : Ctx.t) (loanId : string) (reason : option string)
    (s : Store) : Response (Envelope.t (option Loan.t)) * Store :=
  match getLoanById loanId s with
  | None => (fail ctx 404 "Loan not found", s)
  | Some loan =>
      if negb (String.eqb loan.(Loan.status) "pending") then
        (fail ctx 400
           ("Cannot reject loan with status: " +:+ loan.(Loan.status)), s)
      else
        let '(updatedLoan, s') :=
          updateLoan ctx.(Ctx.now) loanId
            (rejection
               (match reason with
                | Some r =>
                    if JS.truthy_string r then r
                    else "Application does not meet requirements"
                | None => "Application does not meet requirements"
                end))
            s in
        (ok ctx 200 updatedLoan (Some "Loan application rejected"), s')
  end.

(** [GET /loans/:loanId] *)
Definition get_by_id (ctx : Ctx.t) (loanId : string) (s : Store)
  : Response (Envelope.t Loan.t) * Store :=
  match getLoanById loanId s with
  | None => (fail ctx 404 "Loan not found", s)
  | Some loan => (ok ctx 200 loan None, s)
  end.

(** [GET /loans]; the arguments are the query parameters. *)
Definition index (ctx : Ctx.t) (customerId status dateFrom : option string)
    (s : Store) : Response (Listing.t Loan.t) * Store :=
  let loans := getLoans s in
  let loans :=
    JS.filter_if customerId
      (λ q loan, String.eqb loan.(Loan.customerId) q) loans in
  let loans :=
    JS.filter_if status (λ q loan, String.eqb loan.(Loan.status) q) loans in
  let loans :=
    JS.filter_if dateFrom
      (λ q loan, JS.string_ge loan.(Loan.appliedAt) q) loans in
  (listing ctx loans, s).

End Loans.

(** ** [routes/airtime.js] *)

Module Airtime.

(** [{ status }]: what the timer set by [POST /airtime/purchase] passes to
    [updateAirtimePurchase], with [status = 'completed']. *)
Definition status_only (status : string) : AirtimePurchasePatch.t :=
  {| AirtimePurchasePatch.id := None; AirtimePurchasePatch.accountId := None;
     AirtimePurchasePatch.phoneNumber := None;
     AirtimePurchasePatch.amount := None;
     AirtimePurchasePatch.currency := None;
     AirtimePurchasePatch.provider := None;
     AirtimePurchasePatch.status := Some status;
     AirtimePurchasePatch.transactionReference := None;
     AirtimePurchasePatch.purchasedAt := None;
     AirtimePurchasePatch.completedAt := None;
     AirtimePurchasePatch.deliveryStatus := None |}.

Definition check_completed (ctx : Ctx.t) (purchaseId : string) (s : Store)
  : Response Checker.t * Store :=
  match getAirtimePurchaseById purchaseId s with
  | None =>
      (verdict ctx false "Airtime purchase not found"
         [("purchaseId", JStr purchaseId)],
       s)
  | Some purchase =>
      let isCompleted :=
        String.eqb purchase.(AirtimePurchase.status) "completed" in
      (verdict ctx isCompleted
         (if isCompleted then "Airtime purchase has been completed"
          else "Purchase status is: " +:+ purchase.(AirtimePurchase.status))
         [("purchaseId", JStr purchase.(AirtimePurchase.id));
          ("status", JStr purchase.(AirtimePurchase.status));
          ("deliveryStatus", JStr purchase.(AirtimePurchase.deliveryStatus));
          ("phoneNumber", JStr purchase.(AirtimePurchase.phoneNumber));
          ("amount", JNum purchase.(AirtimePurchase.amount));
          ("provider", JStr purchase.(AirtimePurchase.provider));
          ("completedAt", nullable purchase.(AirtimePurchase.completedAt))],
       s)
  end.

(** An entry of [PROVIDERS]. *)
Module Provider.

Record t := mk { id : string; name : string; countries : list string }.

End Provider.

Definition PROVIDERS : list Provider.t :=
  [ Provider.mk "MTN" "MTN" ["GH"; "NG"; "ZA"];
    Provider.mk "Vodafone" "Vodafone" ["GH"; "NG"];
    Provider.mk "Airtel" "Airtel" ["GH"; "NG"; "KE"];
    Provider.mk "Tigo" "Tigo" ["GH"];
    Provider.mk "Orange" "Orange" ["GH"; "CI"] ].

(** [GET /airtime/providers] *)
Definition providers (ctx : Ctx.t) (s : Store)
  : Response (Listing.t Provider.t) * Store :=
  (listing ctx PROVIDERS, s).

(** The body of [POST /airtime/purchase]. *)
Module PurchaseBody.

Record t := mk {
  phoneNumber : option string; amount : option float;
  provider : option string; currency : option string;
  accountId : option string
}.

End PurchaseBody.

(** What [setTimeout] is given: after [delay] milliseconds the purchase
    [purchaseId] is updated with [{ status: 'completed' }]. *)
Module Timer.

Record t := mk { delay : Z; purchaseId : string }.

End Timer.

(** [POST /airtime/purchase]: the answer, the store, and the timer the
    handler sets when it creates a purchase. *)
Definition purchase (ctx : Ctx.t) (b : PurchaseBody.t) (s : Store)
  : Response (Envelope.t AirtimePurchase.t) * Store * option Timer.t :=
  match b.(PurchaseBody.phoneNumber), b.(PurchaseBody.amount),
        b.(PurchaseBody.provider), b.(PurchaseBody.accountId) with
  | Some phoneNumber, Some amount, Some provider, Some accountId =>
      if negb (JS.truthy_string phoneNumber) || negb (JS.truthy_number amount)
         || negb (JS.truthy_string provider)
         || negb (JS.truthy_string accountId)
      then
        (fail ctx 400
           "Missing required fields: phoneNumber, amount, provider, accountId",
         s, None)
      else if JS.le amount 0 then
        (fail ctx 400 "Amount must be greater than 0", s, None)
      else
        match List.find
                (λ p, String.eqb p.(Provider.id) provider
                      || String.eqb p.(Provider.name) provider)
                PROVIDERS with
        | None =>
            (fail ctx 400
               ("Invalid provider. Available: "
                +:+ JS.join ", " (List.map Provider.id PROVIDERS)),
             s, None)
        | Some providerExists =>
            let '(purchase, s') :=
              addAirtimePurchase ctx.(Ctx.now)
                {| NewAirtimePurchase.accountId := accountId;
                   NewAirtimePurchase.phoneNumber := phoneNumber;
                   NewAirtimePurchase.amount := amount;
                   NewAirtimePurchase.currency :=
                     match b.(PurchaseBody.currency) with
                     | Some c => if JS.truthy_string c then c else "GHS"
                     | None => "GHS"
                     end;
                   NewAirtimePurchase.provider := providerExists.(Provider.id);
                   NewAirtimePurchase.transactionReference := None |}
                s in
            (ok ctx 201 purchase (Some "Airtime purchase initiated"), s',
             Some (Timer.mk 2000 purchase.(AirtimePurchase.id)))
        end
  | _, _, _, _ =>
      (fail ctx 400
         "Missing required fields: phoneNumber, amount, provider, accountId",
       s, None)
  end.

(** The callback of the timer, run at the time [now]. *)
Definition fire (now : Z) (timer : Timer.t) (s : Store) : Store :=
  snd (updateAirtimePurchase now timer.(Timer.purchaseId)
         (status_only "completed") s).

(** [GET /airtime/purchases/:purchaseId] *)
Definition get_by_id (ctx : Ctx.t) (purchaseId : string) (s : Store)
  : Response (Envelope.t AirtimePurchase.t) * Store :=
  match getAirtimePurchaseById purchaseId s with
  | None => (fail ctx 404 "Airtime purchase not found", s)
  | Some purchase => (ok ctx 200 purchase None, s)
  end.

(** [GET /airtime/purchases]; the arguments are the query parameters. *)
Definition index (ctx : Ctx.t)
    (accountId phoneNumber status dateFrom : option string) (s : Store)
  : Response (Listing.t AirtimePurchase.t) * Store :=
  let purchases := getAirtimePurchases s in
  let purchases :=
    JS.filter_if accountId
      (λ q p, String.eqb p.(AirtimePurchase.accountId) q) purchases in
  let purchases :=
    JS.filter_if phoneNumber
      (λ q p, String.eqb p.(AirtimePurchase.phoneNumber) q) purchases in
  let purchases :=
    JS.filter_if status
      (λ q p, String.eqb p.(AirtimePurchase.status) q) purchases in
  let purchases :=
    JS.filter_if dateFrom
      (λ q p, JS.string_ge p.(AirtimePurchase.purchasedAt) q) purchases in
  (listing ctx purchases, s).

End Airtime.

(** ** [routes/kyc.js] *)

Module Kyc.

(** [{ status }] *)
Definition status_only (status : string) : KycRecordPatch.t :=
  {| KycRecordPatch.customerId := None; KycRecordPatch.status := Some status;
     KycRecordPatch.level := None; KycRecordPatch.documents := None;
     KycRecordPatch.riskRating := None; KycRecordPatch.verifiedAt := None;
     KycRecordPatch.expiresAt := None; KycRecordPatch.pendingItems := None;
     KycRecordPatch.rejectionReason := None |}.

(** [a || b] on strings. *)
Definition or_else (a : option string) (b : string) : string :=
  match a with
  | Some x => if JS.truthy_string x then x else b
  | None => b
  end.

(** [documents] and [level] are the fields of the request body. *)
Definition refresh (ctx : Ctx.t) (customerId : string)
    (documents : option (list string)) (level : option string) (s : Store)
  : Response (Envelope.t KycRecord.t) * Store :=
  let existingKyc := getKycRecord customerId s in
  let hasAllDocuments :=
    match documents with
    | Some d => (2 <=? length d)%nat
    | None => false
    end in
  let riskRating := if hasAllDocuments then "low" else "medium" in
  let newStatus := if hasAllDocuments then "approved" else "pending" in
  let '(kyc, s') :=
    updateKycRecord ctx.(Ctx.now) customerId
      {| KycRecordPatch.customerId := None;
         KycRecordPatch.status := Some newStatus;
         KycRecordPatch.level :=
           Some (or_else level
                   (or_else (KycRecord.level <$> existingKyc) "tier1"));
         KycRecordPatch.documents :=
           Some (match documents with
                 | Some d => d
                 | None => default [] (KycRecord.documents <$> existingKyc)
                 end);
         KycRecordPatch.riskRating := Some riskRating;
         KycRecordPatch.verifiedAt := None;
         KycRecordPatch.expiresAt := None;
         KycRecordPatch.pendingItems :=
           Some (if hasAllDocuments then []
                 else ["proof_of_address"; "income_statement"]);
         KycRecordPatch.rejectionReason := None |}
      s in
  (ok ctx 200 kyc (Some "KYC check refreshed"), s').

Definition check_approved (ctx : Ctx.t) (customerId : string) (s : Store)
  : Response Checker.t * Store :=
  match getKycRecord customerId s with
  | None =>
      (verdict ctx false "KYC record not found"
         [("customerId", JStr customerId)],
       s)
  | Some kyc =>
      let isApproved := String.eqb kyc.(KycRecord.status) "approved" in
      (verdict ctx isApproved
         (if isApproved then "KYC is approved"
          else "KYC status is: " +:+ kyc.(KycRecord.status))
         [("customerId", JStr kyc.(KycRecord.customerId));
          ("status", JStr kyc.(KycRecord.status));
          ("level", JStr kyc.(KycRecord.level));
          ("riskRating", JStr kyc.(KycRecord.riskRating));
          ("pendingItems", JArr kyc.(KycRecord.pendingItems));
          ("verifiedAt", nullable kyc.(KycRecord.verifiedAt));
          ("expiresAt", nullable kyc.(KycRecord.expiresAt))],
       s)
  end.

(** [GET /kyc/customers/:customerId] *)
Definition get_by_id (ctx : Ctx.t) (customerId : string) (s : Store)
  : Response (Envelope.t KycRecord.t) * Store :=
  match getKycRecord customerId s with
  | None => (fail ctx 404 "KYC record not found", s)
  | Some kyc => (ok ctx 200 kyc None, s)
  end.

End Kyc.

(** ** [routes/limits.js] *)

Module Limits.

(** [dailyLimit] and [monthlyLimit] are the fields of the request body,
    [None] when the body does not carry them. *)
Definition update (ctx : Ctx.t) (accountId : string)
    (dailyLimit monthlyLimit : option float) (s : Store)
  : Response (Envelope.t AccountLimit.t) * Store :=
  if negb (JS.truthy_opt JS.truthy_number dailyLimit)
     && negb (JS.truthy_opt JS.truthy_number monthlyLimit)
  then
    (fail ctx 400
       "At least one limit must be provided: dailyLimit or monthlyLimit", s)
  else if match dailyLimit with Some d => JS.lt d 0 | None => false end then
    (fail ctx 400 "dailyLimit must be >= 0", s)
  else if match monthlyLimit with Some m => JS.lt m 0 | None => false end then
    (fail ctx 400 "monthlyLimit must be >= 0", s)
  else
    let '(limit, s') :=
      updateAccountLimit ctx.(Ctx.now) accountId
        {| AccountLimitPatch.accountId := None;
           AccountLimitPatch.dailyLimit := dailyLimit;
           AccountLimitPatch.monthlyLimit := monthlyLimit;
           AccountLimitPatch.dailyUsed := None;
           AccountLimitPatch.monthlyUsed := None;
           AccountLimitPatch.currency := None;
           AccountLimitPatch.updatedAt := None |}
        s in
    (ok ctx 200 limit (Some "Account limits updated"), s').

(** The metadata of a verdict reached for a period. *)
Definition available_metadata (limit : AccountLimit.t) (period : string)
    (amountNum remaining : float) : list (string * Json) :=
  [("accountId", JStr limit.(AccountLimit.accountId));
   ("period", JStr period);
   ("requestedAmount", JNum amountNum);
   ("remaining", JNum remaining);
   ("limit",
    JNum (if String.eqb period "daily" then limit.(AccountLimit.dailyLimit)
          else limit.(AccountLimit.monthlyLimit)));
   ("used",
    JNum (if String.eqb period "daily" then limit.(AccountLimit.dailyUsed)
          else limit.(AccountLimit.monthlyUsed)));
   ("currency", JStr limit.(AccountLimit.currency))].

(** The reason of a verdict reached for a period; [label] is ["Daily"] or
    ["Monthly"] and [lower] the same word in lower case. *)
Definition available_reason (label lower : string) (isAvailable : bool)
    (remaining amountNum : float) (currency : string) : string :=
  if isAvailable then
    label +:+ " limit available: " +:+ JS.Number_toString remaining +:+ " "
      +:+ currency
  else
    "Insufficient " +:+ lower +:+ " limit. Available: "
      +:+ JS.Number_toString remaining +:+ " " +:+ currency +:+ ", Required: "
      +:+ JS.Number_toString amountNum +:+ " " +:+ currency.

(** ['Period must be "daily" or "monthly"'] *)
Definition bad_period : string :=
  let quote := String (ascii_of_nat 34) EmptyString in
  "Period must be " +:+ quote +:+ "daily" +:+ quote +:+ " or " +:+ quote
    +:+ "monthly" +:+ quote.

(** [amount] and [period] are the query parameters, [None] when the query
    string does not carry them. *)
Definition check_available (ctx : Ctx.t) (accountId : string)
    (amount period : option string) (s : Store)
  : Response Checker.t * Store :=
  let period := default "daily" period in
  match getAccountLimit accountId s with
  | None =>
      (verdict ctx false "Account limits not found"
         [("accountId", JStr accountId)],
       s)
  | Some limit =>
      let amountNum := JS.parseFloat (default "" amount) in
      if negb (JS.truthy_opt JS.truthy_string amount) || JS.isNaN amountNum
         || JS.le amountNum 0
      then
        (verdict ctx false "Amount must be provided and greater than 0"
           [("accountId", JStr accountId)],
         s)
      else if String.eqb period "daily" then
        let remaining :=
          (limit.(AccountLimit.dailyLimit)
           - limit.(AccountLimit.dailyUsed))%float in
        let isAvailable := JS.ge remaining amountNum in
        (verdict ctx isAvailable
           (available_reason "Daily" "daily" isAvailable remaining amountNum
              limit.(AccountLimit.currency))
           (available_metadata limit period amountNum remaining),
         s)
      else if String.eqb period "monthly" then
        let remaining :=
          (limit.(AccountLimit.monthlyLimit)
           - limit.(AccountLimit.monthlyUsed))%float in
        let isAvailable := JS.ge remaining amountNum in
        (verdict ctx isAvailable
           (available_reason "Monthly" "monthly" isAvailable remaining
              amountNum limit.(AccountLimit.currency))
           (available_metadata limit period amountNum remaining),
         s)
      else
        (verdict ctx false bad_period [("accountId", JStr accountId)],
         s)
  end.

(** The data of [GET /limits/:accountId]:
    [{ ...limit, dailyRemaining, monthlyRemaining }]. *)
Module LimitView.

Record t := mk {
  limit : AccountLimit.t; dailyRemaining : float; monthlyRemaining : float
}.

End LimitView.

(** [GET /limits/:accountId] *)
Definition get_by_id (ctx : Ctx.t) (accountId : string) (s : Store)
  : Response (Envelope.t LimitView.t) * Store :=
  match getAccountLimit accountId s with
  | None => (fail ctx 404 "Account limits not found", s)
  | Some limit =>
      let dailyRemaining :=
        (limit.(AccountLimit.dailyLimit)
         - limit.(AccountLimit.dailyUsed))%float in
      let monthlyRemaining :=
        (limit.(AccountLimit.monthlyLimit)
         - limit.(AccountLimit.monthlyUsed))%float in
      (ok ctx 200 (LimitView.mk limit dailyRemaining monthlyRemaining) None, s)
  end.

End Limits.

(** ** The checker endpoints, as [server.js] mounts them *)

Inductive CheckerCall :=
| CheckActive (accountId : string)
| CheckCleared (txnId : string)
| CheckReady (paymentId : string)
| CheckEligible (loanId : string)
| CheckApproved (loanId : string)
| CheckCompleted (purchaseId : string)
| CheckKycApproved (customerId : string)
| CheckAvailable (accountId : string) (amount period : option string).

Definition run_checker (ctx : Ctx.t) (call : CheckerCall) (s : Store)
  : Response Checker.t * Store :=
  match call with
  | CheckActive accountId => Accounts.check_active ctx accountId s
  | CheckCleared txnId => Transactions.check_cleared ctx txnId s
  | CheckReady paymentId => Payments.check_ready ctx paymentId s
  | CheckEligible loanId => Loans.check_eligible ctx loanId s
  | CheckApproved loanId => Loans.check_approved ctx loanId s
  | CheckCompleted purchaseId => Airtime.check_completed ctx purchaseId s
  | CheckKycApproved customerId => Kyc.check_approved ctx customerId s
  | CheckAvailable accountId amount period =>
      Limits.check_available ctx accountId amount period s
  end.

(** Whether the id a checker is called with resolves to a stored record. *)
Definition resolves (call : CheckerCall) (s : Store) : bool :=
  match call with
  | CheckActive accountId => bool_decide (is_Some (getAccountById accountId s))
  | CheckCleared txnId => bool_decide (is_Some (getTransactionById txnId s))
  | CheckReady paymentId => bool_decide (is_Some (getPaymentById paymentId s))
  | CheckEligible loanId | CheckApproved loanId =>
      bool_decide (is_Some (getLoanById loanId s))
  | CheckCompleted purchaseId =>
      bool_decide (is_Some (getAirtimePurchaseById purchaseId s))
  | CheckKycApproved customerId =>
      bool_decide (is_Some (getKycRecord customerId s))
  | CheckAvailable accountId _ _ =>
      bool_decide (is_Some (getAccountLimit accountId s))
  end.

(** The metadata key, the requested id, and the name of the resource in the
    reason of a checker whose id does not resolve. *)
Definition requested (call : CheckerCall) : string * string * string :=
  match call with
  | CheckActive accountId => ("accountId", accountId, "Account")
  | CheckCleared txnId => ("transactionId", txnId, "Transaction")
  | CheckReady paymentId => ("paymentId", paymentId, "Payment")
  | CheckEligible loanId | CheckApproved loanId => ("loanId", loanId, "Loan")
  | CheckCompleted purchaseId => ("purchaseId", purchaseId, "Airtime purchase")
  | CheckKycApproved customerId => ("customerId", customerId, "KYC record")
  | CheckAvailable accountId _ _ => ("accountId", accountId, "Account limits")
  end.

(** ** Definitions that word the specification

    The amounts check-available takes as greater than 0, what is ordinarily
    called a numeric amount, and the list of the failing clauses of the
    readiness predicate, to be compared with what the handlers compute. *)

(** The amount is there and [parseFloat] reads a number above 0 at its head:
    what follows the leading decimal literal does not count. *)
Definition valid_amount (amount : option string) : bool :=
  match amount with
  | Some a => PrimFloat.ltb 0 (JS.parseFloat a)
  | None => false
  end.

(** A numeric amount in the ordinary sense: an optional sign, digits, and
    possibly a point followed by digits, with nothing before or after. *)
Definition decimal_numeral (s : string) : bool :=
  let unsigned :=
    match s with
    | String c r => if Ascii.eqb c "-" || Ascii.eqb c "+" then r else s
    | EmptyString => s
    end in
  let '(_, ni, rest) := JS.digits 0 0 unsigned in
  match rest with
  | EmptyString => negb (ni =? 0)%nat
  | String c r =>
      let '(_, nf, rest') := JS.digits 0 0 r in
      Ascii.eqb c "." && negb (ni =? 0)%nat && negb (nf =? 0)%nat
      && String.eqb rest' ""
  end.

Definition failing_clauses (payment : Payment.t) : list string :=
  snd <$>
    filter (λ clause, fst clause = false)
      [(payment.(Payment.kycComplete), "KYC not complete");
       (payment.(Payment.sufficientBalance), "Insufficient balance");
       (String.eqb payment.(Payment.status) "pending",
        "Payment status is " +:+ payment.(Payment.status))].

(** A required string field of a request body that is there and not empty. *)
Definition present (field : option string) : Prop :=
  ∃ x, field = Some x ∧ x ≠ "".

(** A body of [POST /payments/initiate] with its required fields and an
    amount greater than 0; [accountId] and [amount] are the ones it names. *)
Definition initiate_valid (b : Payments.InitiateBody.t) (accountId : string)
    (amount : float) : Prop :=
  b.(Payments.InitiateBody.accountId) = Some accountId
  ∧ accountId ≠ ""
  ∧ present b.(Payments.InitiateBody.beneficiary)
  ∧ present b.(Payments.InitiateBody.beneficiaryAccount)
  ∧ b.(Payments.InitiateBody.amount) = Some amount
  ∧ PrimFloat.ltb 0 amount = true
  ∧ present b.(Payments.InitiateBody.currency).

(** A limit of a request body that is absent or equal to 0. *)
Definition absent_or_zero (limit : option float) : Prop :=
  ∀ x, limit = Some x → PrimFloat.eqb x 0 = true.

(** A timestamp that is set once: kept when it is already set, the ISO date
    of [now] otherwise. *)
Definition stamp (old : option string) (now : Z) : option string :=
  if JS.truthy_opt JS.truthy_string old then old
  else Some (JS.toISOString now).

(** The part of a checker's answer that does not depend on the clock or on
    the request id. *)
Definition verdict_of (r : Response Checker.t)
  : nat * bool * string * list (string * Json) :=
  (r.(http), r.(body).(Checker.result), r.(body).(Checker.reason),
   r.(body).(Checker.metadata)).

(** A request context and the stores used in the examples. *)
Definition ctx0 : Ctx.t := Ctx.mk 1705312800123 "req-1705312800123-k3x9q2m1a".

Definition ctx1 : Ctx.t := Ctx.mk 1705312860456 "req-1705312860456-p7d2w8z4c".

(** The seeded store after [POST /payments/pay-002/cancel]. *)
Definition cancelled_once : Store := snd (Payments.cancel ctx0 "pay-002" seed).

(** The seeded store after [POST /kyc/customers/cust-004/refresh] with two
    documents: the customer had no KYC record. *)
Definition kyc_created : Store :=
  snd (Kyc.refresh ctx0 "cust-004" (Some ["id"; "proof_of_address"]) None seed).

(** ** The mutating operations of the store, and what they keep *)

(** A call of one of the functions of [mockData.js] that change an array. *)
Inductive StoreCall :=
| AddAccount (now : Z) (account : NewAccount.t)
| UpdateAccount (now : Z) (id : string) (updates : AccountPatch.t)
| AddTransaction (now : Z) (transaction : NewTransaction.t)
| AddPayment (now : Z) (payment : NewPayment.t)
| UpdatePayment (now : Z) (id : string) (updates : PaymentPatch.t)
| AddLoan (now : Z) (random1 random2 : float) (loan : NewLoan.t)
| UpdateLoan (now : Z) (id : string) (updates : LoanPatch.t)
| AddAirtimePurchase (now : Z) (purchase : NewAirtimePurchase.t)
| UpdateAirtimePurchase (now : Z) (id : string)
    (updates : AirtimePurchasePatch.t)
| UpdateKycRecord (now : Z) (customerId : string) (updates : KycRecordPatch.t)
| UpdateAccountLimit (now : Z) (accountId : string)
    (updates : AccountLimitPatch.t).

(** The store after the call. *)
Definition run_call (call : StoreCall) (s : Store) : Store :=
  match call with
  | AddAccount now account => snd (addAccount now account s)
  | UpdateAccount now id updates => snd (updateAccount now id updates s)
  | AddTransaction now transaction => snd (addTransaction now transaction s)
  | AddPayment now payment => snd (addPayment now payment s)
  | UpdatePayment now id updates => snd (updatePayment now id updates s)
  | AddLoan now random1 random2 loan =>
      snd (addLoan now random1 random2 loan s)
  | UpdateLoan now id updates => snd (updateLoan now id updates s)
  | AddAirtimePurchase now purchase => snd (addAirtimePurchase now purchase s)
  | UpdateAirtimePurchase now id updates =>
      snd (updateAirtimePurchase now id updates s)
  | UpdateKycRecord now customerId updates =>
      snd (updateKycRecord now customerId updates s)
  | UpdateAccountLimit now accountId updates =>
      snd (updateAccountLimit now accountId updates s)
  end.

(** The [updates] of the call do not carry the key of the record. *)
Definition key_free (call : StoreCall) : Prop :=
  match call with
  | UpdateAccount _ _ updates => updates.(AccountPatch.id) = None
  | UpdatePayment _ _ updates => updates.(PaymentPatch.id) = None
  | UpdateLoan _ _ updates => updates.(LoanPatch.id) = None
  | UpdateAirtimePurchase _ _ updates =>
      updates.(AirtimePurchasePatch.id) = None
  | UpdateKycRecord _ _ updates => updates.(KycRecordPatch.customerId) = None
  | UpdateAccountLimit _ _ updates =>
      updates.(AccountLimitPatch.accountId) = None
  | _ => True
  end.

(** The keys of the records of each array, in the order of the array. *)
Definition keys (s : Store) : list (list string) :=
  [ Account.id <$> s.(accounts);
    Transaction.id <$> s.(transactions);
    Payment.id <$> s.(payments);
    Loan.id <$> s.(loans);
    AirtimePurchase.id <$> s.(airtimePurchases);
    KycRecord.customerId <$> s.(kycRecords);
    AccountLimit.accountId <$> s.(accountLimits) ].

(** The record at index [i] carries the [i+1]-th id of the sequence. *)
Definition numbered (prefix : string) (ids : list string) : Prop :=
  ∀ i id, ids !! i = Some id → id = sequenceId prefix (i + 1).

Definition well_numbered (s : Store) : Prop :=
  numbered "acc-" (Account.id <$> s.(accounts))
  ∧ numbered "txn-" (Transaction.id <$> s.(transactions))
  ∧ numbered "pay-" (Payment.id <$> s.(payments))
  ∧ numbered "loan-" (Loan.id <$> s.(loans))
  ∧ numbered "air-" (AirtimePurchase.id <$> s.(airtimePurchases)).

(** The stores that key-free calls build from the seeded one. *)
Inductive reachable : Store → Prop :=
| reachable_seed : reachable seed
| reachable_call (call : StoreCall) (s : Store) :
    reachable s → key_free call → reachable (run_call call s).

(** ** The requests that change the store *)



(** ** The filters of the list operations, worded *)

(** A query parameter that is absent or empty lets every record through;
    otherwise the record passes when [test] holds of the parameter. *)
Definition passes (q : option string) (test : string → bool) : bool :=
  match q with
  | Some v => if String.eqb v "" then true else test v
  | None => true
  end.

(** ** Sequence ids without their padding *)

(** Dropping the zeros at the head of a string. *)
Fixpoint strip (s : string) : string :=
  match s with
  | String c r => if Ascii.eqb c "0" then strip r else s
  | EmptyString => s
  end.

(** * Properties *)

(** ** The built-ins *)

Example parseFloat_500 : JS.parseFloat "500" = 500%float.
Proof. vm_compute. reflexivity. Qed.

Example parseFloat_prefix : JS.parseFloat "  -2500.50abc" = (-2500.5)%float.
Proof. vm_compute. reflexivity. Qed.

Example parseFloat_exponent : JS.parseFloat "1.5e3" = 1500%float.
Proof. vm_compute. reflexivity. Qed.

Example parseFloat_tenth : JS.parseFloat ".1" = 0x1.999999999999ap-4%float.
Proof. vm_compute. reflexivity. Qed.

Example parseFloat_not_a_number :
  JS.parseFloat "abc" = nan /\ JS.parseFloat "" = nan /\ JS.parseFloat "." = nan.
Proof. vm_compute. auto. Qed.

Example parseFloat_overflow : JS.parseFloat "1e400" = infinity.
Proof. vm_compute. reflexivity. Qed.

Example toISOString_epoch : JS.toISOString 0 = "1970-01-01T00:00:00.000Z".
Proof. vm_compute. reflexivity. Qed.

Example toISOString_dates :
  JS.toISOString 1705312800123 = "2024-01-15T10:00:00.123Z"
  /\ JS.toISOString 951782400000 = "2000-02-29T00:00:00.000Z"
  /\ JS.toISOString (-1000) = "1969-12-31T23:59:59.000Z"
  /\ JS.toISOString 4107542400000 = "2100-03-01T00:00:00.000Z".
Proof. vm_compute. auto. Qed.

Example Number_toString_samples :
  JS.Number_toString 750 = "750"
  /\ JS.Number_toString 2500.5 = "2500.5"
  /\ JS.Number_toString (0x1.999999999999ap-4 + 0x1.999999999999ap-3)
     = "0.30000000000000004"
  /\ JS.Number_toString 0x1.b1ae4d6e2ef5p+69 = "1e+21"
  /\ JS.Number_toString nan = "NaN".
Proof. vm_compute. auto 6. Qed.

Lemma truthy_app_r (a b : string) :
  JS.truthy_string b = true → JS.truthy_string (a +:+ b) = true.
Proof.
  unfold JS.truthy_string. destruct a, b; simpl; try reflexivity. discriminate.
Qed.

(** An ISO date is never the empty string: a stamped timestamp is truthy. *)
Lemma toISOString_truthy (t : Z) : JS.truthy_string (JS.toISOString t) = true.
Proof.
  unfold JS.toISOString. destruct (JS.civil_from_days _) as [[y m] d].
  apply truthy_app_r. reflexivity.
Qed.

(** [0 < a] is what survives the guard [isNaN(a) || a <= 0]. *)
Lemma positive_number (a : float) :
  PrimFloat.ltb 0 a = negb (JS.isNaN a || JS.le a 0).
Proof.
  unfold JS.isNaN, JS.le, PrimFloat.is_nan.
  rewrite FloatAxioms.ltb_spec, FloatAxioms.leb_spec, FloatAxioms.eqb_spec.
  change (Prim2SF 0) with (S754_zero false).
  destruct (Prim2SF a) as [[]|[]| |[] m e]; try reflexivity.
  all: unfold SFeqb, SFltb, SFleb, SFcompare; simpl.
  all: rewrite ?Z.compare_refl, ?Pos.compare_cont_refl; reflexivity.
Qed.

Lemma amount_guard (amount : option string) :
  negb (JS.truthy_opt JS.truthy_string amount)
  || JS.isNaN (JS.parseFloat (default "" amount))
  || JS.le (JS.parseFloat (default "" amount)) 0
  = negb (valid_amount amount).
Proof.
  destruct amount as [a|]; [|reflexivity]. simpl.
  rewrite positive_number, negb_involutive.
  unfold JS.truthy_string. destruct (String.eqb_spec a "") as [->|_].
  - vm_compute. reflexivity.
  - rewrite <- orb_assoc. reflexivity.
Qed.

(** ** Looking records up *)

Section Find.

Context {A : Type} (P : A → Prop) `{∀ x, Decision (P x)}.

Lemma find_snd (l : list A) (x : A) :
  snd <$> list_find P l = Some x → ∃ i, list_find P l = Some (i, x).
Proof.
  destruct (list_find P l) as [[i y]|]; simpl; [|discriminate].
  intros [= ->]. eauto.
Qed.

(** Overwriting the slot that was found by a record that still satisfies
    the predicate: the same slot is found again. *)
Lemma find_insert (l : list A) (i : nat) (x y : A) :
  list_find P l = Some (i, x) → P y → list_find P (<[i := y]> l) = Some (i, y).
Proof.
  intros (Hi & _ & Hleast)%list_find_Some Hy. apply list_find_Some.
  split_and!; [|done|].
  - apply list_lookup_insert_eq. eauto using lookup_lt_Some.
  - intros j z Hj Hlt. rewrite list_lookup_insert_ne in Hj by lia. eauto.
Qed.

Lemma find_lookup (l : list A) (i : nat) (x : A) :
  list_find P l = Some (i, x) → l !! i = Some x ∧ P x.
Proof. intros (? & ? & _)%list_find_Some. done. Qed.

End Find.

(** ** Payments: cancellation *)

Lemma getPaymentById_find (id : string) (s : Store) (p : Payment.t) :
  getPaymentById id s = Some p →
  ∃ i, list_find (λ pay, pay.(Payment.id) = id) s.(payments) = Some (i, p).
Proof. apply find_snd. Qed.

(** C1, as amended: the cancel operation refuses exactly the completed
    payments.  For a payment whose status is 'completed' it answers 400
    'Cannot cancel a completed payment' and leaves the store untouched; for
    a payment in any other status, an already cancelled one included, it
    succeeds, and the stored payment becomes the old one with status
    'cancelled' (its [completedAt] is not touched). *)
Theorem cancel_refused_only_when_completed
    (ctx : Ctx.t) (paymentId : string) (s : Store) (payment : Payment.t) :
  getPaymentById paymentId s = Some payment →
  (payment.(Payment.status) = "completed" →
   Payments.cancel ctx paymentId s
   = (fail ctx 400 "Cannot cancel a completed payment", s))
  ∧ (payment.(Payment.status) ≠ "completed" →
     ∃ index cancelled,
       s.(payments) !! index = Some payment
       ∧ cancelled = spreadPayment payment (Payments.status_only "cancelled")
       ∧ cancelled.(Payment.status) = "cancelled"
       ∧ cancelled.(Payment.completedAt) = payment.(Payment.completedAt)
       ∧ Payments.cancel ctx paymentId s
         = (ok ctx 200 (Some cancelled) (Some "Payment cancelled"),
            set_payments (<[index := cancelled]> s.(payments)) s)).
Proof.
  intros Hget. unfold Payments.cancel. rewrite Hget. split.
  - intros ->. reflexivity.
  - intros Hne. apply String.eqb_neq in Hne. rewrite Hne.
    destruct (getPaymentById_find _ _ _ Hget) as [i Hi].
    exists i, (spreadPayment payment (Payments.status_only "cancelled")).
    split_and!; try reflexivity.
    + by apply find_lookup in Hi as [? _].
    + unfold updatePayment. rewrite Hi. reflexivity.
Qed.

Lemma cancel_refused_only_when_completed_witness :
  (Payment.status <$> getPaymentById "pay-001" seed) = Some "completed"
  ∧ Payments.cancel ctx0 "pay-001" seed
    = (fail ctx0 400 "Cannot cancel a completed payment", seed)
  ∧ (Payment.status <$> getPaymentById "pay-002" seed) = Some "pending"
  ∧ ∃ cancelled,
      cancelled.(Payment.status) = "cancelled"
      ∧ Payments.cancel ctx0 "pay-002" seed
        = (ok ctx0 200 (Some cancelled) (Some "Payment cancelled"),
           set_payments (<[1%nat := cancelled]> seed.(payments)) seed).
Proof.
  split_and!; [reflexivity | | reflexivity | ].
  - exact (proj1 (cancel_refused_only_when_completed ctx0 "pay-001" seed _
                    eq_refl) eq_refl).
  - destruct (proj2 (cancel_refused_only_when_completed ctx0 "pay-002" seed _
                       eq_refl)) as (index & cancelled & _ & -> & Hstatus & _);
      [discriminate|].
    eexists. split; [exact Hstatus | reflexivity].
Defined.

(** C1, as the claim words it, fails: 'pay-002' has been cancelled, its
    status is not 'pending', and cancelling it again is answered with 200
    'Payment cancelled'. *)
Lemma cancel_already_cancelled_succeeds :
  (Payment.status <$> getPaymentById "pay-002" cancelled_once)
  = Some "cancelled"
  ∧ fst (Payments.cancel ctx1 "pay-002" cancelled_once)
    = ok ctx1 200
        (Some
           (Payment.mk "pay-002" "acc-002" "Jane Smith" "9876543211" 150 "GHS"
              "bank_transfer" "cancelled" "PAY-REF-002" "2024-01-20T10:00:00Z"
              None true false))
        (Some "Payment cancelled")
  ∧ snd (Payments.cancel ctx1 "pay-002" cancelled_once) = cancelled_once.
Proof. vm_compute. auto. Qed.

(** ** Loans: the guard of approve and reject *)

Lemma getLoanById_find (id : string) (s : Store) (l : Loan.t) :
  getLoanById id s = Some l →
  ∃ i, list_find (λ loan, loan.(Loan.id) = id) s.(loans) = Some (i, l).
Proof. apply find_snd. Qed.

(** C4: for a loan whose status is not 'pending', approve and reject both
    answer 400 ('Cannot approve|reject loan with status: ...') and return
    the store as it was, so the loan keeps its [status], [approvedAt] and
    [rejectionReason]. *)
Theorem approve_reject_need_pending
    (ctx : Ctx.t) (loanId : string) (reason : option string) (s : Store)
    (loan : Loan.t) :
  getLoanById loanId s = Some loan →
  loan.(Loan.status) ≠ "pending" →
  Loans.approve ctx loanId s
  = (fail ctx 400 ("Cannot approve loan with status: " +:+ loan.(Loan.status)),
     s)
  ∧ Loans.reject ctx loanId reason s
    = (fail ctx 400 ("Cannot reject loan with status: " +:+ loan.(Loan.status)),
       s)
  ∧ ∀ s', s' = snd (Loans.approve ctx loanId s)
          ∨ s' = snd (Loans.reject ctx loanId reason s) →
      ∃ loan', getLoanById loanId s' = Some loan'
        ∧ loan'.(Loan.status) = loan.(Loan.status)
        ∧ loan'.(Loan.approvedAt) = loan.(Loan.approvedAt)
        ∧ loan'.(Loan.rejectionReason) = loan.(Loan.rejectionReason).
Proof.
  intros Hget Hne. apply String.eqb_neq in Hne.
  assert (Loans.approve ctx loanId s
          = (fail ctx 400
               ("Cannot approve loan with status: " +:+ loan.(Loan.status)), s))
    as Happrove by (unfold Loans.approve; rewrite Hget, Hne; reflexivity).
  assert (Loans.reject ctx loanId reason s
          = (fail ctx 400
               ("Cannot reject loan with status: " +:+ loan.(Loan.status)), s))
    as Hreject by (unfold Loans.reject; rewrite Hget, Hne; reflexivity).
  split_and!; [done..|].
  rewrite Happrove, Hreject. simpl. intros s' [-> | ->]; eauto.
Qed.

Lemma approve_reject_need_pending_witness :
  Loans.approve ctx0 "loan-001" seed
  = (fail ctx0 400 "Cannot approve loan with status: approved", seed)
  ∧ Loans.reject ctx0 "loan-003" (Some "late") seed
    = (fail ctx0 400 "Cannot reject loan with status: rejected", seed).
Proof.
  split.
  - refine (proj1 (approve_reject_need_pending ctx0 "loan-001" None seed _
                     eq_refl _)).
    discriminate.
  - refine (proj1 (proj2 (approve_reject_need_pending ctx0 "loan-003"
                            (Some "late") seed _ eq_refl _))).
    discriminate.
Defined.

(** ** Limits: check-available *)

(** C2, as amended: for a stored account limit, check-available reads the
    amount with [parseFloat], which takes the longest decimal literal at the
    head of the string and ignores what follows it.  When the amount is
    there and the number read is greater than 0, the period daily (the
    default) or monthly gives [remaining = limit - used] for that period and
    [result = (remaining >= the number read)]; an amount that is missing,
    empty, without a decimal literal at its head, or read as a number that
    is not above 0, and otherwise a period that is neither, are answered
    [result = false] with their own reason and a metadata that holds the
    account id only.  With [dailyLimit = 1000] and [dailyUsed = 250], the
    amount 500 gives [true] and 900 gives [false], both with
    [remaining = 750]. *)
Theorem check_available_spec
    (ctx : Ctx.t) (accountId : string) (amount period : option string)
    (s : Store) (limit : AccountLimit.t) :
  getAccountLimit accountId s = Some limit →
  let amountNum := JS.parseFloat (default "" amount) in
  let daily :=
    (limit.(AccountLimit.dailyLimit) - limit.(AccountLimit.dailyUsed))%float in
  let monthly :=
    (limit.(AccountLimit.monthlyLimit)
     - limit.(AccountLimit.monthlyUsed))%float in
  let answer := Limits.check_available ctx accountId amount period s in
  let answer_for amount' :=
    (fst (Limits.check_available ctx accountId (Some amount') (Some "daily")
            s)).(body) in
  (valid_amount amount = true → default "daily" period = "daily" →
   answer
   = (verdict ctx (JS.ge daily amountNum)
        (Limits.available_reason "Daily" "daily" (JS.ge daily amountNum) daily
           amountNum limit.(AccountLimit.currency))
        (Limits.available_metadata limit "daily" amountNum daily), s)
   ∧ ("remaining", JNum daily) ∈ (fst answer).(body).(Checker.metadata))
  ∧ (valid_amount amount = true → period = Some "monthly" →
     answer
     = (verdict ctx (JS.ge monthly amountNum)
          (Limits.available_reason "Monthly" "monthly"
             (JS.ge monthly amountNum) monthly amountNum
             limit.(AccountLimit.currency))
          (Limits.available_metadata limit "monthly" amountNum monthly), s)
     ∧ ("remaining", JNum monthly) ∈ (fst answer).(body).(Checker.metadata))
  ∧ (valid_amount amount = false →
     answer
     = (verdict ctx false "Amount must be provided and greater than 0"
          [("accountId", JStr accountId)], s))
  ∧ (valid_amount amount = true → default "daily" period ≠ "daily" →
     default "daily" period ≠ "monthly" →
     answer
     = (verdict ctx false Limits.bad_period [("accountId", JStr accountId)], s))
  ∧ (limit.(AccountLimit.dailyLimit) = 1000%float →
     limit.(AccountLimit.dailyUsed) = 250%float →
     (answer_for "500").(Checker.result) = true
     ∧ ("remaining", JNum 750) ∈ (answer_for "500").(Checker.metadata)
     ∧ (answer_for "900").(Checker.result) = false
     ∧ ("remaining", JNum 750) ∈ (answer_for "900").(Checker.metadata)).
Proof.
  intros Hget amountNum daily monthly answer answer_for.
  assert (∀ amount period,
            Limits.check_available ctx accountId amount period s
            = let amountNum := JS.parseFloat (default "" amount) in
              let period := default "daily" period in
              if negb (valid_amount amount) then
                (verdict ctx false "Amount must be provided and greater than 0"
                   [("accountId", JStr accountId)], s)
              else if String.eqb period "daily" then
                (verdict ctx (JS.ge daily amountNum)
                   (Limits.available_reason "Daily" "daily"
                      (JS.ge daily amountNum) daily amountNum
                      limit.(AccountLimit.currency))
                   (Limits.available_metadata limit period amountNum daily), s)
              else if String.eqb period "monthly" then
                (verdict ctx (JS.ge monthly amountNum)
                   (Limits.available_reason "Monthly" "monthly"
                      (JS.ge monthly amountNum) monthly amountNum
                      limit.(AccountLimit.currency))
                   (Limits.available_metadata limit period amountNum monthly),
                 s)
              else
                (verdict ctx false Limits.bad_period
                   [("accountId", JStr accountId)], s)) as Hcode.
  { intros a p. unfold Limits.check_available. rewrite Hget, amount_guard.
    reflexivity. }
  subst answer answer_for. cbv beta. split_and!.
  - intros Hvalid Hperiod. rewrite Hcode, Hvalid, Hperiod. simpl.
    split; [reflexivity|]. unfold Limits.available_metadata.
    repeat constructor.
  - intros Hvalid ->. rewrite Hcode, Hvalid. simpl.
    split; [reflexivity|]. unfold Limits.available_metadata.
    repeat constructor.
  - intros Hvalid. rewrite Hcode, Hvalid. reflexivity.
  - intros Hvalid Hd%String.eqb_neq Hm%String.eqb_neq.
    rewrite Hcode, Hvalid. cbv zeta. rewrite Hd, Hm. reflexivity.
  - intros Hlimit Hused. rewrite !Hcode. subst daily. rewrite Hlimit, Hused.
    change (1000 - 250)%float with 750%float.
    replace (valid_amount (Some "500")) with true by (vm_compute; reflexivity).
    replace (valid_amount (Some "900")) with true by (vm_compute; reflexivity).
    replace (JS.parseFloat (default "" (Some "500"))) with 500%float
      by (vm_compute; reflexivity).
    replace (JS.parseFloat (default "" (Some "900"))) with 900%float
      by (vm_compute; reflexivity).
    simpl. unfold Limits.available_metadata.
    split_and!; try reflexivity; repeat constructor.
Qed.

(** C2 at the seeded limit of 'acc-001' ([dailyLimit = 1000],
    [dailyUsed = 250]), with the default period. *)
Lemma check_available_spec_witness :
  getAccountLimit "acc-001" seed
  = Some (AccountLimit.mk "acc-001" 1000 10000 250 1200 "GHS"
            "2024-01-20T10:00:00Z")
  ∧ valid_amount (Some "500") = true
  ∧ fst (Limits.check_available ctx0 "acc-001" (Some "500") None seed)
    = verdict ctx0 true "Daily limit available: 750 GHS"
        [("accountId", JStr "acc-001"); ("period", JStr "daily");
         ("requestedAmount", JNum 500); ("remaining", JNum 750);
         ("limit", JNum 1000); ("used", JNum 250); ("currency", JStr "GHS")].
Proof.
  split_and!; [reflexivity | vm_compute; reflexivity | ].
  refine (eq_trans
            (f_equal fst
               (proj1 (proj1 (check_available_spec ctx0 "acc-001" (Some "500")
                                None seed _ eq_refl) _ eq_refl)))
            _).
  - vm_compute. reflexivity.
  - vm_compute. reflexivity.
Defined.

(** C2, as the claim words it, fails: '5,000' and '500abc' are not numeric
    amounts, yet check-available does not refuse them.  It reads 5 and 500
    at their heads, computes [remaining = 750] and answers
    [result = true]. *)
Lemma check_available_reads_a_numeric_prefix :
  decimal_numeral "5,000" = false
  ∧ decimal_numeral "500abc" = false
  ∧ fst (Limits.check_available ctx0 "acc-001" (Some "5,000") (Some "daily")
           seed)
    = verdict ctx0 true "Daily limit available: 750 GHS"
        [("accountId", JStr "acc-001"); ("period", JStr "daily");
         ("requestedAmount", JNum 5); ("remaining", JNum 750);
         ("limit", JNum 1000); ("used", JNum 250); ("currency", JStr "GHS")]
  ∧ fst (Limits.check_available ctx0 "acc-001" (Some "500abc") (Some "daily")
           seed)
    = verdict ctx0 true "Daily limit available: 750 GHS"
        [("accountId", JStr "acc-001"); ("period", JStr "daily");
         ("requestedAmount", JNum 500); ("remaining", JNum 750);
         ("limit", JNum 1000); ("used", JNum 250); ("currency", JStr "GHS")].
Proof. vm_compute. auto. Qed.

(** Numerals in the ordinary sense, and strings that are not. *)
Example decimal_numeral_samples :
  decimal_numeral "500" = true ∧ decimal_numeral "12.5" = true
  ∧ decimal_numeral "-3" = true ∧ decimal_numeral "" = false
  ∧ decimal_numeral "abc" = false ∧ decimal_numeral "12.5 apples" = false
  ∧ decimal_numeral "1.2.3" = false.
Proof. vm_compute. auto 8. Qed.

(** ** Payments: check-ready *)

(** The clauses the handler collects are the failing clauses, in the order
    kyc, balance, status. *)
Lemma reasons_failing_clauses (payment : Payment.t) :
  Payments.reasons payment = failing_clauses payment.
Proof.
  unfold Payments.reasons, failing_clauses.
  destruct payment.(Payment.kycComplete), payment.(Payment.sufficientBalance),
    (String.eqb payment.(Payment.status) "pending"); reflexivity.
Qed.

(** C3: for an existing payment, check-ready answers
    [result = kycComplete && sufficientBalance && status == 'pending']; when
    the result is false the reason is the failing clauses joined by ', ' in
    the order kyc, balance, status; a payment with [kycComplete = true],
    [sufficientBalance = false] and status 'pending' gets the reason
    'Insufficient balance' and nothing else. *)
Theorem check_ready_spec
    (ctx : Ctx.t) (paymentId : string) (s : Store) (payment : Payment.t) :
  getPaymentById paymentId s = Some payment →
  let answer := (fst (Payments.check_ready ctx paymentId s)).(body) in
  answer.(Checker.result)
  = payment.(Payment.kycComplete) && payment.(Payment.sufficientBalance)
    && String.eqb payment.(Payment.status) "pending"
  ∧ (answer.(Checker.result) = false →
     answer.(Checker.reason) = JS.join ", " (failing_clauses payment))
  ∧ (answer.(Checker.result) = true →
     answer.(Checker.reason) = "Payment is ready to process"
     ∧ failing_clauses payment = [])
  ∧ (payment.(Payment.kycComplete) = true →
     payment.(Payment.sufficientBalance) = false →
     payment.(Payment.status) = "pending" →
     answer.(Checker.result) = false
     ∧ answer.(Checker.reason) = "Insufficient balance").
Proof.
  intros Hget answer. subst answer. unfold Payments.check_ready.
  rewrite Hget. simpl. rewrite reasons_failing_clauses. split_and!.
  - reflexivity.
  - intros ->. reflexivity.
  - intros Hready. rewrite Hready. split; [reflexivity|].
    apply andb_prop in Hready as [[Hkyc Hbalance]%andb_prop Hstatus].
    unfold failing_clauses. rewrite Hkyc, Hbalance, Hstatus. reflexivity.
  - intros Hkyc Hbalance Hstatus. unfold failing_clauses.
    rewrite Hkyc, Hbalance, Hstatus. split; reflexivity.
Qed.

(** C3 at the seeded payment 'pay-002': KYC complete, balance insufficient,
    status 'pending'. *)
Lemma check_ready_spec_witness :
  (Payment.status <$> getPaymentById "pay-002" seed) = Some "pending"
  ∧ (fst (Payments.check_ready ctx0 "pay-002" seed)).(body).(Checker.result)
    = false
  ∧ (fst (Payments.check_ready ctx0 "pay-002" seed)).(body).(Checker.reason)
    = "Insufficient balance".
Proof.
  split; [reflexivity|].
  exact (proj2 (proj2 (proj2 (check_ready_spec ctx0 "pay-002" seed _ eq_refl)))
           eq_refl eq_refl eq_refl).
Defined.

(** The three clauses, joined in their fixed order, when all of them fail. *)
Example check_ready_all_clauses :
  (fst (Payments.check_ready ctx0 "p"
          (set_payments
             [Payment.mk "p" "acc-001" "John Doe" "9876543210" 200 "GHS"
                "bank_transfer" "cancelled" "PAY-REF-009"
                "2024-01-18T08:00:00Z" None false false]
             seed))).(body).(Checker.reason)
  = "KYC not complete, Insufficient balance, Payment status is cancelled".
Proof. reflexivity. Qed.

(** ** Timestamps stamped by a status *)

Lemma stamp_truthy (old : option string) (now : Z) :
  JS.truthy_opt JS.truthy_string (stamp old now) = true.
Proof.
  unfold stamp. destruct (JS.truthy_opt JS.truthy_string old) eqn:Hold.
  - exact Hold.
  - apply toISOString_truthy.
Qed.

(** Once set, a later stamp leaves the timestamp as it is. *)
Lemma stamp_once (old : option string) (now later : Z) :
  stamp (stamp old now) later = stamp old now.
Proof. unfold stamp at 1. rewrite stamp_truthy. reflexivity. Qed.

Lemma stamp_set (old : option string) (now : Z) :
  JS.truthy_opt JS.truthy_string old = true → stamp old now = old.
Proof. unfold stamp. intros ->. reflexivity. Qed.

(** For a loan in the store, an update whose patch carries the status
    'approved', and neither an id nor an [approvedAt] of its own, stamps
    [approvedAt] once; the loan is found again under the same id. *)
Lemma updateLoan_approved
    (now : Z) (id : string) (updates : LoanPatch.t) (s : Store) (old : Loan.t) :
  getLoanById id s = Some old →
  updates.(LoanPatch.status) = Some "approved" →
  updates.(LoanPatch.id) = None →
  updates.(LoanPatch.approvedAt) = None →
  ∃ new,
    fst (updateLoan now id updates s) = Some new
    ∧ getLoanById id (snd (updateLoan now id updates s)) = Some new
    ∧ new.(Loan.status) = "approved"
    ∧ new.(Loan.approvedAt) = stamp old.(Loan.approvedAt) now.
Proof.
  intros [i Hi]%getLoanById_find Hstatus Hid Happroved.
  destruct (find_lookup _ _ _ _ Hi) as [_ Hold].
  unfold updateLoan. rewrite Hi, Hstatus. cbn [JS.opt_is fst snd].
  change (String.eqb "approved" "approved") with true.
  change (String.eqb "approved" "disbursed") with false.
  cbn [andb]. eexists. split; [reflexivity|].
  unfold getLoanById. cbn [loans set_loans].
  erewrite find_insert; [cbn [fmap option_fmap option_map snd] | exact Hi | ].
  - split; [reflexivity|]. unfold stamp, spreadLoan.
    rewrite Hstatus, Happroved. cbn [default Loan.approvedAt].
    destruct (JS.truthy_opt JS.truthy_string old.(Loan.approvedAt));
      split; reflexivity.
  - unfold spreadLoan. rewrite Hid.
    destruct (JS.truthy_opt JS.truthy_string _); exact Hold.
Qed.

(** The same for the status 'disbursed' and [disbursedAt]. *)
Lemma updateLoan_disbursed
    (now : Z) (id : string) (updates : LoanPatch.t) (s : Store) (old : Loan.t) :
  getLoanById id s = Some old →
  updates.(LoanPatch.status) = Some "disbursed" →
  updates.(LoanPatch.id) = None →
  updates.(LoanPatch.disbursedAt) = None →
  ∃ new,
    fst (updateLoan now id updates s) = Some new
    ∧ getLoanById id (snd (updateLoan now id updates s)) = Some new
    ∧ new.(Loan.status) = "disbursed"
    ∧ new.(Loan.disbursedAt) = stamp old.(Loan.disbursedAt) now.
Proof.
  intros [i Hi]%getLoanById_find Hstatus Hid Hdisbursed.
  destruct (find_lookup _ _ _ _ Hi) as [_ Hold].
  unfold updateLoan. rewrite Hi, Hstatus. cbn [JS.opt_is fst snd].
  change (String.eqb "disbursed" "approved") with false.
  change (String.eqb "disbursed" "disbursed") with true.
  cbn [andb]. eexists. split; [reflexivity|].
  unfold getLoanById. cbn [loans set_loans].
  erewrite find_insert; [cbn [fmap option_fmap option_map snd] | exact Hi | ].
  - split; [reflexivity|]. unfold stamp, spreadLoan.
    rewrite Hstatus, Hdisbursed. cbn [default Loan.disbursedAt].
    destruct (JS.truthy_opt JS.truthy_string old.(Loan.disbursedAt));
      split; reflexivity.
  - unfold spreadLoan. rewrite Hid.
    destruct (JS.truthy_opt JS.truthy_string _); exact Hold.
Qed.

(** Payments: the status 'completed' stamps [completedAt] once. *)
Lemma updatePayment_completed
    (now : Z) (id : string) (updates : PaymentPatch.t) (s : Store)
    (old : Payment.t) :
  getPaymentById id s = Some old →
  updates.(PaymentPatch.status) = Some "completed" →
  updates.(PaymentPatch.id) = None →
  updates.(PaymentPatch.completedAt) = None →
  ∃ new,
    fst (updatePayment now id updates s) = Some new
    ∧ getPaymentById id (snd (updatePayment now id updates s)) = Some new
    ∧ new.(Payment.status) = "completed"
    ∧ new.(Payment.completedAt) = stamp old.(Payment.completedAt) now.
Proof.
  intros [i Hi]%getPaymentById_find Hstatus Hid Hcompleted.
  destruct (find_lookup _ _ _ _ Hi) as [_ Hold].
  unfold updatePayment. rewrite Hi, Hstatus. cbn [JS.opt_is fst snd].
  change (String.eqb "completed" "completed") with true.
  cbn [andb]. eexists. split; [reflexivity|].
  unfold getPaymentById. cbn [payments set_payments].
  erewrite find_insert; [cbn [fmap option_fmap option_map snd] | exact Hi | ].
  - split; [reflexivity|]. unfold stamp, spreadPayment.
    rewrite Hstatus, Hcompleted. cbn [default Payment.completedAt].
    destruct (JS.truthy_opt JS.truthy_string old.(Payment.completedAt));
      split; reflexivity.
  - unfold spreadPayment. rewrite Hid.
    destruct (JS.truthy_opt JS.truthy_string _); exact Hold.
Qed.

Lemma getAirtimePurchaseById_find
    (id : string) (s : Store) (p : AirtimePurchase.t) :
  getAirtimePurchaseById id s = Some p →
  ∃ i, list_find (λ p, p.(AirtimePurchase.id) = id) s.(airtimePurchases)
       = Some (i, p).
Proof. apply find_snd. Qed.

(** Airtime purchases: the status 'completed' stamps [completedAt] once, and
    marks the purchase delivered when it does. *)
Lemma updateAirtimePurchase_completed
    (now : Z) (id : string) (updates : AirtimePurchasePatch.t) (s : Store)
    (old : AirtimePurchase.t) :
  getAirtimePurchaseById id s = Some old →
  updates.(AirtimePurchasePatch.status) = Some "completed" →
  updates.(AirtimePurchasePatch.id) = None →
  updates.(AirtimePurchasePatch.completedAt) = None →
  ∃ new,
    fst (updateAirtimePurchase now id updates s) = Some new
    ∧ getAirtimePurchaseById id (snd (updateAirtimePurchase now id updates s))
      = Some new
    ∧ new.(AirtimePurchase.status) = "completed"
    ∧ new.(AirtimePurchase.completedAt)
      = stamp old.(AirtimePurchase.completedAt) now.
Proof.
  intros [i Hi]%getAirtimePurchaseById_find Hstatus Hid Hcompleted.
  destruct (find_lookup _ _ _ _ Hi) as [_ Hold].
  unfold updateAirtimePurchase. rewrite Hi, Hstatus. cbn [JS.opt_is fst snd].
  change (String.eqb "completed" "completed") with true.
  cbn [andb]. eexists. split; [reflexivity|].
  unfold getAirtimePurchaseById. cbn [airtimePurchases set_airtimePurchases].
  erewrite find_insert; [cbn [fmap option_fmap option_map snd] | exact Hi | ].
  - split; [reflexivity|]. unfold stamp, spreadAirtimePurchase.
    rewrite Hstatus, Hcompleted. cbn [default AirtimePurchase.completedAt].
    destruct (JS.truthy_opt JS.truthy_string old.(AirtimePurchase.completedAt));
      split; reflexivity.
  - unfold spreadAirtimePurchase. rewrite Hid.
    destruct (JS.truthy_opt JS.truthy_string _); exact Hold.
Qed.

Lemma getKycRecord_find (customerId : string) (s : Store) (k : KycRecord.t) :
  getKycRecord customerId s = Some k →
  ∃ i, list_find (λ kyc, kyc.(KycRecord.customerId) = customerId)
         s.(kycRecords) = Some (i, k).
Proof. apply find_snd. Qed.

(** KYC records that are in the store: the status 'approved' stamps
    [verifiedAt] once. *)
Lemma updateKycRecord_approved
    (now : Z) (customerId : string) (updates : KycRecordPatch.t) (s : Store)
    (old : KycRecord.t) :
  getKycRecord customerId s = Some old →
  updates.(KycRecordPatch.status) = Some "approved" →
  updates.(KycRecordPatch.customerId) = None →
  updates.(KycRecordPatch.verifiedAt) = None →
  ∃ new,
    fst (updateKycRecord now customerId updates s) = new
    ∧ getKycRecord customerId (snd (updateKycRecord now customerId updates s))
      = Some new
    ∧ new.(KycRecord.status) = "approved"
    ∧ new.(KycRecord.verifiedAt) = stamp old.(KycRecord.verifiedAt) now.
Proof.
  intros [i Hi]%getKycRecord_find Hstatus Hid Hverified.
  destruct (find_lookup _ _ _ _ Hi) as [_ Hold].
  unfold updateKycRecord. rewrite Hi, Hstatus. cbn [JS.opt_is fst snd].
  change (String.eqb "approved" "approved") with true.
  cbn [andb]. eexists. split; [reflexivity|].
  unfold getKycRecord. cbn [kycRecords set_kycRecords].
  erewrite find_insert; [cbn [fmap option_fmap option_map snd] | exact Hi | ].
  - split; [reflexivity|]. unfold stamp, spreadKycRecord.
    rewrite Hstatus, Hverified. cbn [default KycRecord.verifiedAt].
    destruct (JS.truthy_opt JS.truthy_string old.(KycRecord.verifiedAt));
      split; reflexivity.
  - unfold spreadKycRecord. rewrite Hid.
    destruct (JS.truthy_opt JS.truthy_string _); exact Hold.
Qed.

(** Applying the 'approved' status update twice to a stored loan: the second
    update leaves the [approvedAt] the first one set (or found). *)
Lemma updateLoan_approved_twice
    (now later : Z) (id : string) (s : Store) (old : Loan.t) :
  getLoanById id s = Some old →
  let s1 := snd (updateLoan now id (Loans.status_only "approved") s) in
  let s2 := snd (updateLoan later id (Loans.status_only "approved") s1) in
  ∃ l1 l2,
    getLoanById id s1 = Some l1
    ∧ getLoanById id s2 = Some l2
    ∧ l1.(Loan.approvedAt) = stamp old.(Loan.approvedAt) now
    ∧ l2.(Loan.approvedAt) = l1.(Loan.approvedAt)
    ∧ (JS.truthy_opt JS.truthy_string old.(Loan.approvedAt) = true →
       l2.(Loan.approvedAt) = old.(Loan.approvedAt)).
Proof.
  intros Hget s1 s2.
  destruct (updateLoan_approved now id (Loans.status_only "approved") s old
              Hget eq_refl eq_refl eq_refl) as (l1 & _ & Hget1 & _ & Hstamp1).
  destruct (updateLoan_approved later id (Loans.status_only "approved") s1 l1
              Hget1 eq_refl eq_refl eq_refl) as (l2 & _ & Hget2 & _ & Hstamp2).
  exists l1, l2. split_and!; [done..| |].
  - rewrite Hstamp2, Hstamp1. apply stamp_once.
  - intros Hset. rewrite Hstamp2, Hstamp1, stamp_once. by apply stamp_set.
Qed.

(** C5, at the input where the code departs from it.  'cust-004' has no KYC
    record in the seeded store.  The first update whose patch status is
    'approved' creates the record and leaves it approved with
    [verifiedAt = null] and [expiresAt = null]: the branch of
    [updateKycRecord] that creates a record returns before the stamping rule.
    Only the second such update stamps the two timestamps.  For 'cust-002',
    whose record is in the store, the first such update stamps them. *)
Theorem kyc_created_approved_is_not_stamped :
  getKycRecord "cust-004" seed = None
  ∧ fst (updateKycRecord 1705312800123 "cust-002" (Kyc.status_only "approved")
           seed)
    = KycRecord.mk "cust-002" "approved" "tier1" ["id"] "medium"
        (Some "2024-01-15T10:00:00.123Z") (Some "2025-01-14T10:00:00.123Z")
        ["proof_of_address"; "income_statement"] None
  ∧ fst (updateKycRecord 1705312800123 "cust-004" (Kyc.status_only "approved")
           seed)
    = KycRecord.mk "cust-004" "approved" "tier1" [] "medium" None None [] None
  ∧ getKycRecord "cust-004" kyc_created
    = Some (KycRecord.mk "cust-004" "approved" "tier1"
              ["id"; "proof_of_address"] "low" None None [] None)
  ∧ getKycRecord "cust-004"
      (snd (Kyc.refresh ctx1 "cust-004" (Some ["id"; "proof_of_address"]) None
              kyc_created))
    = Some (KycRecord.mk "cust-004" "approved" "tier1"
              ["id"; "proof_of_address"] "low"
              (Some "2024-01-15T10:01:00.456Z")
              (Some "2025-01-14T10:01:00.456Z") [] None).
Proof. vm_compute. auto. Qed.

(** ** The checker endpoints *)

Lemma not_resolved {A} (o : option A) :
  bool_decide (is_Some o) = false → o = None.
Proof.
  intros Hnone%bool_decide_eq_false. destruct o; [|reflexivity].
  destruct Hnone. eauto.
Qed.

Local Ltac unfold_checkers :=
  unfold run_checker, Accounts.check_active, Transactions.check_cleared,
    Payments.check_ready, Loans.check_eligible, Loans.check_approved,
    Airtime.check_completed, Kyc.check_approved, Limits.check_available.

(** C6: a checker whose id does not resolve answers with HTTP 200,
    [result = false], the reason '<Resource> not found' and a metadata that
    holds the requested id only; and whatever it is called with, a checker
    answers with HTTP 200, never with an error status. *)
Theorem checker_not_found (ctx : Ctx.t) (call : CheckerCall) (s : Store) :
  (resolves call s = false →
   run_checker ctx call s
   = (mkResponse 200
        (Checker.mk false ((requested call).2 +:+ " not found")
           [((requested call).1.1, JStr (requested call).1.2)]
           (JS.toISOString ctx.(Ctx.now)) ctx.(Ctx.requestId)),
      s))
  ∧ (fst (run_checker ctx call s)).(http) = 200.
Proof.
  split.
  - destruct call; cbn [resolves requested]; intros Hnone%not_resolved;
      unfold_checkers; rewrite Hnone; reflexivity.
  - destruct call; unfold_checkers; repeat case_match; reflexivity.
Qed.

Lemma checker_not_found_witness :
  resolves (CheckEligible "loan-999") seed = false
  ∧ run_checker ctx0 (CheckEligible "loan-999") seed
    = (mkResponse 200
         (Checker.mk false "Loan not found" [("loanId", JStr "loan-999")]
            "2024-01-15T10:00:00.123Z" "req-1705312800123-k3x9q2m1a"),
       seed)
  ∧ resolves (CheckReady "pay-404") seed = false
  ∧ run_checker ctx0 (CheckReady "pay-404") seed
    = (mkResponse 200
         (Checker.mk false "Payment not found" [("paymentId", JStr "pay-404")]
            "2024-01-15T10:00:00.123Z" "req-1705312800123-k3x9q2m1a"),
       seed).
Proof.
  split_and!; [reflexivity | | reflexivity | ].
  - refine (eq_trans
              (proj1 (checker_not_found ctx0 (CheckEligible "loan-999") seed)
                 eq_refl) _).
    vm_compute. reflexivity.
  - refine (eq_trans
              (proj1 (checker_not_found ctx0 (CheckReady "pay-404") seed)
                 eq_refl) _).
    vm_compute. reflexivity.
Defined.

(** C7: a checker returns the store it was given, and a second call, made
    at another moment under another request id with no mutation in between,
    gives the same status code, result, reason and metadata; under the same
    clock reading and request id the whole answer is the same. *)
Theorem checker_read_only (ctx ctx' : Ctx.t) (call : CheckerCall) (s : Store) :
  snd (run_checker ctx call s) = s
  ∧ verdict_of (fst (run_checker ctx' call (snd (run_checker ctx call s))))
    = verdict_of (fst (run_checker ctx call s))
  ∧ run_checker ctx call (snd (run_checker ctx call s)) = run_checker ctx call s.
Proof.
  assert (snd (run_checker ctx call s) = s) as Hsame.
  { destruct call; unfold_checkers; repeat case_match; reflexivity. }
  rewrite Hsame. split_and!; [reflexivity| |reflexivity].
  destruct call; unfold_checkers; repeat case_match; reflexivity.
Qed.

(** ** Loans: approval *)

(** C8: approving a pending loan sets its status to 'approved', its
    [remainingBalance] to the loan's amount and its [disbursedAt] to the
    time of the approval, whatever [disbursedAt] held before: the route
    passes it in the patch, the status rule of the store is not involved.
    ([approvedAt] is stamped by that rule.) *)
Theorem approve_pending_loan
    (ctx : Ctx.t) (loanId : string) (s : Store) (loan : Loan.t) :
  getLoanById loanId s = Some loan →
  loan.(Loan.status) = "pending" →
  ∃ approved,
    fst (Loans.approve ctx loanId s)
    = ok ctx 200 (Some approved) (Some "Loan approved and disbursed")
    ∧ getLoanById loanId (snd (Loans.approve ctx loanId s)) = Some approved
    ∧ approved.(Loan.status) = "approved"
    ∧ approved.(Loan.remainingBalance) = Some loan.(Loan.amount)
    ∧ approved.(Loan.disbursedAt) = Some (JS.toISOString ctx.(Ctx.now))
    ∧ approved.(Loan.approvedAt) = stamp loan.(Loan.approvedAt) ctx.(Ctx.now).
Proof.
  intros Hget Hpending. unfold Loans.approve. rewrite Hget, Hpending.
  change (negb (String.eqb "pending" "pending")) with false. cbv iota.
  destruct (updateLoan_approved ctx.(Ctx.now) loanId
              (Loans.approval (JS.toISOString ctx.(Ctx.now)) loan.(Loan.amount))
              s loan Hget eq_refl eq_refl eq_refl)
    as (approved & Hfst & Hsnd & Hstatus & Hstamp).
  destruct (updateLoan _ _ _ s) as [updatedLoan s'] eqn:Hupdate.
  cbn [fst snd] in *. subst updatedLoan. exists approved.
  split_and!; try done.
  - apply getLoanById_find in Hget as [i Hi]. unfold updateLoan in Hupdate.
    rewrite Hi in Hupdate. injection Hupdate as <- _.
    cbn [JS.opt_is LoanPatch.status Loans.approval].
    change (String.eqb "approved" "disbursed") with false.
    change (String.eqb "approved" "approved") with true. cbn [andb].
    destruct (negb _); reflexivity.
  - apply getLoanById_find in Hget as [i Hi]. unfold updateLoan in Hupdate.
    rewrite Hi in Hupdate. injection Hupdate as <- _.
    cbn [JS.opt_is LoanPatch.status Loans.approval].
    change (String.eqb "approved" "disbursed") with false.
    change (String.eqb "approved" "approved") with true. cbn [andb].
    destruct (negb _); reflexivity.
Qed.

(** C8 at the seeded pending loan 'loan-002'. *)
Lemma approve_pending_loan_witness :
  (Loan.status <$> getLoanById "loan-002" seed) = Some "pending"
  ∧ ∃ approved,
      fst (Loans.approve ctx0 "loan-002" seed)
      = ok ctx0 200 (Some approved) (Some "Loan approved and disbursed")
      ∧ getLoanById "loan-002" (snd (Loans.approve ctx0 "loan-002" seed))
        = Some approved
      ∧ approved.(Loan.status) = "approved"
      ∧ approved.(Loan.remainingBalance) = Some 3000%float
      ∧ approved.(Loan.disbursedAt) = Some "2024-01-15T10:00:00.123Z"
      ∧ approved.(Loan.approvedAt) = Some "2024-01-15T10:00:00.123Z".
Proof.
  split; [reflexivity|].
  destruct (approve_pending_loan ctx0 "loan-002" seed _ eq_refl eq_refl)
    as (approved & Hfst & Hsnd & Hstatus & Hbalance & Hdisbursed & Happroved).
  exists approved. split_and!; [exact Hfst | exact Hsnd | exact Hstatus | ..].
  - exact Hbalance.
  - rewrite Hdisbursed. vm_compute. reflexivity.
  - rewrite Happroved. vm_compute. reflexivity.
Defined.

(** The loan 'loan-002' once approved, and a pending loan that already
    carries a [disbursedAt]: approval overwrites it. *)
Example approve_overwrites_disbursedAt :
  getLoanById "loan-002" (snd (Loans.approve ctx0 "loan-002" seed))
  = Some (Loan.mk "loan-002" "cust-002" "acc-002" 3000 "GHS" "Personal use"
            6 10 "approved" 680 true "2024-01-19T11:00:00Z"
            (Some "2024-01-15T10:00:00.123Z")
            (Some "2024-01-15T10:00:00.123Z") None (Some 525%float)
            (Some 3000%float))
  ∧ (Loan.disbursedAt
       <$> getLoanById "loan-009"
             (snd (Loans.approve ctx0 "loan-009"
                     (set_loans
                        [Loan.mk "loan-009" "cust-002" "acc-002" 3000 "GHS"
                           "Personal use" 6 10 "pending" 680 true
                           "2024-01-19T11:00:00Z" None
                           (Some "2023-12-31T00:00:00.000Z") None
                           (Some 525%float) None]
                        seed))))
    = Some (Some "2024-01-15T10:00:00.123Z").
Proof. vm_compute. auto. Qed.

(** ** Payments: initiation *)

Lemma zero_le (a : float) : PrimFloat.is_zero a = true → JS.le a 0 = true.
Proof.
  unfold PrimFloat.is_zero, JS.le.
  rewrite FloatAxioms.eqb_spec, FloatAxioms.leb_spec.
  unfold SFeqb, SFleb. destruct (SFcompare _ _) as [[]|]; done.
Qed.

(** The amounts that pass [!amount] and [amount <= 0] are those above 0. *)
Lemma accepted_amount (a : float) :
  JS.truthy_number a && negb (JS.le a 0) = PrimFloat.ltb 0 a.
Proof.
  rewrite positive_number. unfold JS.truthy_number, JS.isNaN.
  destruct (PrimFloat.is_nan a).
  - rewrite orb_true_r. reflexivity.
  - rewrite orb_false_r. cbn [orb].
    destruct (JS.le a 0) eqn:Hle; [apply andb_false_r|].
    destruct (PrimFloat.is_zero a) eqn:Hzero; [|reflexivity].
    apply zero_le in Hzero. congruence.
Qed.

Lemma present_truthy (field : option string) :
  present field → ∃ x, field = Some x ∧ JS.truthy_string x = true.
Proof.
  intros (x & -> & Hx). exists x. split; [reflexivity|].
  unfold JS.truthy_string. by apply String.eqb_neq in Hx as ->.
Qed.

(** C9: a request to initiate a payment that carries the required fields
    and an amount above 0 is answered 404 'Account not found', with no
    payment created, when the account does not exist; otherwise one payment
    is appended to the store, with status 'pending', [kycComplete = true]
    and [sufficientBalance] telling whether the account's balance at that
    moment is at least the amount. *)
Theorem initiate_creates_pending_payment
    (ctx : Ctx.t) (b : Payments.InitiateBody.t) (s : Store)
    (accountId : string) (amount : float) :
  initiate_valid b accountId amount →
  (getAccountById accountId s = None →
   Payments.initiate ctx b s = (fail ctx 404 "Account not found", s))
  ∧ (∀ account, getAccountById accountId s = Some account →
     ∃ payment,
       Payments.initiate ctx b s
       = (ok ctx 201 payment (Some "Payment initiated"),
          set_payments (s.(payments) ++ [payment]) s)
       ∧ payment.(Payment.status) = "pending"
       ∧ payment.(Payment.kycComplete) = true
       ∧ payment.(Payment.sufficientBalance)
         = JS.ge account.(Account.balance) amount
       ∧ payment.(Payment.accountId) = accountId
       ∧ payment.(Payment.amount) = amount
       ∧ payment.(Payment.completedAt) = None
       ∧ payment.(Payment.id)
         = sequenceId "pay-" (length s.(payments) + 1)).
Proof.
  intros (Hacc & Hid & Hben & Hbacc & Hamount & Hpos & Hcur).
  apply present_truthy in Hben as (beneficiary & Hben & Tben).
  apply present_truthy in Hbacc as (beneficiaryAccount & Hbacc & Tbacc).
  apply present_truthy in Hcur as (currency & Hcur & Tcur).
  assert (JS.truthy_string accountId = true) as Tacc.
  { unfold JS.truthy_string. by apply String.eqb_neq in Hid as ->. }
  pose proof (accepted_amount amount) as Hguard. rewrite Hpos in Hguard.
  apply andb_prop in Hguard as [Tamount Hle%negb_true_iff].
  unfold Payments.initiate.
  rewrite Hacc, Hben, Hbacc, Hamount, Hcur, Tacc, Tben, Tbacc, Tamount, Tcur,
    Hle.
  cbn [negb orb]. split.
  - intros ->. reflexivity.
  - intros account ->. eexists. split; [reflexivity|].
    split_and!; reflexivity.
Qed.

(** A payment is created by no other request: unless the body is valid and
    names an existing account, the store is returned as it was. *)
Lemma initiate_refuses_otherwise
    (ctx : Ctx.t) (b : Payments.InitiateBody.t) (s : Store) :
  (∃ accountId amount account,
     initiate_valid b accountId amount
     ∧ getAccountById accountId s = Some account)
  ∨ (snd (Payments.initiate ctx b s) = s
     ∧ ((fst (Payments.initiate ctx b s)).(http) = 400
        ∨ (fst (Payments.initiate ctx b s)).(http) = 404)).
Proof.
  unfold Payments.initiate.
  destruct b.(Payments.InitiateBody.accountId) as [accountId|] eqn:Hacc;
    [|right; repeat case_match; auto].
  destruct b.(Payments.InitiateBody.beneficiary) as [beneficiary|] eqn:Hben;
    [|right; repeat case_match; auto].
  destruct b.(Payments.InitiateBody.beneficiaryAccount)
    as [beneficiaryAccount|] eqn:Hbacc; [|right; repeat case_match; auto].
  destruct b.(Payments.InitiateBody.amount) as [amount|] eqn:Hamount;
    [|right; repeat case_match; auto].
  destruct b.(Payments.InitiateBody.currency) as [currency|] eqn:Hcur;
    [|right; auto].
  destruct (JS.truthy_string accountId) eqn:Tacc; [|right; auto].
  destruct (JS.truthy_string beneficiary) eqn:Tben; [|right; auto].
  destruct (JS.truthy_string beneficiaryAccount) eqn:Tbacc; [|right; auto].
  destruct (JS.truthy_number amount) eqn:Tamount; [|right; auto].
  destruct (JS.truthy_string currency) eqn:Tcur; [|right; auto].
  cbn [negb orb].
  destruct (JS.le amount 0) eqn:Hle; [right; auto|].
  destruct (getAccountById accountId s) as [account|] eqn:Hget; [|right; auto].
  left. exists accountId, amount, account. split; [|exact Hget].
  assert (∀ x, JS.truthy_string x = true → x ≠ "") as Hne.
  { intros x Hx ->. discriminate. }
  unfold initiate_valid, present.
  rewrite Hacc, Hben, Hbacc, Hamount, Hcur.
  split_and!; eauto.
  rewrite <- accepted_amount, Tamount, Hle. reflexivity.
Qed.

Lemma initiate_creates_pending_payment_witness :
  getAccountById "acc-404" seed = None
  ∧ Payments.initiate ctx0
      (Payments.InitiateBody.mk (Some "acc-404") (Some "John Doe")
         (Some "9876543210") (Some 200%float) (Some "GHS") None None)
      seed
    = (fail ctx0 404 "Account not found", seed)
  ∧ ∃ payment,
      Payments.initiate ctx0
        (Payments.InitiateBody.mk (Some "acc-002") (Some "John Doe")
           (Some "9876543210") (Some 3000%float) (Some "GHS") None None)
        seed
      = (ok ctx0 201 payment (Some "Payment initiated"),
         set_payments (seed.(payments) ++ [payment]) seed)
      ∧ payment.(Payment.status) = "pending"
      ∧ payment.(Payment.kycComplete) = true
      ∧ payment.(Payment.sufficientBalance) = false
      ∧ payment.(Payment.id) = "pay-003".
Proof.
  assert (∀ accountId amount,
            accountId ≠ "" → PrimFloat.ltb 0 amount = true →
            initiate_valid
              (Payments.InitiateBody.mk (Some accountId) (Some "John Doe")
                 (Some "9876543210") (Some amount) (Some "GHS") None None)
              accountId amount) as Hvalid.
  { intros accountId amount Hid Hpos. unfold initiate_valid, present. cbn.
    split_and!; eauto; eexists; (split; [reflexivity | discriminate]). }
  split_and!; [reflexivity | | ].
  - exact (proj1 (initiate_creates_pending_payment ctx0 _ seed "acc-404" 200
                    (Hvalid "acc-404" 200%float ltac:(discriminate) eq_refl))
             eq_refl).
  - destruct (proj2 (initiate_creates_pending_payment ctx0 _ seed "acc-002"
                       3000 (Hvalid "acc-002" 3000%float ltac:(discriminate)
                               eq_refl)) _ eq_refl)
      as (payment & Hanswer & Hstatus & Hkyc & Hbalance & _ & _ & _ & Hid).
    exists payment. split_and!; [exact Hanswer | exact Hstatus | exact Hkyc | |].
    + rewrite Hbalance. reflexivity.
    + rewrite Hid. reflexivity.
Defined.

(** ** Limits: update *)

(** C10: a request to update the limits in which every limit that is
    supplied equals 0 (or none is supplied) is answered 400 'At least one
    limit must be provided: dailyLimit or monthlyLimit' and the store is not
    touched: the guard tests [!dailyLimit && !monthlyLimit], and [!0] is
    true.  Yet 0 is not below 0: next to a non-zero limit it passes the
    per-field check. *)
Theorem update_refuses_zero_limits
    (ctx : Ctx.t) (accountId : string) (dailyLimit monthlyLimit : option float)
    (s : Store) :
  absent_or_zero dailyLimit →
  absent_or_zero monthlyLimit →
  Limits.update ctx accountId dailyLimit monthlyLimit s
  = (fail ctx 400
       "At least one limit must be provided: dailyLimit or monthlyLimit", s)
  ∧ (∀ x, dailyLimit = Some x → JS.lt x 0 = false)
  ∧ (∀ x, monthlyLimit = Some x → JS.lt x 0 = false).
Proof.
  intros Hdaily Hmonthly.
  assert (∀ limit, absent_or_zero limit →
            JS.truthy_opt JS.truthy_number limit = false) as Hfalsy.
  { intros [x|] Hzero; [|reflexivity]. cbn. unfold JS.truthy_number.
    unfold PrimFloat.is_zero. change zero with 0%float.
    rewrite (Hzero x eq_refl). reflexivity. }
  assert (∀ limit x, absent_or_zero limit → limit = Some x → JS.lt x 0 = false)
    as Hnot_below.
  { intros limit x Hzero ->. specialize (Hzero x eq_refl).
    unfold JS.lt. rewrite FloatAxioms.eqb_spec in Hzero.
    rewrite FloatAxioms.ltb_spec. unfold SFeqb in Hzero. unfold SFltb.
    destruct (SFcompare _ _) as [[]|]; done. }
  split_and!; eauto.
  unfold Limits.update. rewrite (Hfalsy _ Hdaily), (Hfalsy _ Hmonthly).
  reflexivity.
Qed.

(** C10 at [{ dailyLimit: 0 }] for the seeded limits of 'acc-001'. *)
Lemma update_refuses_zero_limits_witness :
  absent_or_zero (Some 0%float)
  ∧ absent_or_zero None
  ∧ Limits.update ctx0 "acc-001" (Some 0%float) None seed
    = (fail ctx0 400
         "At least one limit must be provided: dailyLimit or monthlyLimit",
       seed).
Proof.
  assert (absent_or_zero (Some 0%float)) as Hzero
    by (intros x [= <-]; reflexivity).
  assert (absent_or_zero None) as Habsent by (intros x [=]).
  split_and!; [exact Hzero | exact Habsent | ].
  exact (proj1 (update_refuses_zero_limits ctx0 "acc-001" (Some 0%float) None
                  seed Hzero Habsent)).
Defined.

(** A limit of 0 next to a non-zero one is accepted and stored. *)
Example update_accepts_zero_beside_nonzero :
  fst (Limits.update ctx0 "acc-001" (Some 0%float) (Some 500%float) seed)
  = ok ctx0 200
      (AccountLimit.mk "acc-001" 0 500 250 1200 "GHS"
         "2024-01-15T10:00:00.123Z")
      (Some "Account limits updated").
Proof. vm_compute. reflexivity. Qed.

(** The second field alone as 0, and both limits absent, are refused too. *)
Example update_refuses_examples :
  (fst (Limits.update ctx0 "acc-001" None (Some 0%float) seed)).(http) = 400
  ∧ (fst (Limits.update ctx0 "acc-001" (Some (-0)%float) (Some 0%float)
            seed)).(http) = 400
  ∧ (fst (Limits.update ctx0 "acc-001" None None seed)).(http) = 400.
Proof. vm_compute. auto. Qed.

(** * Further properties of the store and of the routes *)

(** ** Sequence ids *)

Lemma pretty_N_go_head (x : N) (s : string) :
  (0 < x)%N → ∃ c r, pretty_N_go x s = String c r ∧ Ascii.eqb c "0" = false.
Proof.
  revert s. induction (N.lt_wf_0 x) as [x _ IH]. intros s Hx.
  rewrite pretty_N_go_step by done.
  destruct (decide (x `div` 10 = 0)%N) as [Hsmall|Hlarge].
  - rewrite Hsmall, pretty_N_go_0. eexists _, _. split; [reflexivity|].
    assert (x < 10)%N as Hlt by (apply N.div_small_iff in Hsmall; lia).
    rewrite N.mod_small by done.
    assert (x = 1 ∨ x = 2 ∨ x = 3 ∨ x = 4 ∨ x = 5 ∨ x = 6 ∨ x = 7 ∨ x = 8
            ∨ x = 9)%N as Hdigit by lia.
    destruct_or!; subst; reflexivity.
  - apply IH; [apply N.div_lt; lia | by apply N.neq_0_lt_0].
Qed.

Lemma strip_pretty (n : nat) :
  strip (pretty n) = if decide (n = 0) then "" else pretty n.
Proof.
  unfold pretty, pretty_nat, pretty, pretty_N.
  destruct (decide (n = 0)) as [->|Hn]; [reflexivity|].
  rewrite decide_False by lia.
  destruct (pretty_N_go_head (N.of_nat n) "") as (c & r & -> & Hc); [lia|].
  simpl. rewrite Hc. reflexivity.
Qed.

Lemma strip_padStart (k : nat) (s : string) :
  strip (JS.padStart k "0" s) = strip s.
Proof.
  unfold JS.padStart. induction (k - String.length s) as [|j IH]; simpl; done.
Qed.

Lemma pretty_not_empty (n : nat) : pretty n ≠ "".
Proof.
  unfold pretty, pretty_nat, pretty, pretty_N. case_decide; [done|].
  destruct (pretty_N_go_head (N.of_nat n) "") as (c & r & -> & _); [lia|done].
Qed.

Lemma app_inv_prefix (prefix a b : string) :
  prefix +:+ a = prefix +:+ b → a = b.
Proof. induction prefix as [|c prefix IH]; simpl; [done|]. intros [= ?]. auto. Qed.

Lemma sequenceId_eq (prefix : string) (n m : nat) :
  sequenceId prefix n = sequenceId prefix m → n = m.
Proof.
  unfold sequenceId. intros Heq%app_inv_prefix.
  apply (f_equal strip) in Heq. rewrite !strip_padStart, !strip_pretty in Heq.
  repeat case_decide; subst; try done.
  - by destruct (pretty_not_empty m).
  - by destruct (pretty_not_empty n).
  - by apply (inj pretty).
Qed.

(** X1: ids drawn from different counts are different strings, whatever the
    prefix, also beyond 999, where [padStart] adds nothing. *)
Theorem sequenceId_inj (prefix : string) (n m : nat) :
  sequenceId prefix n = sequenceId prefix m ↔ n = m.
Proof. split; [apply sequenceId_eq | by intros ->]. Qed.

Example sequenceId_samples :
  sequenceId "pay-" 3 = "pay-003" ∧ sequenceId "loan-" 42 = "loan-042"
  ∧ sequenceId "txn-" 999 = "txn-999" ∧ sequenceId "txn-" 1000 = "txn-1000".
Proof. vm_compute. auto. Qed.

(** ** Looking records up after a change *)

Section FindMore.

Context {A : Type} (P : A → Prop) `{∀ x, Decision (P x)}.

(** A record that satisfies the predicate, pushed onto an array in which no
    record does, is the one found. *)
Lemma find_app_new (l : list A) (y : A) :
  list_find P l = None → P y → list_find P (l ++ [y]) = Some (length l, y).
Proof.
  intros Hnone%list_find_None Hy. apply list_find_Some. split_and!.
  - by rewrite lookup_app_r, Nat.sub_diag.
  - done.
  - intros j z Hj Hlt. rewrite lookup_app_l in Hj by done.
    eapply Forall_lookup_1 in Hnone; eauto.
Qed.

(** Pushing a record does not change what was found before. *)
Lemma find_app_old (l l' : list A) (i : nat) (x : A) :
  list_find P l = Some (i, x) → list_find P (l ++ l') = Some (i, x).
Proof. apply list_find_app_l. Qed.

(** Overwriting a record by another, neither of which satisfies the
    predicate, does not change what is found. *)
Lemma find_insert_other (l : list A) (i : nat) (x y : A) :
  l !! i = Some x → ¬ P x → ¬ P y → list_find P (<[i := y]> l) = list_find P l.
Proof.
  revert i. induction l as [|z l IH]; intros [|i] Hi Hx Hy; simplify_eq/=.
  - by rewrite !decide_False.
  - case_decide; [done|]. by erewrite IH.
Qed.

End FindMore.

Lemma fmap_insert_same {A B} (f : A → B) (l : list A) (i : nat) (x y : A) :
  l !! i = Some x → f y = f x → f <$> <[i := y]> l = f <$> l.
Proof.
  intros Hi Hf. rewrite list_fmap_insert, Hf.
  apply list_insert_id. by rewrite list_lookup_fmap, Hi.
Qed.

(** ** Numbered arrays *)

Lemma numbered_app (prefix : string) (ids : list string) :
  numbered prefix ids →
  numbered prefix (ids ++ [sequenceId prefix (length ids + 1)]).
Proof.
  intros Hids i id [Hi|[Hlen Hi]]%lookup_app_Some; [by apply Hids|].
  apply list_lookup_singleton_Some in Hi as [Hi <-].
  f_equal. lia.
Qed.

Lemma numbered_fresh {A} (prefix : string) (f : A → string) (l : list A) :
  numbered prefix (f <$> l) →
  list_find (λ x, f x = sequenceId prefix (length l + 1)) l = None.
Proof.
  intros Hids. apply list_find_None, Forall_lookup. intros i x Hi Heq.
  pose proof (lookup_lt_Some _ _ _ Hi) as Hlt.
  specialize (Hids i (f x)). rewrite list_lookup_fmap, Hi in Hids.
  rewrite (Hids eq_refl) in Heq. apply sequenceId_eq in Heq. lia.
Qed.

Lemma numbered_NoDup (prefix : string) (ids : list string) :
  numbered prefix ids → NoDup ids.
Proof.
  intros Hids. apply NoDup_alt. intros i j id Hi Hj.
  apply Hids in Hi, Hj. rewrite Hi in Hj. apply sequenceId_eq in Hj. lia.
Qed.

Lemma seed_well_numbered : well_numbered seed.
Proof.
  unfold well_numbered, numbered.
  split_and!; intros i id;
    do 3 (destruct i as [|i]; [intros [= <-]; vm_compute; reflexivity|]);
    intros [=].
Qed.

Lemma numbered_push {A} (prefix : string) (f : A → string) (l : list A) (x : A) :
  numbered prefix (f <$> l) →
  f x = sequenceId prefix (length l + 1) →
  numbered prefix (f <$> (l ++ [x])%list).
Proof.
  intros Hids Hx. rewrite fmap_app. cbn [fmap list_fmap]. rewrite Hx.
  rewrite <- (length_fmap f l). by apply numbered_app.
Qed.

Lemma numbered_update {A} (prefix : string) (f : A → string) (l : list A)
    (i : nat) (x y : A) :
  l !! i = Some x → f y = f x →
  numbered prefix (f <$> l) → numbered prefix (f <$> <[i := y]> l).
Proof. intros Hi Hf. by rewrite (fmap_insert_same f l i x y). Qed.

(** ** What an update writes *)

(** The record an update writes back carries the key of the record it
    found, when the [updates] carry no key. *)

Lemma updateAccount_found (now : Z) (id : string) (updates : AccountPatch.t)
    (s : Store) (i : nat) (old : Account.t) :
  list_find (λ acc, acc.(Account.id) = id) s.(accounts) = Some (i, old) →
  updates.(AccountPatch.id) = None →
  ∃ new,
    updateAccount now id updates s
    = (Some new, set_accounts (<[i := new]> s.(accounts)) s)
    ∧ new.(Account.id) = old.(Account.id).
Proof.
  intros Hfind Hkey. unfold updateAccount. rewrite Hfind.
  eexists. split; [reflexivity|]. unfold spreadAccount. rewrite Hkey.
  reflexivity.
Qed.

Lemma updatePayment_found (now : Z) (id : string) (updates : PaymentPatch.t)
    (s : Store) (i : nat) (old : Payment.t) :
  list_find (λ pay, pay.(Payment.id) = id) s.(payments) = Some (i, old) →
  updates.(PaymentPatch.id) = None →
  ∃ new,
    updatePayment now id updates s
    = (Some new, set_payments (<[i := new]> s.(payments)) s)
    ∧ new.(Payment.id) = old.(Payment.id).
Proof.
  intros Hfind Hkey. unfold updatePayment. rewrite Hfind.
  eexists. split; [reflexivity|]. unfold spreadPayment. rewrite Hkey.
  destruct (_ && _); reflexivity.
Qed.

Lemma updateLoan_found (now : Z) (id : string) (updates : LoanPatch.t)
    (s : Store) (i : nat) (old : Loan.t) :
  list_find (λ loan, loan.(Loan.id) = id) s.(loans) = Some (i, old) →
  updates.(LoanPatch.id) = None →
  ∃ new,
    updateLoan now id updates s
    = (Some new, set_loans (<[i := new]> s.(loans)) s)
    ∧ new.(Loan.id) = old.(Loan.id).
Proof.
  intros Hfind Hkey. unfold updateLoan. rewrite Hfind.
  eexists. split; [reflexivity|]. unfold spreadLoan. rewrite Hkey.
  destruct (JS.opt_is _ "approved" && _), (JS.opt_is _ "disbursed" && _);
    reflexivity.
Qed.

Lemma updateAirtimePurchase_found (now : Z) (id : string)
    (updates : AirtimePurchasePatch.t) (s : Store) (i : nat)
    (old : AirtimePurchase.t) :
  list_find (λ p, p.(AirtimePurchase.id) = id) s.(airtimePurchases)
  = Some (i, old) →
  updates.(AirtimePurchasePatch.id) = None →
  ∃ new,
    updateAirtimePurchase now id updates s
    = (Some new, set_airtimePurchases (<[i := new]> s.(airtimePurchases)) s)
    ∧ new.(AirtimePurchase.id) = old.(AirtimePurchase.id).
Proof.
  intros Hfind Hkey. unfold updateAirtimePurchase. rewrite Hfind.
  eexists. split; [reflexivity|]. unfold spreadAirtimePurchase. rewrite Hkey.
  destruct (_ && _); reflexivity.
Qed.

Lemma updateKycRecord_found (now : Z) (customerId : string)
    (updates : KycRecordPatch.t) (s : Store) (i : nat) (old : KycRecord.t) :
  list_find (λ kyc, kyc.(KycRecord.customerId) = customerId) s.(kycRecords)
  = Some (i, old) →
  updates.(KycRecordPatch.customerId) = None →
  ∃ new,
    updateKycRecord now customerId updates s
    = (new, set_kycRecords (<[i := new]> s.(kycRecords)) s)
    ∧ new.(KycRecord.customerId) = old.(KycRecord.customerId).
Proof.
  intros Hfind Hkey. unfold updateKycRecord. rewrite Hfind.
  eexists. split; [reflexivity|]. unfold spreadKycRecord. rewrite Hkey.
  destruct (_ && _); reflexivity.
Qed.

Lemma updateAccountLimit_found (now : Z) (accountId : string)
    (updates : AccountLimitPatch.t) (s : Store) (i : nat)
    (old : AccountLimit.t) :
  list_find (λ limit, limit.(AccountLimit.accountId) = accountId)
    s.(accountLimits) = Some (i, old) →
  updates.(AccountLimitPatch.accountId) = None →
  ∃ new,
    updateAccountLimit now accountId updates s
    = (new, set_accountLimits (<[i := new]> s.(accountLimits)) s)
    ∧ new.(AccountLimit.accountId) = old.(AccountLimit.accountId).
Proof.
  intros Hfind Hkey. unfold updateAccountLimit. rewrite Hfind.
  eexists. split; [reflexivity|]. unfold spreadAccountLimit. rewrite Hkey.
  reflexivity.
Qed.

(** A record created by an update of a key that is not in the array carries
    that key, when the [updates] carry none. *)
Lemma updateKycRecord_new (now : Z) (customerId : string)
    (updates : KycRecordPatch.t) (s : Store) :
  list_find (λ kyc, kyc.(KycRecord.customerId) = customerId) s.(kycRecords)
  = None →
  updates.(KycRecordPatch.customerId) = None →
  ∃ new,
    updateKycRecord now customerId updates s
    = (new, set_kycRecords (s.(kycRecords) ++ [new]) s)
    ∧ new.(KycRecord.customerId) = customerId.
Proof.
  intros Hfind Hkey. unfold updateKycRecord. rewrite Hfind.
  eexists. split; [reflexivity|]. unfold spreadKycRecord. rewrite Hkey.
  reflexivity.
Qed.

Lemma updateAccountLimit_new (now : Z) (accountId : string)
    (updates : AccountLimitPatch.t) (s : Store) :
  list_find (λ limit, limit.(AccountLimit.accountId) = accountId)
    s.(accountLimits) = None →
  updates.(AccountLimitPatch.accountId) = None →
  ∃ new,
    updateAccountLimit now accountId updates s
    = (new, set_accountLimits (s.(accountLimits) ++ [new]) s)
    ∧ new.(AccountLimit.accountId) = accountId.
Proof.
  intros Hfind Hkey. unfold updateAccountLimit. rewrite Hfind.
  eexists. split; [reflexivity|]. unfold spreadAccountLimit. rewrite Hkey.
  reflexivity.
Qed.

(** ** The store only grows, and keys stay *)

Local Ltac updated Hfound Hfind Hkey :=
  destruct (Hfound Hfind Hkey) as (new & -> & Hnew);
  apply find_lookup in Hfind as [Hlookup _].

Lemma run_call_keys (call : StoreCall) (s : Store) :
  key_free call → Forall2 prefix (keys s) (keys (run_call call s)).
Proof.
  intros Hkey. unfold keys.
  destruct call; cbn [run_call key_free] in *.
  - repeat constructor; cbn; rewrite ?fmap_app; try done; by apply prefix_app_r.
  - unfold updateAccount.
    destruct (list_find _ _) as [[i old]|] eqn:Hfind; cbn.
    + apply find_lookup in Hfind as [Hlookup _].
      repeat constructor; try done.
      erewrite fmap_insert_same; [done | exact Hlookup |].
      unfold spreadAccount. by rewrite Hkey.
    + repeat constructor; done.
  - repeat constructor; cbn; rewrite ?fmap_app; try done; by apply prefix_app_r.
  - repeat constructor; cbn; rewrite ?fmap_app; try done; by apply prefix_app_r.
  - destruct (list_find (λ pay, pay.(Payment.id) = id) s.(payments))
      as [[i old]|] eqn:Hfind.
    + updated (updatePayment_found now id updates s i old) Hfind Hkey.
      cbn. repeat constructor; try done.
      by erewrite fmap_insert_same.
    + unfold updatePayment. rewrite Hfind. cbn. repeat constructor; done.
  - repeat constructor; cbn; rewrite ?fmap_app; try done; by apply prefix_app_r.
  - destruct (list_find (λ loan, loan.(Loan.id) = id) s.(loans))
      as [[i old]|] eqn:Hfind.
    + updated (updateLoan_found now id updates s i old) Hfind Hkey.
      cbn. repeat constructor; try done.
      by erewrite fmap_insert_same.
    + unfold updateLoan. rewrite Hfind. cbn. repeat constructor; done.
  - repeat constructor; cbn; rewrite ?fmap_app; try done; by apply prefix_app_r.
  - destruct (list_find (λ p, p.(AirtimePurchase.id) = id)
                s.(airtimePurchases)) as [[i old]|] eqn:Hfind.
    + updated (updateAirtimePurchase_found now id updates s i old) Hfind Hkey.
      cbn. repeat constructor; try done.
      by erewrite fmap_insert_same.
    + unfold updateAirtimePurchase. rewrite Hfind. cbn.
      repeat constructor; done.
  - destruct (list_find (λ kyc, kyc.(KycRecord.customerId) = customerId)
                s.(kycRecords)) as [[i old]|] eqn:Hfind.
    + updated (updateKycRecord_found now customerId updates s i old) Hfind Hkey.
      cbn. repeat constructor; try done.
      by erewrite fmap_insert_same.
    + destruct (updateKycRecord_new now customerId updates s Hfind Hkey)
        as (new & -> & _).
      cbn. repeat constructor; rewrite ?fmap_app; try done.
      by apply prefix_app_r.
  - destruct (list_find (λ limit, limit.(AccountLimit.accountId) = accountId)
                s.(accountLimits)) as [[i old]|] eqn:Hfind.
    + updated (updateAccountLimit_found now accountId updates s i old)
        Hfind Hkey.
      cbn. repeat constructor; try done.
      by erewrite fmap_insert_same.
    + destruct (updateAccountLimit_new now accountId updates s Hfind Hkey)
        as (new & -> & _).
      cbn. repeat constructor; rewrite ?fmap_app; try done.
      by apply prefix_app_r.
Qed.

Lemma run_call_well_numbered (call : StoreCall) (s : Store) :
  key_free call → well_numbered s → well_numbered (run_call call s).
Proof.
  intros Hkey (Hacc & Htxn & Hpay & Hloan & Hair). unfold well_numbered.
  destruct call; cbn [run_call key_free] in *.
  - cbn. split_and!; try done. by apply numbered_push.
  - destruct (list_find (λ acc, acc.(Account.id) = id) s.(accounts))
      as [[i old]|] eqn:Hfind.
    + updated (updateAccount_found now id updates s i old) Hfind Hkey.
      cbn. split_and!; try done. by eapply numbered_update.
    + unfold updateAccount. rewrite Hfind. done.
  - cbn. split_and!; try done. by apply numbered_push.
  - cbn. split_and!; try done. by apply numbered_push.
  - destruct (list_find (λ pay, pay.(Payment.id) = id) s.(payments))
      as [[i old]|] eqn:Hfind.
    + updated (updatePayment_found now id updates s i old) Hfind Hkey.
      cbn. split_and!; try done. by eapply numbered_update.
    + unfold updatePayment. rewrite Hfind. done.
  - cbn. split_and!; try done. by apply numbered_push.
  - destruct (list_find (λ loan, loan.(Loan.id) = id) s.(loans))
      as [[i old]|] eqn:Hfind.
    + updated (updateLoan_found now id updates s i old) Hfind Hkey.
      cbn. split_and!; try done. by eapply numbered_update.
    + unfold updateLoan. rewrite Hfind. done.
  - cbn. split_and!; try done. by apply numbered_push.
  - destruct (list_find (λ p, p.(AirtimePurchase.id) = id)
                s.(airtimePurchases)) as [[i old]|] eqn:Hfind.
    + updated (updateAirtimePurchase_found now id updates s i old) Hfind Hkey.
      cbn. split_and!; try done. by eapply numbered_update.
    + unfold updateAirtimePurchase. rewrite Hfind. done.
  - unfold updateKycRecord. destruct (list_find _ _) as [[i old]|]; done.
  - unfold updateAccountLimit. destruct (list_find _ _) as [[i old]|]; done.
Qed.

Lemma reachable_well_numbered (s : Store) : reachable s → well_numbered s.
Proof.
  induction 1 as [|call s _ IH Hkey];
    [apply seed_well_numbered | by apply run_call_well_numbered].
Qed.

(** X2: in every store that calls of the store functions build from the
    seeded one, with updates that carry no key, the record at index [i] of
    the accounts, transactions, payments, loans and airtime purchases
    carries the [i+1]-th id of its sequence, so no two records of an array
    share an id. *)
Theorem reachable_ids_unique (s : Store) :
  reachable s →
  well_numbered s
  ∧ NoDup (Account.id <$> s.(accounts))
  ∧ NoDup (Transaction.id <$> s.(transactions))
  ∧ NoDup (Payment.id <$> s.(payments))
  ∧ NoDup (Loan.id <$> s.(loans))
  ∧ NoDup (AirtimePurchase.id <$> s.(airtimePurchases)).
Proof.
  intros Hs%reachable_well_numbered. split; [done|].
  destruct Hs as (? & ? & ? & ? & ?).
  split_and!; by eapply numbered_NoDup.
Qed.

(** The seeded store after two payments are added and the first is
    updated. *)
Lemma reachable_ids_unique_witness :
  NoDup
    (Payment.id
       <$> (run_call (UpdatePayment 0 "pay-003" (Payments.status_only "completed"))
              (run_call
                 (AddPayment 0
                    (NewPayment.mk "acc-001" "Ann" "1" 5 "GHS" "bank_transfer"
                       None true true))
                 (run_call
                    (AddPayment 0
                       (NewPayment.mk "acc-002" "Bob" "2" 7 "GHS"
                          "bank_transfer" (Some "mine") true false))
                    seed))).(payments)).
Proof.
  refine (proj1 (proj2 (proj2 (proj2 (reachable_ids_unique _ _))))).
  repeat (apply reachable_call; [|exact I || reflexivity]).
  apply reachable_seed.
Defined.

Lemma Forall2_prefix_refl (l : list (list string)) : Forall2 prefix l l.
Proof. induction l; by constructor. Qed.

Lemma Forall2_prefix_trans (l1 l2 l3 : list (list string)) :
  Forall2 prefix l1 l2 → Forall2 prefix l2 l3 → Forall2 prefix l1 l3.
Proof.
  intros H12. revert l3. induction H12 as [|x y l1 l2 Hxy _ IH];
    intros l3 H23; inversion H23; subst; constructor; [by etrans | auto].
Qed.

Lemma foldl_keys (calls : list StoreCall) (s : Store) :
  Forall key_free calls →
  Forall2 prefix (keys s) (keys (foldl (λ s call, run_call call s) s calls)).
Proof.
  intros Hcalls. revert s.
  induction Hcalls as [|call calls Hcall _ IH]; intros s; cbn [foldl].
  - apply Forall2_prefix_refl.
  - eapply Forall2_prefix_trans; [by apply run_call_keys | apply IH].
Qed.

(** X3: the store only grows, and keys stay.  After any sequence of calls
    of the store functions, with updates that carry no key, each array
    holds, in the same places, records with the keys it held before,
    followed by the records that were added: nothing is removed, reordered
    or re-keyed. *)
Theorem store_only_grows (calls : list StoreCall) (s : Store) :
  Forall key_free calls →
  Forall2 prefix (keys s) (keys (foldl (λ s call, run_call call s) s calls)).
Proof. apply foldl_keys. Qed.

Lemma store_only_grows_witness :
  Forall2 prefix (keys seed)
    (keys
       (foldl (λ s call, run_call call s) seed
          [ AddLoan 0 0.5 0.5
              (NewLoan.mk "cust-001" "acc-001" 100 "GHS" "Books" 6 10
                 (Some 18.5%float) None);
            UpdateLoan 5 "loan-002" (Loans.status_only "approved");
            UpdateKycRecord 9 "cust-004" (Kyc.status_only "approved") ])).
Proof.
  apply store_only_grows. repeat constructor.
Defined.

(** ** Requests act through the store functions *)








(** ** The list operations *)

Lemma filter_filter {A} (f g : A → bool) (l : list A) :
  List.filter g (List.filter f l) = List.filter (λ x, f x && g x) l.
Proof.
  induction l as [|x l IH]; [done|]. cbn [List.filter].
  destruct (f x); cbn [List.filter andb]; [|done].
  destruct (g x); by rewrite IH.
Qed.

Lemma filter_all {A} (l : list A) : List.filter (λ _, true) l = l.
Proof. induction l as [|x l IH]; [done|]. cbn. by rewrite IH. Qed.

(** A conditional filter is the filter by a criterion that an absent or
    empty parameter satisfies. *)
Lemma filter_if_passes {A} (q : option string) (keep : string → A → bool)
    (l : list A) :
  JS.filter_if q keep l = List.filter (λ x, passes q (λ v, keep v x)) l.
Proof.
  unfold JS.filter_if, passes, JS.truthy_string.
  destruct q as [v|]; [|by rewrite filter_all].
  destruct (String.eqb v ""); cbn [negb]; by rewrite ?filter_all.
Qed.


(** X5: GET /transactions answers 200 and leaves the store as it was; the
    data are the stored transactions, in their order, that meet every
    criterion the query gives: accountId, status and type equal to the
    parameter, initiatedAt at or after dateFrom and at or before dateTo, in
    the order of strings.  A parameter that is absent or empty is no
    criterion, and count is the number of the data. *)
Theorem transactions_index_spec (ctx : Ctx.t)
    (accountId status type dateFrom dateTo : option string) (s : Store) :
  let answer := Transactions.index ctx accountId status type dateFrom dateTo s in
  snd answer = s
  ∧ (fst answer).(http) = 200
  ∧ (fst answer).(body).(Listing.data)
    = List.filter
        (λ txn,
           passes accountId (String.eqb txn.(Transaction.accountId))
           && passes status (String.eqb txn.(Transaction.status))
           && passes type (String.eqb txn.(Transaction.type))
           && passes dateFrom (λ q, String.leb q txn.(Transaction.initiatedAt))
           && passes dateTo (λ q, String.leb txn.(Transaction.initiatedAt) q))
        s.(transactions)
  ∧ (fst answer).(body).(Listing.count)
    = length (fst answer).(body).(Listing.data).
Proof.
  cbn. split_and!; try done.
  rewrite !filter_if_passes, !filter_filter. unfold getTransactions.
  apply filter_ext. intros txn. unfold JS.string_ge, JS.string_le.
  by rewrite <- !andb_assoc.
Qed.



Example transactions_of_a_day :
  Transaction.id
    <$> (fst (Transactions.index ctx0 None None None (Some "2024-01-19")
                (Some "2024-01-19") seed)).(body).(Listing.data)
  = []
  ∧ Transaction.id
      <$> (fst (Transactions.index ctx0 None None None (Some "2024-01-19")
                  (Some "2024-01-20") seed)).(body).(Listing.data)
    = ["txn-002"].
Proof. vm_compute. auto. Qed.

(** X7: GET /accounts, GET /loans and GET /airtime/purchases list the
    stored records, in their order, that meet every criterion the query
    gives, an absent or empty parameter being none. *)
Theorem listings_spec (ctx : Ctx.t) (p1 p2 p3 p4 : option string) (s : Store) :
  (fst (Accounts.index ctx p1 p2 p3 p4 s)).(body).(Listing.data)
  = List.filter
      (λ acc,
         passes p1 (String.eqb acc.(Account.customerId))
         && passes p2 (String.eqb acc.(Account.status))
         && passes p3 (String.eqb acc.(Account.type))
         && passes p4 (String.eqb acc.(Account.currency)))
      s.(accounts)
  ∧ (fst (Loans.index ctx p1 p2 p3 s)).(body).(Listing.data)
    = List.filter
        (λ loan,
           passes p1 (String.eqb loan.(Loan.customerId))
           && passes p2 (String.eqb loan.(Loan.status))
           && passes p3 (λ q, String.leb q loan.(Loan.appliedAt)))
        s.(loans)
  ∧ (fst (Airtime.index ctx p1 p2 p3 p4 s)).(body).(Listing.data)
    = List.filter
        (λ p,
           passes p1 (String.eqb p.(AirtimePurchase.accountId))
           && passes p2 (String.eqb p.(AirtimePurchase.phoneNumber))
           && passes p3 (String.eqb p.(AirtimePurchase.status))
           && passes p4 (λ q, String.leb q p.(AirtimePurchase.purchasedAt)))
        s.(airtimePurchases).
Proof.
  cbn. rewrite !filter_if_passes, !filter_filter.
  unfold getAccounts, getLoans, getAirtimePurchases, JS.string_ge.
  split_and!; apply filter_ext; intros x; by rewrite <- ?andb_assoc.
Qed.

(** ** Accounts *)

Lemma truthy_ne (x : string) : x ≠ "" → JS.truthy_string x = true.
Proof. intros Hx. unfold JS.truthy_string. by apply String.eqb_neq in Hx as ->. Qed.

Lemma includes_elem_of (l : list string) (x : string) :
  JS.includes l x = true ↔ x ∈ l.
Proof.
  unfold JS.includes. rewrite existsb_exists. split.
  - intros (y & Hin & ->%String.eqb_eq). by apply list_elem_of_In.
  - intros Hin. exists x. split; [by apply list_elem_of_In | apply String.eqb_refl].
Qed.

(** The account a store of numbered accounts gives for the id of the
    account that was just pushed is that account. *)
Lemma getAccountById_pushed (s : Store) (account : Account.t) :
  numbered "acc-" (Account.id <$> s.(accounts)) →
  account.(Account.id) = sequenceId "acc-" (length s.(accounts) + 1) →
  getAccountById account.(Account.id)
    (set_accounts (s.(accounts) ++ [account]) s)
  = Some account.
Proof.
  intros Hids Hid. unfold getAccountById. cbn [accounts set_accounts].
  erewrite find_app_new; [done | rewrite Hid; by apply numbered_fresh | done].
Qed.

(** X8: POST /accounts with customerId, type and currency given creates an
    active account whose balance is the initial deposit, or 0 when none is
    given; on a store whose accounts are numbered in sequence the id of the
    answer retrieves that account, GET /accounts/:accountId answers with it,
    and the check-active checker answers true for it. *)
Theorem create_account_round_trip (ctx ctx' : Ctx.t) (random : float)
    (customerId type currency : string) (initialDeposit : option float)
    (s : Store) :
  well_numbered s →
  customerId ≠ "" → type ≠ "" → currency ≠ "" →
  ∃ account,
    let s' :=
      snd (Accounts.create ctx random (Some customerId) (Some type)
             (Some currency) initialDeposit s) in
    Accounts.create ctx random (Some customerId) (Some type) (Some currency)
      initialDeposit s
    = (ok ctx 201 account (Some "Account created successfully"),
       set_accounts (s.(accounts) ++ [account]) s)
    ∧ account.(Account.id) = sequenceId "acc-" (length s.(accounts) + 1)
    ∧ account.(Account.status) = "active"
    ∧ account.(Account.balance)
      = match initialDeposit with
        | Some d => if JS.truthy_number d then d else 0%float
        | None => 0%float
        end
    ∧ account.(Account.createdAt) = JS.toISOString ctx.(Ctx.now)
    ∧ fst (Accounts.get_by_id ctx' account.(Account.id) s')
      = ok ctx' 200 account None
    ∧ (fst (Accounts.check_active ctx' account.(Account.id) s'))
        .(body).(Checker.result) = true.
Proof.
  intros (Hacc & _) Hc Ht Hcur.
  unfold Accounts.create, Accounts.get_by_id, Accounts.check_active.
  rewrite !truthy_ne by done. cbn [negb orb].
  eexists. split; [reflexivity|]. cbn [snd addAccount].
  match goal with
  | |- context [set_accounts (_ ++ [?a]) s] =>
      pose proof (getAccountById_pushed s a Hacc eq_refl) as Hget
  end.
  cbn [Account.id] in Hget |- *. rewrite Hget.
  split_and!; reflexivity.
Qed.

Lemma create_account_round_trip_witness :
  ∃ account,
    Accounts.create ctx0 0.5 (Some "cust-009") (Some "savings") (Some "GHS")
      None seed
    = (ok ctx0 201 account (Some "Account created successfully"),
       set_accounts (seed.(accounts) ++ [account]) seed)
    ∧ account.(Account.id) = "acc-004"
    ∧ account.(Account.balance) = 0%float.
Proof.
  destruct (create_account_round_trip ctx0 ctx1 0.5 "cust-009" "savings" "GHS"
              None seed seed_well_numbered ltac:(discriminate)
              ltac:(discriminate) ltac:(discriminate))
    as (account & Hanswer & Hid & _ & Hbalance & _).
  exists account. split_and!; [exact Hanswer | by rewrite Hid | exact Hbalance].
Defined.

(** X9: PATCH /accounts/:accountId/status tests the status before it looks
    the account up: a status that is absent or not one of active, suspended
    and closed is answered 400 with the list of the statuses, whether the
    account exists or not, and the store is left as it was. *)
Theorem patch_status_refuses_first (ctx : Ctx.t) (accountId : string)
    (status : option string) (s : Store) :
  status ∉ Some <$> Accounts.validStatuses →
  Accounts.patch_status ctx accountId status s
  = (fail ctx 400 "Status must be one of: active, suspended, closed", s).
Proof.
  intros Hstatus. unfold Accounts.patch_status.
  destruct status as [status|]; [|reflexivity].
  destruct (JS.includes Accounts.validStatuses status) eqn:Hin.
  - destruct Hstatus. apply includes_elem_of in Hin.
    by apply list_elem_of_fmap_2.
  - by rewrite orb_true_r.
Qed.

Lemma patch_status_refuses_first_witness :
  Accounts.patch_status ctx0 "acc-001" (Some "frozen") seed
  = (fail ctx0 400 "Status must be one of: active, suspended, closed", seed)
  ∧ Accounts.patch_status ctx0 "acc-404" (Some "Active") seed
    = (fail ctx0 400 "Status must be one of: active, suspended, closed", seed).
Proof.
  split; apply patch_status_refuses_first;
    intros Hin; repeat (apply elem_of_cons in Hin as [[=]|Hin]);
    by apply elem_of_nil in Hin.
Defined.

(** X10: with one of the three statuses, PATCH /accounts/:accountId/status
    answers 404 for an account that is not stored and leaves the store as
    it was; for a stored account it writes the status and the time of the
    request as updatedAt and nothing else, the account is retrieved with
    them afterwards, the number of accounts is the same, and check-active
    then answers whether the new status is active. *)
Theorem patch_status_writes_the_status (ctx ctx' : Ctx.t) (accountId : string)
    (status : string) (s : Store) :
  status ∈ Accounts.validStatuses →
  match getAccountById accountId s with
  | None =>
      Accounts.patch_status ctx accountId (Some status) s
      = (fail ctx 404 "Account not found", s)
  | Some account =>
      let updated :=
        {| Account.id := account.(Account.id);
           Account.customerId := account.(Account.customerId);
           Account.type := account.(Account.type);
           Account.currency := account.(Account.currency);
           Account.balance := account.(Account.balance);
           Account.status := status;
           Account.accountNumber := account.(Account.accountNumber);
           Account.createdAt := account.(Account.createdAt);
           Account.updatedAt := JS.toISOString ctx.(Ctx.now) |} in
      let s' := snd (Accounts.patch_status ctx accountId (Some status) s) in
      fst (Accounts.patch_status ctx accountId (Some status) s)
      = ok ctx 200 updated (Some "Account status updated")
      ∧ getAccountById accountId s' = Some updated
      ∧ length s'.(accounts) = length s.(accounts)
      ∧ (fst (Accounts.check_active ctx' accountId s'))
          .(body).(Checker.result) = String.eqb status "active"
  end.
Proof.
  intros Hstatus. unfold Accounts.patch_status.
  assert (JS.truthy_string status = true) as ->.
  { unfold Accounts.validStatuses in Hstatus.
    repeat (apply elem_of_cons in Hstatus as [->|Hstatus]; [done|]).
    by apply elem_of_nil in Hstatus. }
  apply includes_elem_of in Hstatus as ->. cbn [negb orb].
  unfold getAccountById, updateAccount.
  destruct (list_find _ _) as [[i account]|] eqn:Hfind; cbn [fmap option_fmap
    option_map snd]; [|reflexivity].
  cbn zeta. cbn [fst snd]. split_and!.
  - reflexivity.
  - unfold Accounts.check_active, getAccountById. cbn [accounts set_accounts].
    erewrite find_insert; [reflexivity | exact Hfind |].
    by apply find_lookup in Hfind as [_ Hid].
  - cbn [accounts set_accounts]. by rewrite length_insert.
  - unfold Accounts.check_active, getAccountById. cbn [accounts set_accounts].
    erewrite find_insert; [reflexivity | exact Hfind |].
    by apply find_lookup in Hfind as [_ Hid].
Qed.

Lemma patch_status_writes_the_status_witness :
  fst (Accounts.patch_status ctx0 "acc-003" (Some "active") seed)
  = ok ctx0 200
      (Account.mk "acc-003" "cust-001" "savings" "GHS" 10000 "active"
         "1234567892" "2024-01-17T12:00:00Z" "2024-01-15T10:00:00.123Z")
      (Some "Account status updated")
  ∧ (fst (Accounts.check_active ctx1 "acc-003"
            (snd (Accounts.patch_status ctx0 "acc-003" (Some "active") seed))))
      .(body).(Checker.result) = true.
Proof.
  assert ("active" ∈ Accounts.validStatuses) as Hin by apply list_elem_of_here.
  pose proof (patch_status_writes_the_status ctx0 ctx1 "acc-003" "active" seed
                Hin) as Hpatch.
  change (getAccountById "acc-003" seed)
    with (Some (Account.mk "acc-003" "cust-001" "savings" "GHS" 10000
                  "suspended" "1234567892" "2024-01-17T12:00:00Z"
                  "2024-01-20T14:00:00Z")) in Hpatch.
  destruct Hpatch as (Hanswer & _ & _ & Hactive).
  split; [exact Hanswer | exact Hactive].
Defined.

(** ** Transactions *)

(** X11: POST /transactions with both accounts, a currency and an amount
    above 0 appends two transactions, a debit on fromAccount and a credit on
    toAccount, numbered one after the other, both pending, not processed,
    of the same amount, each naming the other account as counterparty.  No
    account is looked up and none is changed: balances stay as they were,
    and the accounts need not exist. *)
Theorem create_transaction_pair (ctx : Ctx.t) (fromAccount toAccount : string)
    (amount : float) (currency : string) (purpose : option string)
    (s : Store) :
  fromAccount ≠ "" → toAccount ≠ "" → currency ≠ "" →
  PrimFloat.ltb 0 amount = true →
  ∃ debit credit,
    Transactions.create ctx
      (Transactions.CreateBody.mk (Some fromAccount) (Some toAccount)
         (Some amount) (Some currency) purpose) s
    = (ok ctx 201 (debit, credit) (Some "Transaction initiated"),
       set_transactions (s.(transactions) ++ [debit; credit]) s)
    ∧ (set_transactions (s.(transactions) ++ [debit; credit]) s).(accounts)
      = s.(accounts)
    ∧ debit.(Transaction.id)
      = sequenceId "txn-" (length s.(transactions) + 1)
    ∧ credit.(Transaction.id)
      = sequenceId "txn-" (length s.(transactions) + 2)
    ∧ (debit.(Transaction.type), credit.(Transaction.type))
      = ("debit", "credit")
    ∧ (debit.(Transaction.accountId), credit.(Transaction.accountId))
      = (fromAccount, toAccount)
    ∧ (debit.(Transaction.counterparty), credit.(Transaction.counterparty))
      = (toAccount, fromAccount)
    ∧ (debit.(Transaction.amount), credit.(Transaction.amount))
      = (amount, amount)
    ∧ (debit.(Transaction.status), credit.(Transaction.status))
      = ("pending", "pending")
    ∧ (debit.(Transaction.processedAt), credit.(Transaction.processedAt))
      = (None, None).
Proof.
  intros Hfrom Hto Hcur Hpos.
  pose proof (accepted_amount amount) as Hguard. rewrite Hpos in Hguard.
  apply andb_prop in Hguard as [Tamount Hle%negb_true_iff].
  unfold Transactions.create. cbn [Transactions.CreateBody.fromAccount
    Transactions.CreateBody.toAccount Transactions.CreateBody.amount
    Transactions.CreateBody.currency Transactions.CreateBody.purpose].
  rewrite !truthy_ne by done. rewrite Tamount, Hle. cbn [negb orb].
  unfold addTransaction. cbn [transactions set_transactions].
  do 2 eexists. split.
  - rewrite <- app_assoc. reflexivity.
  - cbn. rewrite length_app. cbn [length].
    replace (length (transactions s) + 1 + 1) with (length (transactions s) + 2)
      by lia.
    split_and!; reflexivity.
Qed.

Lemma create_transaction_pair_witness :
  ∃ debit credit,
    Transactions.create ctx0
      (Transactions.CreateBody.mk (Some "acc-001") (Some "acc-777")
         (Some 8000%float) (Some "GHS") None) seed
    = (ok ctx0 201 (debit, credit) (Some "Transaction initiated"),
       set_transactions (seed.(transactions) ++ [debit; credit]) seed)
    ∧ (debit.(Transaction.id), credit.(Transaction.id))
      = ("txn-004", "txn-005").
Proof.
  destruct (create_transaction_pair ctx0 "acc-001" "acc-777" 8000 "GHS" None
              seed ltac:(discriminate) ltac:(discriminate) ltac:(discriminate)
              eq_refl)
    as (debit & credit & Hanswer & _ & Hdebit & Hcredit & _).
  exists debit, credit. split; [exact Hanswer|]. by rewrite Hdebit, Hcredit.
Defined.

(** ** Payments *)

Lemma getPaymentById_pushed (s : Store) (payment : Payment.t) :
  numbered "pay-" (Payment.id <$> s.(payments)) →
  payment.(Payment.id) = sequenceId "pay-" (length s.(payments) + 1) →
  getPaymentById payment.(Payment.id)
    (set_payments (s.(payments) ++ [payment]) s)
  = Some payment.
Proof.
  intros Hids Hid. unfold getPaymentById. cbn [payments set_payments].
  erewrite find_app_new; [done | rewrite Hid; by apply numbered_fresh | done].
Qed.

(** X12: a payment that POST /payments/initiate has created, on a store
    whose payments are numbered in sequence, is the one its id retrieves:
    GET /payments/:paymentId answers with it, and check-ready answers
    whether the balance of the account was at least the amount when the
    payment was initiated, with the reason 'Insufficient balance' when it
    was not. *)
Theorem initiated_payment_is_read_back (ctx ctx' : Ctx.t)
    (b : Payments.InitiateBody.t) (s : Store) (accountId : string)
    (amount : float) (account : Account.t) :
  well_numbered s →
  initiate_valid b accountId amount →
  getAccountById accountId s = Some account →
  ∃ payment,
    let s' := snd (Payments.initiate ctx b s) in
    fst (Payments.initiate ctx b s)
    = ok ctx 201 payment (Some "Payment initiated")
    ∧ fst (Payments.get_by_id ctx' payment.(Payment.id) s')
      = ok ctx' 200 payment None
    ∧ (fst (Payments.check_ready ctx' payment.(Payment.id) s'))
        .(body).(Checker.result)
      = JS.ge account.(Account.balance) amount
    ∧ (fst (Payments.check_ready ctx' payment.(Payment.id) s'))
        .(body).(Checker.reason)
      = (if JS.ge account.(Account.balance) amount
         then "Payment is ready to process" else "Insufficient balance").
Proof.
  intros (_ & _ & Hpay & _) (Hacc & Hid & Hben & Hbacc & Hamount & Hpos & Hcur)
    Hget.
  apply present_truthy in Hben as (beneficiary & Hben & Tben).
  apply present_truthy in Hbacc as (beneficiaryAccount & Hbacc & Tbacc).
  apply present_truthy in Hcur as (currency & Hcur & Tcur).
  assert (JS.truthy_string accountId = true) as Tacc.
  { unfold JS.truthy_string. by apply String.eqb_neq in Hid as ->. }
  pose proof (accepted_amount amount) as Hguard. rewrite Hpos in Hguard.
  apply andb_prop in Hguard as [Tamount Hle%negb_true_iff].
  unfold Payments.initiate.
  rewrite Hacc, Hben, Hbacc, Hamount, Hcur, Tacc, Tben, Tbacc, Tamount, Tcur,
    Hle, Hget.
  cbn [negb orb]. eexists. cbn zeta. split; [reflexivity|].
  cbn [snd addPayment].
  match goal with
  | |- context [set_payments (_ ++ [?p]) s] =>
      pose proof (getPaymentById_pushed s p Hpay eq_refl) as Hread
  end.
  unfold Payments.get_by_id, Payments.check_ready.
  cbn [Payment.id] in Hread |- *. rewrite Hread.
  split_and!; [reflexivity | |].
  - cbn. apply andb_true_r.
  - cbn. rewrite Bool.andb_true_r. unfold JS.ge. by destruct (PrimFloat.leb _ _).
Qed.

Lemma initiated_payment_is_read_back_witness :
  ∃ payment,
    fst (Payments.initiate ctx0
           (Payments.InitiateBody.mk (Some "acc-002") (Some "John Doe")
              (Some "9876543210") (Some 3000%float) (Some "GHS") None None)
           seed)
    = ok ctx0 201 payment (Some "Payment initiated")
    ∧ (fst (Payments.check_ready ctx1 payment.(Payment.id)
              (snd (Payments.initiate ctx0
                      (Payments.InitiateBody.mk (Some "acc-002")
                         (Some "John Doe") (Some "9876543210")
                         (Some 3000%float) (Some "GHS") None None)
                      seed))))
        .(body).(Checker.reason)
      = "Insufficient balance".
Proof.
  assert (initiate_valid
            (Payments.InitiateBody.mk (Some "acc-002") (Some "John Doe")
               (Some "9876543210") (Some 3000%float) (Some "GHS") None None)
            "acc-002" 3000) as Hvalid.
  { unfold initiate_valid, present. cbn.
    split_and!; eauto; try discriminate;
      eexists; (split; [reflexivity | discriminate]). }
  destruct (initiated_payment_is_read_back ctx0 ctx1 _ seed "acc-002" 3000 _
              seed_well_numbered Hvalid eq_refl)
    as (payment & Hanswer & _ & _ & Hreason).
  exists payment. split; [exact Hanswer | exact Hreason].
Defined.

(** X13: cancelling is idempotent.  After a payment that is not completed
    has been cancelled, cancelling it again is answered 200 with the same
    payment and leaves the store exactly as the first cancellation left
    it; check-ready then answers false for it. *)
Theorem cancel_twice (ctx ctx' : Ctx.t) (paymentId : string) (s : Store)
    (payment : Payment.t) :
  getPaymentById paymentId s = Some payment →
  payment.(Payment.status) ≠ "completed" →
  let s' := snd (Payments.cancel ctx paymentId s) in
  Payments.cancel ctx' paymentId s'
  = (ok ctx' 200 (getPaymentById paymentId s') (Some "Payment cancelled"), s')
  ∧ Payment.status <$> getPaymentById paymentId s' = Some "cancelled"
  ∧ (fst (Payments.check_ready ctx' paymentId s')).(body).(Checker.result)
    = false.
Proof.
  intros Hget Hne. apply String.eqb_neq in Hne.
  destruct (getPaymentById_find _ _ _ Hget) as [i Hi].
  destruct (find_lookup _ _ _ _ Hi) as [Hl Hid].
  set (c := spreadPayment payment (Payments.status_only "cancelled")).
  assert (Payments.cancel ctx paymentId s
          = (ok ctx 200 (Some c) (Some "Payment cancelled"),
             set_payments (<[i := c]> s.(payments)) s)) as ->.
  { unfold Payments.cancel. rewrite Hget, Hne. unfold updatePayment.
    rewrite Hi. reflexivity. }
  cbn [snd]. cbn zeta.
  assert (list_find (λ pay, pay.(Payment.id) = paymentId)
            (<[i := c]> s.(payments)) = Some (i, c)) as Hi'.
  { eapply find_insert; [exact Hi | exact Hid]. }
  unfold Payments.cancel, Payments.check_ready, getPaymentById, updatePayment.
  cbn [payments set_payments]. rewrite Hi'.
  cbn [fmap option_fmap option_map snd].
  change (String.eqb (Payment.status c) "completed") with false.
  change (String.eqb (Payment.status c) "pending") with false.
  cbn [JS.opt_is PaymentPatch.status Payments.status_only].
  change (String.eqb "cancelled" "completed") with false. cbn [andb].
  rewrite list_insert_insert_eq.
  split_and!; [reflexivity | reflexivity |].
  cbn. apply andb_false_r.
Qed.

Lemma cancel_twice_witness :
  Payments.cancel ctx1 "pay-002" cancelled_once
  = (ok ctx1 200 (getPaymentById "pay-002" cancelled_once)
       (Some "Payment cancelled"), cancelled_once).
Proof.
  refine (proj1 (cancel_twice ctx0 ctx1 "pay-002" seed _ eq_refl _)).
  discriminate.
Defined.

(** ** Loans *)

(** What [updateLoan] writes for a patch with a status that stamps
    nothing. *)
Lemma updateLoan_plain (now : Z) (id : string) (updates : LoanPatch.t)
    (s : Store) (i : nat) (old : Loan.t) :
  list_find (λ loan, loan.(Loan.id) = id) s.(loans) = Some (i, old) →
  JS.opt_is updates.(LoanPatch.status) "approved" = false →
  JS.opt_is updates.(LoanPatch.status) "disbursed" = false →
  updateLoan now id updates s
  = (Some (spreadLoan old updates),
     set_loans (<[i := spreadLoan old updates]> s.(loans)) s).
Proof.
  intros Hi Happroved Hdisbursed. unfold updateLoan.
  by rewrite Hi, Happroved, Hdisbursed.
Qed.

(** X14: rejecting a pending loan sets its status to 'rejected' and its
    rejectionReason to the reason of the request, or to 'Application does
    not meet requirements' when the request gives none; nothing else of
    the loan changes, no timestamp is stamped, and check-approved then
    answers false with 'Loan status is: rejected'. *)
Theorem reject_pending_loan (ctx ctx' : Ctx.t) (loanId : string)
    (reason : option string) (s : Store) (loan : Loan.t) :
  getLoanById loanId s = Some loan →
  loan.(Loan.status) = "pending" →
  let rejected :=
    {| Loan.id := loan.(Loan.id); Loan.customerId := loan.(Loan.customerId);
       Loan.accountId := loan.(Loan.accountId);
       Loan.amount := loan.(Loan.amount);
       Loan.currency := loan.(Loan.currency);
       Loan.purpose := loan.(Loan.purpose); Loan.tenure := loan.(Loan.tenure);
       Loan.interestRate := loan.(Loan.interestRate);
       Loan.status := "rejected";
       Loan.creditScore := loan.(Loan.creditScore);
       Loan.eligible := loan.(Loan.eligible);
       Loan.appliedAt := loan.(Loan.appliedAt);
       Loan.approvedAt := loan.(Loan.approvedAt);
       Loan.disbursedAt := loan.(Loan.disbursedAt);
       Loan.rejectionReason :=
         Some (match reason with
               | Some r =>
                   if JS.truthy_string r then r
                   else "Application does not meet requirements"
               | None => "Application does not meet requirements"
               end);
       Loan.monthlyPayment := loan.(Loan.monthlyPayment);
       Loan.remainingBalance := loan.(Loan.remainingBalance) |} in
  let s' := snd (Loans.reject ctx loanId reason s) in
  fst (Loans.reject ctx loanId reason s)
  = ok ctx 200 (Some rejected) (Some "Loan application rejected")
  ∧ getLoanById loanId s' = Some rejected
  ∧ length s'.(loans) = length s.(loans)
  ∧ fst (Loans.check_approved ctx' loanId s')
    = verdict ctx' false "Loan status is: rejected"
        [("loanId", JStr loan.(Loan.id)); ("status", JStr "rejected");
         ("pendingChecks",
          JArr ["credit_check"; "document_verification"; "risk_assessment"]);
         ("approvedAt", nullable loan.(Loan.approvedAt))].
Proof.
  intros Hget Hpending. cbn zeta.
  destruct (getLoanById_find _ _ _ Hget) as [i Hi].
  destruct (find_lookup _ _ _ _ Hi) as [Hl Hid].
  unfold Loans.reject. rewrite Hget, Hpending.
  change (negb (String.eqb "pending" "pending")) with false. cbv iota.
  erewrite updateLoan_plain; [| exact Hi | reflexivity | reflexivity].
  cbn [fst snd]. unfold Loans.check_approved, getLoanById.
  cbn [loans set_loans].
  erewrite find_insert; [| exact Hi | exact Hid].
  rewrite length_insert.
  split_and!; reflexivity.
Qed.

Lemma reject_pending_loan_witness :
  fst (Loans.reject ctx0 "loan-002" None seed)
  = ok ctx0 200
      (Some
         (Loan.mk "loan-002" "cust-002" "acc-002" 3000 "GHS" "Personal use"
            6 10 "rejected" 680 true "2024-01-19T11:00:00Z" None None
            (Some "Application does not meet requirements")
            (Some 525%float) None))
      (Some "Loan application rejected").
Proof.
  exact (proj1 (reject_pending_loan ctx0 ctx1 "loan-002" None seed _ eq_refl
                  eq_refl)).
Defined.

(** X15: a decision on a loan is final.  Once a pending loan has been
    approved or rejected, a further request to approve or to reject it is
    answered 400 with the status the loan has, and the store is left as the
    decision left it. *)
Theorem loan_decision_is_final (ctx ctx' : Ctx.t) (loanId : string)
    (reason reason' : option string) (s : Store) (loan : Loan.t) :
  getLoanById loanId s = Some loan →
  loan.(Loan.status) = "pending" →
  let approved := snd (Loans.approve ctx loanId s) in
  let rejected := snd (Loans.reject ctx loanId reason s) in
  Loans.approve ctx' loanId approved
  = (fail ctx' 400 "Cannot approve loan with status: approved", approved)
  ∧ Loans.reject ctx' loanId reason' approved
    = (fail ctx' 400 "Cannot reject loan with status: approved", approved)
  ∧ Loans.approve ctx' loanId rejected
    = (fail ctx' 400 "Cannot approve loan with status: rejected", rejected)
  ∧ Loans.reject ctx' loanId reason' rejected
    = (fail ctx' 400 "Cannot reject loan with status: rejected", rejected).
Proof.
  intros Hget Hpending. cbn zeta.
  destruct (getLoanById_find _ _ _ Hget) as [i Hi].
  destruct (find_lookup _ _ _ _ Hi) as [Hl Hid].
  assert (∃ l, Loans.approve ctx loanId s
               = (ok ctx 200 (Some l) (Some "Loan approved and disbursed"),
                  set_loans (<[i := l]> s.(loans)) s)
               ∧ l.(Loan.id) = loanId ∧ l.(Loan.status) = "approved")
    as (a & -> & Haid & Hastatus).
  { unfold Loans.approve. rewrite Hget, Hpending.
    change (negb (String.eqb "pending" "pending")) with false. cbv iota.
    unfold updateLoan. rewrite Hi.
    cbn [JS.opt_is LoanPatch.status Loans.approval].
    change (String.eqb "approved" "disbursed") with false.
    change (String.eqb "approved" "approved") with true. cbn [andb].
    eexists. split; [reflexivity|]. destruct (negb _); split; done. }
  assert (∃ l, Loans.reject ctx loanId reason s
               = (ok ctx 200 (Some l) (Some "Loan application rejected"),
                  set_loans (<[i := l]> s.(loans)) s)
               ∧ l.(Loan.id) = loanId ∧ l.(Loan.status) = "rejected")
    as (r & -> & Hrid & Hrstatus).
  { unfold Loans.reject. rewrite Hget, Hpending.
    change (negb (String.eqb "pending" "pending")) with false. cbv iota.
    erewrite updateLoan_plain; [| exact Hi | reflexivity | reflexivity].
    eexists. split; [reflexivity|]. split; done. }
  cbn [snd]. unfold Loans.approve, Loans.reject, getLoanById.
  cbn [loans set_loans].
  rewrite !(find_insert _ _ i loan a Hi Haid).
  rewrite !(find_insert _ _ i loan r Hi Hrid).
  cbn [fmap option_fmap option_map snd]. rewrite Hastatus, Hrstatus.
  split_and!; reflexivity.
Qed.

Lemma loan_decision_is_final_witness :
  Loans.reject ctx1 "loan-002" (Some "changed my mind")
    (snd (Loans.approve ctx0 "loan-002" seed))
  = (fail ctx1 400 "Cannot reject loan with status: approved",
     snd (Loans.approve ctx0 "loan-002" seed)).
Proof.
  exact (proj1 (proj2 (loan_decision_is_final ctx0 ctx1 "loan-002" None
                         (Some "changed my mind") seed _ eq_refl eq_refl))).
Defined.

(** X16: a loan that is added with a credit score of its own carries that
    score and is eligible exactly when the score is at least 650: the
    values drawn at random play no part, and check-eligible answers that
    same comparison for the new loan. *)
Theorem addLoan_with_a_score (ctx : Ctx.t) (now : Z) (random1 random2 : float)
    (loan : NewLoan.t) (score : float) (s : Store) :
  well_numbered s →
  loan.(NewLoan.creditScore) = Some score →
  JS.truthy_number score = true →
  let added := fst (addLoan now random1 random2 loan s) in
  let s' := snd (addLoan now random1 random2 loan s) in
  added.(Loan.creditScore) = score
  ∧ added.(Loan.eligible) = JS.ge score 650
  ∧ added.(Loan.status) = "pending"
  ∧ getLoanById added.(Loan.id) s' = Some added
  ∧ (fst (Loans.check_eligible ctx added.(Loan.id) s'))
      .(body).(Checker.result) = JS.ge score 650.
Proof.
  intros (_ & _ & _ & Hloans & _) Hscore Htruthy. cbn zeta.
  unfold addLoan. rewrite Hscore, Htruthy. cbn [fst snd Loan.creditScore
    Loan.eligible Loan.status Loan.id].
  assert (∀ l : Loan.t,
            l.(Loan.id) = sequenceId "loan-" (length s.(loans) + 1) →
            getLoanById l.(Loan.id) (set_loans (s.(loans) ++ [l]) s) = Some l)
    as Hread.
  { intros l Hid. unfold getLoanById. cbn [loans set_loans].
    erewrite find_app_new; [done | rewrite Hid; by apply numbered_fresh | done]. }
  match goal with
  | |- context [set_loans (_ ++ [?l]) s] =>
      specialize (Hread l eq_refl)
  end.
  cbn [Loan.id] in Hread. unfold Loans.check_eligible. rewrite Hread.
  split_and!; try reflexivity. cbn. apply andb_diag.
Qed.

Lemma addLoan_with_a_score_witness :
  (fst (addLoan 0 0.75 0.25
          (NewLoan.mk "cust-001" "acc-001" 100 "GHS" "Books" 6 10 None
             (Some 700%float))
          seed)).(Loan.eligible) = true.
Proof.
  exact (proj1 (proj2 (addLoan_with_a_score ctx0 0 0.75 0.25
                         (NewLoan.mk "cust-001" "acc-001" 100 "GHS" "Books" 6
                            10 None (Some 700%float))
                         700 seed seed_well_numbered eq_refl eq_refl))).
Defined.

(** Without a score of its own the loan takes its score from one random
    draw and its eligibility from another: the two can disagree. *)
Example addLoan_two_draws :
  let added :=
    fst (addLoan 0 0.875 0.125
           (NewLoan.mk "cust-001" "acc-001" 100 "GHS" "Books" 6 10 None None)
           seed) in
  added.(Loan.creditScore) = 675%float ∧ added.(Loan.eligible) = false.
Proof. vm_compute. auto. Qed.

(** ** Airtime *)

Lemma getAirtimePurchaseById_pushed (s : Store) (purchase : AirtimePurchase.t) :
  numbered "air-" (AirtimePurchase.id <$> s.(airtimePurchases)) →
  purchase.(AirtimePurchase.id)
  = sequenceId "air-" (length s.(airtimePurchases) + 1) →
  getAirtimePurchaseById purchase.(AirtimePurchase.id)
    (set_airtimePurchases (s.(airtimePurchases) ++ [purchase]) s)
  = Some purchase.
Proof.
  intros Hids Hid. unfold getAirtimePurchaseById.
  cbn [airtimePurchases set_airtimePurchases].
  erewrite find_app_new; [done | rewrite Hid; by apply numbered_fresh | done].
Qed.

(** The provider the handler finds for a name of the list. *)
Lemma provider_found (provider : string) :
  provider ∈ Airtime.Provider.id <$> Airtime.PROVIDERS →
  ∃ p,
    List.find
      (λ p, String.eqb p.(Airtime.Provider.id) provider
            || String.eqb p.(Airtime.Provider.name) provider)
      Airtime.PROVIDERS = Some p
    ∧ p.(Airtime.Provider.id) = provider.
Proof.
  unfold Airtime.PROVIDERS.
  cbn [fmap list_fmap Airtime.Provider.id]. intros Hin.
  repeat (apply elem_of_cons in Hin as [->|Hin]; [eexists; split; reflexivity|]).
  by apply elem_of_nil in Hin.
Qed.

Lemma provider_not_found (provider : string) :
  provider ∉ Airtime.Provider.id <$> Airtime.PROVIDERS →
  List.find
    (λ p, String.eqb p.(Airtime.Provider.id) provider
          || String.eqb p.(Airtime.Provider.name) provider)
    Airtime.PROVIDERS = None.
Proof.
  unfold Airtime.PROVIDERS.
  cbn [fmap list_fmap Airtime.Provider.id]. intros Hin.
  cbn [List.find Airtime.Provider.id Airtime.Provider.name].
  repeat match goal with
         | |- context [String.eqb ?a provider] =>
             destruct (String.eqb_spec a provider) as [<-|_];
             [destruct Hin; repeat constructor|]
         end.
  reflexivity.
Qed.

(** X17: POST /airtime/purchase takes the provider by its exact name.  A
    request with its fields and an amount above 0 whose provider is not one
    of MTN, Vodafone, Airtel, Tigo and Orange, letter for letter, is
    answered 400 with the list of the providers; no purchase is stored and
    no timer is set. *)
Theorem purchase_needs_a_listed_provider (ctx : Ctx.t) (phoneNumber : string)
    (amount : float) (provider accountId : string) (currency : option string)
    (s : Store) :
  phoneNumber ≠ "" → provider ≠ "" → accountId ≠ "" →
  PrimFloat.ltb 0 amount = true →
  provider ∉ Airtime.Provider.id <$> Airtime.PROVIDERS →
  Airtime.purchase ctx
    (Airtime.PurchaseBody.mk (Some phoneNumber) (Some amount) (Some provider)
       currency (Some accountId)) s
  = (fail ctx 400
       "Invalid provider. Available: MTN, Vodafone, Airtel, Tigo, Orange",
     s, None).
Proof.
  intros Hphone Hprovider Hacc Hpos Hin.
  pose proof (accepted_amount amount) as Hguard. rewrite Hpos in Hguard.
  apply andb_prop in Hguard as [Tamount Hle%negb_true_iff].
  unfold Airtime.purchase. cbn [Airtime.PurchaseBody.phoneNumber
    Airtime.PurchaseBody.amount Airtime.PurchaseBody.provider
    Airtime.PurchaseBody.accountId Airtime.PurchaseBody.currency].
  rewrite !truthy_ne by done. rewrite Tamount, Hle. cbn [negb orb].
  by rewrite provider_not_found.
Qed.

Lemma purchase_needs_a_listed_provider_witness :
  Airtime.purchase ctx0
    (Airtime.PurchaseBody.mk (Some "+233241234567") (Some 10%float)
       (Some "mtn") None (Some "acc-001")) seed
  = (fail ctx0 400
       "Invalid provider. Available: MTN, Vodafone, Airtel, Tigo, Orange",
     seed, None).
Proof.
  apply purchase_needs_a_listed_provider; try discriminate; try reflexivity.
  cbn. intros Hin. repeat (apply elem_of_cons in Hin as [[=]|Hin]).
  by apply elem_of_nil in Hin.
Defined.

(** X18: a purchase that POST /airtime/purchase creates, on a store whose
    purchases are numbered in sequence, is pending and in processing, and
    the handler sets a timer of 2000 ms for its id.  Until the timer runs
    check-completed answers false for it; when the timer has run the
    purchase is completed, delivered, and completedAt is the time the timer
    ran; a timer that runs again for the same purchase changes nothing. *)
Theorem purchase_completes_by_its_timer (ctx ctx' : Ctx.t) (later again : Z)
    (phoneNumber : string) (amount : float) (provider accountId : string)
    (currency : option string) (s : Store) :
  well_numbered s →
  phoneNumber ≠ "" → provider ≠ "" → accountId ≠ "" →
  PrimFloat.ltb 0 amount = true →
  provider ∈ Airtime.Provider.id <$> Airtime.PROVIDERS →
  ∃ purchase timer,
    let s' := snd (fst (Airtime.purchase ctx
                     (Airtime.PurchaseBody.mk (Some phoneNumber) (Some amount)
                        (Some provider) currency (Some accountId)) s)) in
    let s'' := Airtime.fire later timer s' in
    Airtime.purchase ctx
      (Airtime.PurchaseBody.mk (Some phoneNumber) (Some amount)
         (Some provider) currency (Some accountId)) s
    = (ok ctx 201 purchase (Some "Airtime purchase initiated"),
       set_airtimePurchases (s.(airtimePurchases) ++ [purchase]) s,
       Some timer)
    ∧ timer = Airtime.Timer.mk 2000 purchase.(AirtimePurchase.id)
    ∧ purchase.(AirtimePurchase.id)
      = sequenceId "air-" (length s.(airtimePurchases) + 1)
    ∧ (purchase.(AirtimePurchase.status),
       purchase.(AirtimePurchase.deliveryStatus),
       purchase.(AirtimePurchase.completedAt))
      = ("pending", "processing", None)
    ∧ purchase.(AirtimePurchase.provider) = provider
    ∧ (fst (Airtime.check_completed ctx' purchase.(AirtimePurchase.id) s'))
        .(body).(Checker.result) = false
    ∧ getAirtimePurchaseById purchase.(AirtimePurchase.id) s''
      = Some
          (AirtimePurchase.set_deliveryStatus "delivered"
             (AirtimePurchase.set_completedAt (Some (JS.toISOString later))
                (spreadAirtimePurchase purchase
                   (Airtime.status_only "completed"))))
    ∧ (fst (Airtime.check_completed ctx' purchase.(AirtimePurchase.id) s''))
        .(body).(Checker.result) = true
    ∧ Airtime.fire again timer s'' = s''.
Proof.
  intros (_ & _ & _ & _ & Hair) Hphone Hprovider Hacc Hpos Hin.
  pose proof (accepted_amount amount) as Hguard. rewrite Hpos in Hguard.
  apply andb_prop in Hguard as [Tamount Hle%negb_true_iff].
  destruct (provider_found provider Hin) as (p & Hfind & Hp).
  unfold Airtime.purchase. cbn [Airtime.PurchaseBody.phoneNumber
    Airtime.PurchaseBody.amount Airtime.PurchaseBody.provider
    Airtime.PurchaseBody.accountId Airtime.PurchaseBody.currency].
  rewrite !truthy_ne by done. rewrite Tamount, Hle. cbn [negb orb].
  rewrite Hfind, Hp. cbn [addAirtimePurchase].
  do 2 eexists. cbn zeta. split; [reflexivity|]. cbn [fst snd].
  match goal with
  | |- context [set_airtimePurchases (_ ++ [?x]) s] =>
      pose proof (getAirtimePurchaseById_pushed s x Hair eq_refl) as Hread;
      set (purchase := x) in *
  end.
  change (AirtimePurchase.id purchase)
    with (sequenceId "air-" (length s.(airtimePurchases) + 1)) in Hread |- *.
  set (id := sequenceId "air-" (length s.(airtimePurchases) + 1)) in *.
  set (s' := set_airtimePurchases (s.(airtimePurchases) ++ [purchase]) s) in *.
  destruct (getAirtimePurchaseById_find _ _ _ Hread) as [i Hi].
  set (delivered := AirtimePurchase.set_deliveryStatus "delivered"
                 (AirtimePurchase.set_completedAt (Some (JS.toISOString later))
                    (spreadAirtimePurchase purchase
                       (Airtime.status_only "completed")))).
  assert (Airtime.fire later (Airtime.Timer.mk 2000 id) s'
          = set_airtimePurchases (<[i := delivered]> s'.(airtimePurchases)) s')
    as Hfire.
  { unfold Airtime.fire, updateAirtimePurchase.
    cbn [Airtime.Timer.purchaseId]. rewrite Hi. reflexivity. }
  assert (list_find (λ p, p.(AirtimePurchase.id) = id)
            (<[i := delivered]> s'.(airtimePurchases)) = Some (i, delivered)) as Hi'.
  { eapply find_insert; [exact Hi | reflexivity]. }
  do 4 (split; [reflexivity|]).
  split; [|split; [|split]].
  - unfold Airtime.check_completed. by rewrite Hread.
  - rewrite Hfire. unfold getAirtimePurchaseById.
    cbn [airtimePurchases set_airtimePurchases]. by rewrite Hi'.
  - rewrite Hfire. unfold Airtime.check_completed, getAirtimePurchaseById.
    cbn [airtimePurchases set_airtimePurchases]. by rewrite Hi'.
  - rewrite Hfire. unfold Airtime.fire, updateAirtimePurchase.
    cbn [Airtime.Timer.purchaseId airtimePurchases set_airtimePurchases].
    rewrite Hi'.
    cbn [JS.opt_is AirtimePurchasePatch.status Airtime.status_only].
    change (String.eqb "completed" "completed") with true.
    change (AirtimePurchase.completedAt
              (spreadAirtimePurchase delivered (Airtime.status_only "completed")))
      with (Some (JS.toISOString later)).
    cbn [JS.truthy_opt]. rewrite toISOString_truthy. cbn [negb andb snd].
    rewrite list_insert_insert_eq. reflexivity.
Qed.

Lemma purchase_completes_by_its_timer_witness :
  ∃ purchase timer,
    Airtime.purchase ctx0
      (Airtime.PurchaseBody.mk (Some "+233241234567") (Some 10%float)
         (Some "Tigo") None (Some "acc-001")) seed
    = (ok ctx0 201 purchase (Some "Airtime purchase initiated"),
       set_airtimePurchases (seed.(airtimePurchases) ++ [purchase]) seed,
       Some timer)
    ∧ timer = Airtime.Timer.mk 2000 purchase.(AirtimePurchase.id)
    ∧ purchase.(AirtimePurchase.id) = "air-003".
Proof.
  assert ("Tigo" ∈ Airtime.Provider.id <$> Airtime.PROVIDERS) as Hin
    by (cbn; repeat constructor).
  destruct (purchase_completes_by_its_timer ctx0 ctx1 1705312802123
              1705312804123 "+233241234567" 10 "Tigo" "acc-001" None seed
              seed_well_numbered ltac:(discriminate) ltac:(discriminate)
              ltac:(discriminate) eq_refl Hin)
    as (purchase & timer & Hanswer & Htimer & Hid & _).
  exists purchase, timer.
  split; [exact Hanswer|]. split; [exact Htimer|]. exact Hid.
Defined.

(** ** KYC *)

(** X19: POST /kyc/customers/:customerId/refresh never refuses: for any
    customer, known or not, it answers 200 with the record that is then
    stored for the customer.  Two documents or more make the record
    approved, of low risk and with nothing pending; fewer, or none, make it
    pending, of medium risk and with two items pending, whatever it was
    before, and check-approved answers accordingly.  verifiedAt is stamped
    only for a record that was in the store already, is approved now and
    had none; otherwise it stays as it was, null for a new record. *)
Theorem refresh_outcome (ctx ctx' : Ctx.t) (customerId : string)
    (documents : option (list string)) (level : option string) (s : Store) :
  let enough :=
    match documents with Some d => (2 <=? length d)%nat | None => false end in
  let s' := snd (Kyc.refresh ctx customerId documents level s) in
  ∃ kyc,
    fst (Kyc.refresh ctx customerId documents level s)
    = ok ctx 200 kyc (Some "KYC check refreshed")
    ∧ getKycRecord customerId s' = Some kyc
    ∧ kyc.(KycRecord.customerId) = customerId
    ∧ kyc.(KycRecord.status) = (if enough then "approved" else "pending")
    ∧ kyc.(KycRecord.riskRating) = (if enough then "low" else "medium")
    ∧ kyc.(KycRecord.pendingItems)
      = (if enough then [] else ["proof_of_address"; "income_statement"])
    ∧ kyc.(KycRecord.verifiedAt)
      = match getKycRecord customerId s with
        | Some old =>
            if enough then stamp old.(KycRecord.verifiedAt) ctx.(Ctx.now)
            else old.(KycRecord.verifiedAt)
        | None => None
        end
    ∧ (fst (Kyc.check_approved ctx' customerId s')).(body).(Checker.result)
      = enough.
Proof.
  cbn zeta. unfold Kyc.refresh, Kyc.check_approved.
  set (enough :=
         match documents with Some d => (2 <=? length d)%nat | None => false end).
  unfold getKycRecord, updateKycRecord.
  destruct (list_find (λ kyc, kyc.(KycRecord.customerId) = customerId)
              s.(kycRecords)) as [[i old]|] eqn:Hfind;
    cbn [fmap option_fmap option_map snd fst].
  - destruct (find_lookup _ _ _ _ Hfind) as [Hl Hid].
    eexists. split; [reflexivity|].
    cbn [kycRecords set_kycRecords].
    erewrite find_insert; [| exact Hfind |].
    + cbn [fmap option_fmap option_map snd].
      destruct enough; cbn; unfold stamp;
        destruct (JS.truthy_opt JS.truthy_string (KycRecord.verifiedAt old));
        cbn; split_and!; done.
    + destruct enough; cbn;
        destruct (JS.truthy_opt JS.truthy_string (KycRecord.verifiedAt old));
        exact Hid.
  - eexists. split; [reflexivity|].
    cbn [kycRecords set_kycRecords].
    erewrite find_app_new; [| exact Hfind | reflexivity].
    cbn [fmap option_fmap option_map snd].
    destruct enough; cbn; split_and!; done.
Qed.

(** An approved record that is refreshed with one document is pending
    again, with the verifiedAt and expiresAt it had. *)
Example refresh_with_one_document :
  fst (Kyc.refresh ctx0 "cust-001" (Some ["id"]) None seed)
  = ok ctx0 200
      (KycRecord.mk "cust-001" "pending" "tier2" ["id"] "medium"
         (Some "2024-01-05T10:00:00Z") (Some "2025-01-05T10:00:00Z")
         ["proof_of_address"; "income_statement"] None)
      (Some "KYC check refreshed").
Proof. vm_compute. reflexivity. Qed.

(** ** Limits *)

(** X20: POST /limits/:accountId/update with a limit that is not 0 and no limit
    below 0 never answers 404: it answers 200 with the limits that are then
    stored for the account, known or not.  A limit of the request replaces
    the stored one; one the request does not give stays, or is 1000 a day
    and 10000 a month for an account that had no limits; what has been used
    is not touched (0 for a new account), and GET /limits/:accountId then
    reports limit minus used as remaining. *)
Theorem update_limits_read_back (ctx ctx' : Ctx.t) (accountId : string)
    (dailyLimit monthlyLimit : option float) (s : Store) :
  JS.truthy_opt JS.truthy_number dailyLimit
  || JS.truthy_opt JS.truthy_number monthlyLimit = true →
  (∀ d, dailyLimit = Some d → JS.lt d 0 = false) →
  (∀ m, monthlyLimit = Some m → JS.lt m 0 = false) →
  let old :=
    default
      (AccountLimit.mk accountId 1000 10000 0 0 "GHS"
         (JS.toISOString ctx.(Ctx.now)))
      (getAccountLimit accountId s) in
  let new :=
    {| AccountLimit.accountId := accountId;
       AccountLimit.dailyLimit := default old.(AccountLimit.dailyLimit) dailyLimit;
       AccountLimit.monthlyLimit :=
         default old.(AccountLimit.monthlyLimit) monthlyLimit;
       AccountLimit.dailyUsed := old.(AccountLimit.dailyUsed);
       AccountLimit.monthlyUsed := old.(AccountLimit.monthlyUsed);
       AccountLimit.currency := old.(AccountLimit.currency);
       AccountLimit.updatedAt := JS.toISOString ctx.(Ctx.now) |} in
  let s' := snd (Limits.update ctx accountId dailyLimit monthlyLimit s) in
  fst (Limits.update ctx accountId dailyLimit monthlyLimit s)
  = ok ctx 200 new (Some "Account limits updated")
  ∧ getAccountLimit accountId s' = Some new
  ∧ fst (Limits.get_by_id ctx' accountId s')
    = ok ctx' 200
        (Limits.LimitView.mk new
           (new.(AccountLimit.dailyLimit) - new.(AccountLimit.dailyUsed))%float
           (new.(AccountLimit.monthlyLimit)
            - new.(AccountLimit.monthlyUsed))%float)
        None.
Proof.
  intros Hone Hdaily Hmonthly. cbn zeta.
  unfold Limits.update, Limits.get_by_id.
  apply orb_true_iff in Hone.
  assert (negb (JS.truthy_opt JS.truthy_number dailyLimit)
          && negb (JS.truthy_opt JS.truthy_number monthlyLimit) = false) as ->.
  { destruct Hone as [-> | ->]; [done | apply andb_false_r]. }
  assert (match dailyLimit with Some d => JS.lt d 0 | None => false end = false)
    as -> by (destruct dailyLimit; eauto).
  assert (match monthlyLimit with Some m => JS.lt m 0 | None => false end
          = false) as -> by (destruct monthlyLimit; eauto).
  unfold getAccountLimit, updateAccountLimit.
  destruct (list_find (λ limit, limit.(AccountLimit.accountId) = accountId)
              s.(accountLimits)) as [[i old]|] eqn:Hfind;
    cbn [fmap option_fmap option_map snd fst default].
  - destruct (find_lookup _ _ _ _ Hfind) as [Hl Hid].
    cbn [accountLimits set_accountLimits].
    erewrite find_insert; [| exact Hfind | exact Hid].
    cbn [fmap option_fmap option_map snd]. rewrite <- Hid.
    split_and!; reflexivity.
  - cbn [accountLimits set_accountLimits].
    erewrite find_app_new; [| exact Hfind | reflexivity].
    cbn [fmap option_fmap option_map snd].
    split_and!; reflexivity.
Qed.

Lemma update_limits_read_back_witness :
  fst (Limits.update ctx0 "acc-009" (Some 200%float) None seed)
  = ok ctx0 200
      (AccountLimit.mk "acc-009" 200 10000 0 0 "GHS" "2024-01-15T10:00:00.123Z")
      (Some "Account limits updated")
  ∧ fst (Limits.get_by_id ctx1 "acc-001"
           (snd (Limits.update ctx0 "acc-001" None (Some 5000%float) seed)))
    = ok ctx1 200
        (Limits.LimitView.mk
           (AccountLimit.mk "acc-001" 1000 5000 250 1200 "GHS"
              "2024-01-15T10:00:00.123Z")
           750 3800)
        None.
Proof.
  split.
  - refine (proj1 (update_limits_read_back ctx0 ctx1 "acc-009"
                     (Some 200%float) None seed eq_refl _ _)).
    + by intros d [= <-].
    + by intros m [=].
  - refine (proj2 (proj2 (update_limits_read_back ctx0 ctx1 "acc-001" None
                            (Some 5000%float) seed eq_refl _ _))).
    + by intros d [=].
    + by intros m [= <-].
Defined.

(** ** Reading back what an update wrote *)

(** X21: what an update of the store returns is what the store then gives
    for the same key, for every resource and every patch that carries no
    key: the updated record when one was stored under the key; nothing, for
    accounts, payments, loans and airtime purchases, when none was; and the
    record the update created, for KYC records and account limits. *)
Theorem update_is_read_back (now : Z) (key : string)
    (account : AccountPatch.t) (payment : PaymentPatch.t) (loan : LoanPatch.t)
    (purchase : AirtimePurchasePatch.t) (kyc : KycRecordPatch.t)
    (limit : AccountLimitPatch.t) (s : Store) :
  account.(AccountPatch.id) = None →
  payment.(PaymentPatch.id) = None →
  loan.(LoanPatch.id) = None →
  purchase.(AirtimePurchasePatch.id) = None →
  kyc.(KycRecordPatch.customerId) = None →
  limit.(AccountLimitPatch.accountId) = None →
  getAccountById key (snd (updateAccount now key account s))
  = fst (updateAccount now key account s)
  ∧ getPaymentById key (snd (updatePayment now key payment s))
    = fst (updatePayment now key payment s)
  ∧ getLoanById key (snd (updateLoan now key loan s))
    = fst (updateLoan now key loan s)
  ∧ getAirtimePurchaseById key (snd (updateAirtimePurchase now key purchase s))
    = fst (updateAirtimePurchase now key purchase s)
  ∧ getKycRecord key (snd (updateKycRecord now key kyc s))
    = Some (fst (updateKycRecord now key kyc s))
  ∧ getAccountLimit key (snd (updateAccountLimit now key limit s))
    = Some (fst (updateAccountLimit now key limit s)).
Proof.
  intros Hacc Hpay Hloan Hair Hkyc Hlim. split_and!.
  - destruct (list_find (λ acc, acc.(Account.id) = key) s.(accounts))
      as [[i old]|] eqn:Hfind.
    + destruct (updateAccount_found now key account s i old Hfind Hacc)
        as (new & -> & Hnew).
      unfold getAccountById. cbn [fst snd accounts set_accounts].
      erewrite find_insert; [done | exact Hfind |].
      rewrite Hnew. by apply find_lookup in Hfind as [_ ?].
    + unfold updateAccount, getAccountById. by rewrite Hfind; cbn; rewrite Hfind.
  - destruct (list_find (λ pay, pay.(Payment.id) = key) s.(payments))
      as [[i old]|] eqn:Hfind.
    + destruct (updatePayment_found now key payment s i old Hfind Hpay)
        as (new & -> & Hnew).
      unfold getPaymentById. cbn [fst snd payments set_payments].
      erewrite find_insert; [done | exact Hfind |].
      rewrite Hnew. by apply find_lookup in Hfind as [_ ?].
    + unfold updatePayment, getPaymentById. by rewrite Hfind; cbn; rewrite Hfind.
  - destruct (list_find (λ loan, loan.(Loan.id) = key) s.(loans))
      as [[i old]|] eqn:Hfind.
    + destruct (updateLoan_found now key loan s i old Hfind Hloan)
        as (new & -> & Hnew).
      unfold getLoanById. cbn [fst snd loans set_loans].
      erewrite find_insert; [done | exact Hfind |].
      rewrite Hnew. by apply find_lookup in Hfind as [_ ?].
    + unfold updateLoan, getLoanById. by rewrite Hfind; cbn; rewrite Hfind.
  - destruct (list_find (λ p, p.(AirtimePurchase.id) = key)
                s.(airtimePurchases)) as [[i old]|] eqn:Hfind.
    + destruct (updateAirtimePurchase_found now key purchase s i old Hfind Hair)
        as (new & -> & Hnew).
      unfold getAirtimePurchaseById.
      cbn [fst snd airtimePurchases set_airtimePurchases].
      erewrite find_insert; [done | exact Hfind |].
      rewrite Hnew. by apply find_lookup in Hfind as [_ ?].
    + unfold updateAirtimePurchase, getAirtimePurchaseById.
      by rewrite Hfind; cbn; rewrite Hfind.
  - destruct (list_find (λ kyc, kyc.(KycRecord.customerId) = key)
                s.(kycRecords)) as [[i old]|] eqn:Hfind.
    + destruct (updateKycRecord_found now key kyc s i old Hfind Hkyc)
        as (new & -> & Hnew).
      unfold getKycRecord. cbn [fst snd kycRecords set_kycRecords].
      erewrite find_insert; [done | exact Hfind |].
      rewrite Hnew. by apply find_lookup in Hfind as [_ ?].
    + destruct (updateKycRecord_new now key kyc s Hfind Hkyc)
        as (new & -> & Hnew).
      unfold getKycRecord. cbn [fst snd kycRecords set_kycRecords].
      by erewrite find_app_new.
  - destruct (list_find (λ limit, limit.(AccountLimit.accountId) = key)
                s.(accountLimits)) as [[i old]|] eqn:Hfind.
    + destruct (updateAccountLimit_found now key limit s i old Hfind Hlim)
        as (new & -> & Hnew).
      unfold getAccountLimit. cbn [fst snd accountLimits set_accountLimits].
      erewrite find_insert; [done | exact Hfind |].
      rewrite Hnew. by apply find_lookup in Hfind as [_ ?].
    + destruct (updateAccountLimit_new now key limit s Hfind Hlim)
        as (new & -> & Hnew).
      unfold getAccountLimit. cbn [fst snd accountLimits set_accountLimits].
      by erewrite find_app_new.
Qed.

Lemma update_is_read_back_witness :
  getLoanById "loan-002"
    (snd (updateLoan 0 "loan-002" (Loans.status_only "disbursed") seed))
  = fst (updateLoan 0 "loan-002" (Loans.status_only "disbursed") seed)
  ∧ getKycRecord "cust-004"
      (snd (updateKycRecord 0 "cust-004" (Kyc.status_only "approved") seed))
    = Some (fst (updateKycRecord 0 "cust-004" (Kyc.status_only "approved")
                   seed)).
Proof.
  split.
  - exact (proj1 (proj2 (proj2
             (update_is_read_back 0 "loan-002" (Accounts.status_only "active")
                (Payments.status_only "cancelled")
                (Loans.status_only "disbursed")
                (Airtime.status_only "completed") (Kyc.status_only "approved")
                (AccountLimitPatch.mk None None None None None None None)
                seed eq_refl eq_refl eq_refl eq_refl eq_refl eq_refl)))).
  - exact (proj1 (proj2 (proj2 (proj2 (proj2
             (update_is_read_back 0 "cust-004" (Accounts.status_only "active")
                (Payments.status_only "cancelled")
                (Loans.status_only "disbursed")
                (Airtime.status_only "completed") (Kyc.status_only "approved")
                (AccountLimitPatch.mk None None None None None None None)
                seed eq_refl eq_refl eq_refl eq_refl eq_refl eq_refl)))))).
Defined.

(** A patch that carries a key breaks this: the loan is stored under the
    new id and no longer found under the old one. *)
Example update_with_a_key :
  let rekey :=
    {| LoanPatch.id := Some "loan-001"; LoanPatch.customerId := None;
       LoanPatch.accountId := None; LoanPatch.amount := None;
       LoanPatch.currency := None; LoanPatch.purpose := None;
       LoanPatch.tenure := None; LoanPatch.interestRate := None;
       LoanPatch.status := None; LoanPatch.creditScore := None;
       LoanPatch.eligible := None; LoanPatch.appliedAt := None;
       LoanPatch.approvedAt := None; LoanPatch.disbursedAt := None;
       LoanPatch.rejectionReason := None; LoanPatch.monthlyPayment := None;
       LoanPatch.remainingBalance := None |} in
  getLoanById "loan-002" (snd (updateLoan 0 "loan-002" rekey seed)) = None
  ∧ Loan.id <$> (snd (updateLoan 0 "loan-002" rekey seed)).(loans)
    = ["loan-001"; "loan-001"; "loan-003"].
Proof. vm_compute. auto. Qed.
